(** * Excel Analytics: ingestion, chart data and insights

  A shallow embedding of the spreadsheet pipeline of the Excel Analytics
  backend: the upload route of [backend/routes/files.js] (workbook
  summaries, worksheet reader) and the analytics routes with their two
  helpers [processChartData] and [generateInsights].

  JavaScript numbers are IEEE 754 binary64 values.  They are modelled by
  [spec_float] at precision 53 and maximal exponent 1024, the
  specification the kernel's primitive floats are stated against: a
  computable, axiom-free description of the same arithmetic, with one
  NaN, as in JavaScript. *)

From Stdlib Require Import List String Ascii ZArith Bool Lia.
From Stdlib Require Import SpecFloat DecimalString DecimalN Permutation Sorted.
Import ListNotations.

Local Open Scope string_scope.

(** ** JavaScript numbers *)

Module Num.

Local Open Scope Z_scope.

Definition number := spec_float.

Definition prec := 53.
Definition emax := 1024.

Definition add : number -> number -> number := SFadd prec emax.
Definition sub : number -> number -> number := SFsub prec emax.
Definition mul : number -> number -> number := SFmul prec emax.
Definition div : number -> number -> number := SFdiv prec emax.
Definition sqrt : number -> number := SFsqrt prec emax.
Definition abs : number -> number := SFabs.

(** [a < b] and [a > b]: false as soon as one side is NaN. *)
Definition lt (a b : number) : bool := SFltb a b.
Definition gt (a b : number) : bool := SFltb b a.

Definition isNaN (x : number) : bool :=
  match x with S754_nan => true | _ => false end.

Definition isZero (x : number) : bool :=
  match x with S754_zero _ => true | _ => false end.

(** ToBoolean on a number: NaN, [+0] and [-0] are falsy. *)
Definition truthy (x : number) : bool := negb (isNaN x || isZero x).

Definition zero : number := S754_zero false.
Definition NaN : number := S754_nan.

(** The number nearest to an integer (ties to even). *)
Definition ofZ (z : Z) : number := binary_normalize prec emax z 0 false.
Definition ofNat (n : nat) : number := ofZ (Z.of_nat n).

(** The number nearest to the decimal [(-1)^neg * m * 10^e10], as a numeric
    literal or a parsed string denotes it. *)
Definition ofDecimal (neg : bool) (m e10 : Z) : number :=
  match m with
  | Zpos p =>
      if 0 <=? e10
      then binary_normalize prec emax
             (if neg then - (m * 10 ^ e10) else m * 10 ^ e10) 0 false
      else SFdiv prec emax (S754_finite neg p 0)
             (S754_finite false (Z.to_pos (10 ^ (- e10))) 0)
  | _ => S754_zero neg
  end.

(** [Math.pow(x, 2)].  ECMAScript leaves the precision of [Math.pow] to the
    implementation; the square is taken here as the correctly rounded
    product, which is what the engines return for an exponent of 2. *)
Definition pow2 (x : number) : number := mul x x.

(** [Math.max] and [Math.min] over an argument list: NaN is contagious and
    [+0] is larger than [-0]. *)
Definition max2 (a b : number) : number :=
  match a, b with
  | S754_nan, _ | _, S754_nan => S754_nan
  | S754_zero sa, S754_zero sb => S754_zero (sa && sb)
  | _, _ => if SFltb a b then b else a
  end.

Definition min2 (a b : number) : number :=
  match a, b with
  | S754_nan, _ | _, S754_nan => S754_nan
  | S754_zero sa, S754_zero sb => S754_zero (sa || sb)
  | _, _ => if SFltb b a then b else a
  end.

Definition max (l : list number) : number :=
  fold_left max2 l (S754_infinity true).
Definition min (l : list number) : number :=
  fold_left min2 l (S754_infinity false).

(** *** Decimal rendering *)

Definition decimal (z : Z) : string := NilZero.string_of_uint (N.to_uint (Z.to_N z)).

Definition zeros (n : Z) : string :=
  string_of_list_ascii (repeat "0"%char (Z.to_nat n)).

(** The exact value of the positive finite number [m * 2^e], as a fraction. *)
Definition fraction (m : positive) (e : Z) : Z * Z :=
  if 0 <=? e then (Zpos m * 2 ^ e, 1) else (Zpos m, 2 ^ (- e)).

(** The fraction [pq / 10^t]. *)
Definition scale10 (pq : Z * Z) (t : Z) : Z * Z :=
  let (p, q) := pq in
  if 0 <=? t then (p, q * 10 ^ t) else (p * 10 ^ (- t), q).

(** The [n] with [10^(n-1) <= pq < 10^n], searched from a first guess [n]. *)
Fixpoint decimalExponent (fuel : nat) (pq : Z * Z) (n : Z) : Z :=
  match fuel with
  | O => n
  | S fuel' =>
      let (a, b) := scale10 pq n in
      if b <=? a then decimalExponent fuel' pq (n + 1)
      else
        let (a', b') := scale10 pq (n - 1) in
        if a' <? b' then decimalExponent fuel' pq (n - 1) else n
  end.

(** The [k]-digit decimals [s * 10^(n-k)] next to [pq] (one below or equal,
    one above) that read back as [x], the closer one first. *)
Definition candidates (x : number) (pq : Z * Z) (n k : Z) : list (Z * Z) :=
  let (a, b) := scale10 pq (n - k) in
  let s := a / b in
  let below := (s, n) in
  let above := if s + 1 =? 10 ^ k then (10 ^ (k - 1), n + 1) else (s + 1, n) in
  let dBelow := a - s * b in
  let dAbove := (s + 1) * b - a in
  let ordered :=
    if dBelow <? dAbove then [below; above]
    else if dAbove <? dBelow then [above; below]
    else if Z.even s then [below; above] else [above; below] in
  filter (fun c => SFeqb (ofDecimal false (fst c) (snd c - k)) x) ordered.

(** The shortest digit string [s] (of [k] digits) and exponent [n] with
    [s * 10^(n-k)] reading back as [x]. *)
Fixpoint shortest (fuel : nat) (x : number) (pq : Z * Z) (n k : Z) : Z * Z * Z :=
  match fuel with
  | O => (fst (scale10 pq (n - k)) / snd (scale10 pq (n - k)), n, k)
  | S fuel' =>
      match candidates x pq n k with
      | (s, n') :: _ => (s, n', k)
      | [] => shortest fuel' x pq n (k + 1)
      end
  end.

(** Number::toString of a positive finite number. *)
Definition finiteToString (m : positive) (e : Z) : string :=
  let pq := fraction m e in
  let n0 := decimalExponent 700 pq ((Z.log2 (fst pq) - Z.log2 (snd pq)) * 30103 / 100000) in
  let '(s, n, k) := shortest 17 (S754_finite false m e) pq n0 1 in
  let ds := decimal s in
  if (k <=? n) && (n <=? 21) then ds ++ zeros (n - k)
  else if (0 <? n) && (n <=? 21) then
    substring 0 (Z.to_nat n) ds ++ "." ++ substring (Z.to_nat n) (Z.to_nat (k - n)) ds
  else if (-6 <? n) && (n <=? 0) then "0." ++ zeros (- n) ++ ds
  else
    let ex := (if n - 1 <? 0 then "-" else "+") ++ decimal (Z.abs (n - 1)) in
    if k =? 1 then ds ++ "e" ++ ex
    else substring 0 1 ds ++ "." ++ substring 1 (Z.to_nat (k - 1)) ds ++ "e" ++ ex.

(** Number::toString, radix 10: what a template literal or a property key
    makes of a number. *)
Definition toString (x : number) : string :=
  match x with
  | S754_nan => "NaN"
  | S754_zero _ => "0"
  | S754_infinity s => if s then "-Infinity" else "Infinity"
  | S754_finite s m e => (if s then "-" else "") ++ finiteToString m e
  end.

(** [x.toFixed(2)]: the integer [n] with [n / 100] nearest to [x] (the
    larger one on a tie), printed with two decimals; numbers of magnitude
    [1e21] and more are printed by [toString]. *)
Definition toFixed2 (x : number) : string :=
  match x with
  | S754_finite s m e =>
      let (p, q) := fraction m e in
      if 10 ^ 21 * q <=? p then toString x
      else
        let n := (200 * p + q) / (2 * q) in
        let ds := decimal n in
        let ds := if n <? 100 then zeros (3 - Z.of_nat (String.length ds)) ++ ds else ds in
        let k := String.length ds in
        (if s then "-" else "") ++ substring 0 (k - 2) ds ++ "." ++ substring (k - 2) 2 ds
  | S754_zero _ => "0.00"
  | _ => toString x
  end.

End Num.

Abbreviation number := Num.number.

(** ** JavaScript values, strings and parseFloat *)

Module JS.

(** The values a worksheet cell or a property read may hold: the
    primitives, and a function or an object, which a row only has as a
    member inherited from [Object.prototype]; it is kept by the string it
    turns into, which is all the routes make of it. *)
Inductive value :=
| VUndefined
| VNull
| VBool (b : bool)
| VNumber (n : number)
| VString (s : string)
| VObject (text : string).

(** ToString, as a template literal and a property key apply it. *)
Definition ToString (v : value) : string :=
  match v with
  | VUndefined => "undefined"
  | VNull => "null"
  | VBool b => if b then "true" else "false"
  | VNumber n => Num.toString n
  | VString s => s
  | VObject text => text
  end.

(** [str.length]: the number of UTF-16 code units of a string.  The model
    holds a string as its UTF-8 bytes: a byte that starts a character
    counts for one unit, and for two when it starts a four-byte sequence (a
    character outside the Basic Multilingual Plane); a continuation byte
    counts for none. *)
Definition unitsOf (ch : ascii) : nat :=
  let b := nat_of_ascii ch in
  if (b <? 128)%nat then 1%nat
  else if (b <? 192)%nat then 0%nat
  else if (b <? 240)%nat then 1%nat
  else 2%nat.

Fixpoint codeUnits (str : string) : nat :=
  match str with
  | EmptyString => 0%nat
  | String ch rest => (unitsOf ch + codeUnits rest)%nat
  end.

(** *** parseFloat *)

(** White space that parseFloat skips, as UTF-8 byte sequences: TAB, LF,
    VT, FF, CR, SP, NBSP, the byte order mark and the Unicode space
    separators and line terminators. *)
Definition utf8 (bytes : list nat) : string :=
  string_of_list_ascii (map ascii_of_nat bytes).

Definition whiteSpace : list string :=
  map utf8
    ([[9]; [10]; [11]; [12]; [13]; [32]; [194; 160]; [239; 187; 191];
      [225; 154; 128]; [226; 128; 168]; [226; 128; 169]; [226; 128; 175];
      [226; 129; 159]; [227; 128; 128]]
     ++ map (fun b => [226; 128; b])
          [128; 129; 130; 131; 132; 133; 134; 135; 136; 137; 138])%list.

Definition dropPrefix (p s : string) : option string :=
  if prefix p s then Some (substring (String.length p) (String.length s - String.length p) s)
  else None.

Fixpoint firstSome {A B} (f : A -> option B) (l : list A) : option B :=
  match l with
  | [] => None
  | a :: l' => match f a with Some b => Some b | None => firstSome f l' end
  end.

Fixpoint trimStart (fuel : nat) (s : string) : string :=
  match fuel with
  | O => s
  | S fuel' =>
      match firstSome (fun w => dropPrefix w s) whiteSpace with
      | Some s' => trimStart fuel' s'
      | None => s
      end
  end.

Definition digitOf (c : ascii) : option Z :=
  let n := Z.of_nat (nat_of_ascii c) in
  if (48 <=? n)%Z && (n <=? 57)%Z then Some (n - 48)%Z else None.

(** The longest run of decimal digits at the head of [s]: its value (after
    [acc]), its length and the rest of the string. *)
Fixpoint digits (s : string) (acc : Z) (len : Z) : Z * Z * string :=
  match s with
  | String c s' =>
      match digitOf c with
      | Some d => digits s' (10 * acc + d)%Z (len + 1)%Z
      | None => (acc, len, s)
      end
  | EmptyString => (acc, len, s)
  end.

(** An exponent part [e], [E] with an optional sign and at least one
    digit; 0 when the string does not start with one. *)
Definition exponentPart (s : string) : Z :=
  match s with
  | String c s' =>
      if (c =? "e")%char || (c =? "E")%char then
        let '(neg, s'') :=
          match s' with
          | String "-"%char t => (true, t)
          | String "+"%char t => (false, t)
          | _ => (false, s')
          end in
        let '(e, len, _) := digits s'' 0 0 in
        if (len =? 0)%Z then 0%Z else if neg then (- e)%Z else e
      else 0%Z
  | EmptyString => 0%Z
  end.

(** parseFloat of a string: the longest prefix of the trimmed string that
    is a decimal literal ([Infinity], digits with an optional fraction and
    exponent, each with an optional sign), NaN when there is none. *)
Definition parseFloatString (s : string) : number :=
  let s := trimStart (String.length s) s in
  let '(neg, s) :=
    match s with
    | String "-"%char t => (true, t)
    | String "+"%char t => (false, t)
    | _ => (false, s)
    end in
  if prefix "Infinity" s then S754_infinity neg
  else
    let '(ip, ilen, s1) := digits s 0 0 in
    let '(m, flen, s2) :=
      match s1 with
      | String "."%char t => digits t ip 0
      | _ => (ip, 0%Z, s1)
      end in
    if (ilen + flen =? 0)%Z then Num.NaN
    else Num.ofDecimal neg m (exponentPart s2 - flen).

(** parseFloat of any value: of its string form. *)
Definition parseFloat (v : value) : number := parseFloatString (ToString v).

(** [parseFloat(v) || d]: the parsed number unless it is NaN or zero. *)
Definition parseFloatOr (v : value) (d : number) : number :=
  let p := parseFloat v in if Num.truthy p then p else d.

(** *** Objects used as records *)

(** A row of [sheet_to_json]: the fields it holds, in creation order. *)
Definition object := list (string * value).

Fixpoint lookup {A} (k : string) (o : list (string * A)) : option A :=
  match o with
  | [] => None
  | (k', v) :: o' => if k' =? k then Some v else lookup k o'
  end.

(** The members a plain object inherits from [Object.prototype], each with
    the string its value turns into: the source text of a built-in
    function, and [[object Object]] for the prototype that the
    [__proto__] accessor returns. *)
Definition inheritedText (k : string) : option string :=
  if k =? "__proto__" then Some "[object Object]"
  else if k =? "constructor" then Some "function Object() { [native code] }"
  else if existsb (String.eqb k)
            ["__defineGetter__"; "__defineSetter__"; "hasOwnProperty";
             "__lookupGetter__"; "__lookupSetter__"; "isPrototypeOf";
             "propertyIsEnumerable"; "toString"; "valueOf"; "toLocaleString"]
       then Some ("function " ++ k ++ "() { [native code] }")
  else None.

Definition inherited (k : string) : bool :=
  match inheritedText k with Some _ => true | None => false end.

(** [row[k]]: the row's own field; for a name the row does not hold, the
    member of that name inherited from [Object.prototype], and undefined
    when there is none. *)
Definition get (o : object) (k : string) : value :=
  match lookup k o with
  | Some v => v
  | None =>
      match inheritedText k with
      | Some text => VObject text
      | None => VUndefined
      end
  end.

(** An array index: the canonical decimal form of an integer below
    [2^32 - 1]. *)
Definition arrayIndex (k : string) : option Z :=
  let '(n, len, rest) := digits k 0 0 in
  if (rest =? "") && (0 <? len)%Z && (k =? Num.decimal n) && (n <=? 4294967294)%Z
  then Some n else None.

Fixpoint insertIndex {A} (n : Z) (k : string) (v : A) (l : list (Z * (string * A))) :=
  match l with
  | [] => [(n, (k, v))]
  | (m, kv) :: l' =>
      if (n <? m)%Z then (n, (k, v)) :: l else (m, kv) :: insertIndex n k v l'
  end.

Fixpoint indexEntries {A} (o : list (string * A)) : list (Z * (string * A)) :=
  match o with
  | [] => []
  | (k, v) :: o' =>
      match arrayIndex k with
      | Some n => insertIndex n k v (indexEntries o')
      | None => indexEntries o'
      end
  end.

Definition isIndex (k : string) : bool :=
  match arrayIndex k with Some _ => true | None => false end.

(** The own properties in the order [Object.keys], [Object.values] and
    [for-in] enumerate them: array indices in ascending order, then the
    other keys in creation order. *)
Definition ownEntries {A} (o : list (string * A)) : list (string * A) :=
  map snd (indexEntries o) ++ filter (fun kv => negb (isIndex (fst kv))) o.

Definition Object_keys {A} (o : list (string * A)) : list string := map fst (ownEntries o).
Definition Object_values {A} (o : list (string * A)) : list A := map snd (ownEntries o).

(** *** A fresh object literal used as an accumulator *)

(** [(o[k] || 0) + v] for a number [v]: numeric addition, unless [o[k]] is
    a string, an object or an inherited member, which [+] concatenates with
    the string form of [v]. *)
Definition orZeroPlus (o : object) (k : string) (v : number) : value :=
  match lookup k o with
  | Some (VNumber n) => VNumber (Num.add (if Num.truthy n then n else Num.zero) v)
  | Some (VString s) =>
      if s =? "" then VNumber (Num.add Num.zero v) else VString (s ++ Num.toString v)
  | Some (VBool true) => VNumber (Num.add (Num.ofZ 1) v)
  | Some (VBool false) | Some VNull | Some VUndefined => VNumber (Num.add Num.zero v)
  | Some (VObject text) => VString (text ++ Num.toString v)
  | None =>
      match inheritedText k with
      | Some t => VString (t ++ Num.toString v)
      | None => VNumber (Num.add Num.zero v)
      end
  end.

Fixpoint update (k : string) (v : value) (o : object) : object :=
  match o with
  | [] => [(k, v)]
  | (k', v') :: o' => if k' =? k then (k', v) :: o' else (k', v') :: update k v o'
  end.

(** [o[k] = v] for a primitive [v]: an own property is overwritten in
    place, a new one is created last; the [__proto__] setter ignores
    primitives. *)
Definition set (o : object) (k : string) (v : value) : object :=
  if k =? "__proto__" then o else update k v o.

End JS.

Import JS.

(** ** Results of code that may throw, and HTTP replies *)

Inductive result (A : Type) :=
| Ok (a : A)
| Throw (message : string).

Arguments Ok {A} a.
Arguments Throw {A} message.

(** What a result holds, under a projection. *)
Definition mapResult {A B} (f : A -> B) (r : result A) : result B :=
  match r with
  | Ok a => Ok (f a)
  | Throw m => Throw m
  end.

(** What a route answers: a status code with its payload, or with the
    message of a rejection. *)
Inductive reply (A : Type) :=
| Success (code : nat) (body : A)
| Failure (code : nat) (message : string).

Arguments Success {A} code body.
Arguments Failure {A} code message.

(** The authenticated caller, as the auth middleware leaves it in
    [req.user]. *)
Record user := { userId : string; role : string }.

(** ** The helpers of the analytics routes *)

Module Analytics.

(** An axis selection of the request body. *)
Record axis := { column : string; label : option string }.

(** An element of a series: a value, or a 3D point. *)
Inductive datum :=
| Scalar (v : value)
| Point (x y z : number).

Record dataset := {
  ds_label : string;
  ds_data : list datum;
  backgroundColor : list string;
  borderColor : string;
  borderWidth : number
}.

Record chartData := { labels : list value; datasets : list dataset }.

Definition withData (d : dataset) (l : list datum) : dataset :=
  {| ds_label := ds_label d; ds_data := l; backgroundColor := backgroundColor d;
     borderColor := borderColor d; borderWidth := borderWidth d |}.

Definition withBackground (d : dataset) (c : list string) : dataset :=
  {| ds_label := ds_label d; ds_data := ds_data d; backgroundColor := c;
     borderColor := borderColor d; borderWidth := borderWidth d |}.

Fixpoint mapiFrom {A B} (f : A -> nat -> B) (l : list A) (i : nat) : list B :=
  match l with
  | [] => []
  | a :: l' => f a i :: mapiFrom f l' (S i)
  end.

(** [l.map((a, index) => f(a, index))] *)
Definition mapi {A B} (f : A -> nat -> B) (l : list A) : list B := mapiFrom f l 0.

Fixpoint filteriFrom {A} (f : A -> nat -> bool) (l : list A) (i : nat) : list A :=
  match l with
  | [] => []
  | a :: l' => if f a i then a :: filteriFrom f l' (S i) else filteriFrom f l' (S i)
  end.

(** [l.filter((a, index) => f(a, index))] *)
Definition filteri {A} (f : A -> nat -> bool) (l : list A) : list A := filteriFrom f l 0.

(** [parseFloat(row[column]) || 0] *)
Definition coerce (row : object) (col : string) : number :=
  parseFloatOr (get row col) Num.zero.

Definition defaultPalette : list string :=
  ["#3498db"; "#e74c3c"; "#2ecc71"; "#f39c12"; "#9b59b6";
   "#1abc9c"; "#34495e"; "#e67e22"; "#95a5a6"; "#9c88ff"].

(** [zAxis && zAxis.column] *)
Definition hasZ (zAxis : option axis) : bool :=
  match zAxis with
  | Some z => negb (column z =? "")
  | None => false
  end.

Definition zColumn (zAxis : option axis) : string :=
  match zAxis with Some z => column z | None => "" end.

Definition proportional (chartType : string) : bool :=
  (chartType =? "pie") || (chartType =? "doughnut").

(** The [forEach] of the pie branch: one step per row on the accumulator. *)
Definition aggregateStep (xAxis yAxis : axis) (aggregated : object) (row : object) : object :=
  let key := ToString (get row (column xAxis)) in
  let value := coerce row (column yAxis) in
  set aggregated key (orZeroPlus aggregated key value).

Definition aggregate (data : list object) (xAxis yAxis : axis) : object :=
  fold_left (aggregateStep xAxis yAxis) data [].

Definition processChartData (data : list object) (chartType : string)
    (xAxis yAxis : axis) (zAxis : option axis) (colors : option (list string))
    : chartData :=
  let labels := map (fun row => get row (column xAxis)) data in
  let yData := map (fun row => coerce row (column yAxis)) data in
  let series :=
    {| ds_label := match label yAxis with
                   | Some l => if l =? "" then column yAxis else l
                   | None => column yAxis
                   end;
       ds_data := map (fun y => Scalar (VNumber y)) yData;
       backgroundColor := match colors with Some c => c | None => ["#3498db"] end;
       borderColor := match colors with
                      | Some (c :: _) => if c =? "" then "#3498db" else c
                      | _ => "#3498db"
                      end;
       borderWidth := Num.ofZ 2 |} in
  (* Handle 3D data *)
  let series :=
    if hasZ zAxis then
      let zData := map (fun row => coerce row (zColumn zAxis)) data in
      withData series
        (mapi (fun row index =>
                 Point (parseFloatOr (get row (column xAxis)) (Num.ofNat index))
                       (nth index yData Num.NaN)
                       (nth index zData Num.NaN)) data)
    else series in
  (* Handle different chart types *)
  if proportional chartType then
    let aggregated := aggregate data xAxis yAxis in
    {| labels := map VString (Object_keys aggregated);
       datasets :=
         [withBackground (withData series (map Scalar (Object_values aggregated)))
            (match colors with Some c => c | None => defaultPalette end)] |}
  else {| labels := labels; datasets := [series] |}.

Record insights := {
  summary : string;
  trends : list string;
  correlations : list string;
  outliers : list string;
  aiGenerated : bool
}.

(** [l.reduce((sum, val) => sum + val, 0)] *)
Definition sum (l : list number) : number := fold_left Num.add l Num.zero.

(** [sum / l.length] *)
Definition average (l : list number) : number :=
  Num.div (sum l) (Num.ofNat (List.length l)).

(** [f(...args)]: a call with the elements of an array as its arguments.
    An engine takes only so many arguments in one call and throws a
    RangeError beyond that; the number depends on the engine and its stack
    size, and is a parameter here. *)
Definition spread {A} (argumentLimit : N) (f : list number -> A) (args : list number)
    : result A :=
  if (argumentLimit <? N.of_nat (List.length args))%N
  then Throw "Maximum call stack size exceeded"
  else Ok (f args).

Definition generateInsights (argumentLimit : N) (data : list object) (xAxis yAxis : axis)
    (zAxis : option axis) : result insights :=
  let yValues := map (fun row => coerce row (column yAxis)) data in
  let mean := average yValues in
  match spread argumentLimit Num.max yValues with
  | Throw m => Throw m
  | Ok max =>
  match spread argumentLimit Num.min yValues with
  | Throw m => Throw m
  | Ok min =>
  let summary :=
    "Dataset contains " ++ Num.toString (Num.ofNat (List.length data)) ++ " records. "
    ++ column yAxis ++ " ranges from " ++ Num.toFixed2 min ++ " to "
    ++ Num.toFixed2 max ++ " with an average of " ++ Num.toFixed2 mean ++ "." in
  (* Simple trend analysis *)
  let trends :=
    if (1 <? List.length yValues)%nat then
      let firstHalf := firstn (List.length yValues / 2) yValues in
      let secondHalf := skipn (List.length yValues / 2) yValues in
      let firstAvg := average firstHalf in
      let secondAvg := average secondHalf in
      if Num.gt secondAvg (Num.mul firstAvg (Num.ofDecimal false 11 (-1))) then
        ["Upward trend detected in the data"]
      else if Num.lt secondAvg (Num.mul firstAvg (Num.ofDecimal false 9 (-1))) then
        ["Downward trend detected in the data"]
      else ["Relatively stable trend in the data"]
    else [] in
  (* Outlier detection (simple method) *)
  let stdDev :=
    Num.sqrt (Num.div
                (fold_left (fun sum val => Num.add sum (Num.pow2 (Num.sub val mean)))
                   yValues Num.zero)
                (Num.ofNat (List.length yValues))) in
  let outliers :=
    filteri (fun row index =>
               let value := nth index yValues Num.NaN in
               Num.gt (Num.abs (Num.sub value mean)) (Num.mul (Num.ofZ 2) stdDev))
      data in
  Ok {| summary := summary;
        trends := trends;
        correlations := [];
        outliers :=
          if (0 <? List.length outliers)%nat
          then map (fun row => ToString (get row (column xAxis)) ++ ": "
                               ++ ToString (get row (column yAxis))) outliers
          else [];
        aiGenerated := false |}
  end
  end.

End Analytics.

(** ** The SheetJS workbook (the part of it the routes read) *)

Module XLSX.

(** A worksheet: its ['!ref'] entry and the [v] field of the cell object
    stored under each occupied address. *)
Record worksheet := { ref : option string; cells : list (string * value) }.

Record workbook := { SheetNames : list string; Sheets : list (string * worksheet) }.

Record cellAddress := { r : Z; c : Z }.
Record range := { s : cellAddress; e : cellAddress }.

(** [decode_cell]: digits accumulate the row, capital letters the column in
    base 26, other characters are skipped; both are then made zero-based.
    Cell coordinates are kept as integers: they stay far below [2^53], where
    the arithmetic of JavaScript numbers is exact. *)
Fixpoint decode_cell_from (cstr : string) (R C : Z) : cellAddress :=
  match cstr with
  | EmptyString => {| r := R - 1; c := C - 1 |}
  | String ch rest =>
      let cc := Z.of_nat (nat_of_ascii ch) in
      if (48 <=? cc)%Z && (cc <=? 57)%Z then decode_cell_from rest (10 * R + (cc - 48)) C
      else if (65 <=? cc)%Z && (cc <=? 90)%Z then decode_cell_from rest R (26 * C + (cc - 64))
      else decode_cell_from rest R C
  end.

Definition decode_cell (cstr : string) : cellAddress := decode_cell_from cstr 0 0.

(** The parts of [str] before and after its first colon. *)
Fixpoint splitColon (str : string) : string * option string :=
  match str with
  | EmptyString => (EmptyString, None)
  | String ":"%char rest => (EmptyString, Some rest)
  | String ch rest => let (a, b) := splitColon rest in (String ch a, b)
  end.

Definition decode_range (str : string) : range :=
  match splitColon str with
  | (a, Some b) => {| s := decode_cell a; e := decode_cell b |}
  | (a, None) => {| s := decode_cell a; e := decode_cell a |}
  end.

(** [x | 0] on an integer: ToInt32. *)
Definition toInt32 (z : Z) : Z := ((z + 2 ^ 31) mod 2 ^ 32 - 2 ^ 31)%Z.

(** The loop of [encode_cell] over the one-based column:
    [for(; col; col = ((col-1)/26)|0) s = String.fromCharCode(((col-1)%26) + 65) + s],
    with the remainder and the truncation of JavaScript, which round
    towards zero.  After its first step the column is a 32-bit integer, so
    the loop ends within eight steps. *)
Fixpoint encode_letters (fuel : nat) (col : Z) (acc : string) : string :=
  match fuel with
  | O => acc
  | S fuel' =>
      if (col =? 0)%Z then acc
      else encode_letters fuel' (toInt32 (Z.quot (col - 1) 26))
             (String (ascii_of_nat (Z.to_nat (Z.rem (col - 1) 26 + 65))) acc)
  end.

(** The string form of the one-based row. *)
Definition encode_row (row : Z) : string :=
  if (row + 1 <? 0)%Z then "-" ++ Num.decimal (- (row + 1)) else Num.decimal (row + 1).

(** [encode_cell]: the letters of the column, then the row. *)
Definition encode_cell (a : cellAddress) : string :=
  encode_letters 16 (c a + 1) "" ++ encode_row (r a).

(** [encode_range]: the text a parsed sheet has under ['!ref']: one cell
    when the corners coincide, the two corners around a colon otherwise. *)
Definition encode_range (rg : range) : string :=
  if encode_cell (s rg) =? encode_cell (e rg) then encode_cell (s rg)
  else encode_cell (s rg) ++ ":" ++ encode_cell (e rg).

End XLSX.

(** ** The file routes (backend/routes/files.js) *)

Module Files.

Inductive status := processing | completed | error.

Definition status_eqb (a b : status) : bool :=
  match a, b with
  | processing, processing | completed, completed | error, error => true
  | _, _ => false
  end.

(** A worksheet summary: as the upload route builds it, with the headers as
    the cells hold them, and as the File schema keeps it, with the headers
    cast to strings (see [castSummary]). *)
Record summary := {
  name : string;
  rowCount : Z;
  columnCount : Z;
  columns : list value
}.

Record metadata := {
  totalRows : number;
  totalColumns : number;
  worksheetCount : number
}.

(** A File document: the fields of the schema the routes read or write. *)
Record file := {
  filePath : string;
  fileSize : Z;
  mimeType : string;
  uploadedBy : string;
  isPublic : bool;
  fileStatus : status;
  processingError : option string;
  worksheets : list summary;
  fileMetadata : option metadata
}.

(** What multer hands to the upload route in [req.file]. *)
Record upload := {
  up_path : string;
  up_size : Z;
  up_mimetype : string;
  up_isPublic : bool
}.

(** The header loop: [for (col = from; col <= range.e.c; col++)], with
    [count] columns left to visit. *)
Fixpoint headersFrom (ws : XLSX.worksheet) (row : Z) (col : Z) (count : nat)
    : list value :=
  match count with
  | O => []
  | S count' =>
      let cellAddress := XLSX.encode_cell {| XLSX.r := row; XLSX.c := col |} in
      let header :=
        match lookup cellAddress (XLSX.cells ws) with
        | Some v => v
        | None => VString ("Column " ++ Num.toString (Num.ofZ (col + 1)))
        end in
      header :: headersFrom ws row (col + 1) count'
  end.

(** The range of a sheet: [decode_range(worksheet['!ref'] || 'A1:A1')]. *)
Definition sheetRange (ws : XLSX.worksheet) : XLSX.range :=
  XLSX.decode_range
    match XLSX.ref ws with
    | Some str => if str =? "" then "A1:A1" else str
    | None => "A1:A1"
    end.

(** The body of [workbook.SheetNames.forEach]: the summary of one sheet. *)
Definition summarize (sheetName : string) (ws : XLSX.worksheet) : summary :=
  let range := sheetRange ws in
  let first := XLSX.c (XLSX.s range) in
  let last := XLSX.c (XLSX.e range) in
  {| name := sheetName;
     rowCount := XLSX.r (XLSX.e range) - XLSX.r (XLSX.s range) + 1;
     columnCount := last - first + 1;
     columns := headersFrom ws (XLSX.r (XLSX.s range)) first (Z.to_nat (last - first + 1)) |}.

(** The [forEach] over the sheet names; reading ['!ref'] of a sheet the
    workbook does not hold throws. *)
Fixpoint summarizeAll (wb : XLSX.workbook) (names : list string) : result (list summary) :=
  match names with
  | [] => Ok []
  | sheetName :: names' =>
      match lookup sheetName (XLSX.Sheets wb) with
      | None => Throw "Cannot read properties of undefined (reading '!ref')"
      | Some ws =>
          match summarizeAll wb names' with
          | Ok rest => Ok (summarize sheetName ws :: rest)
          | Throw m => Throw m
          end
      end
  end.

(** The cast of the schema's [columns: [String]], applied when the
    summaries are assigned to the record: a number and a boolean become
    their string forms, null and undefined stay.  (The cells of a workbook
    read with the default options hold primitives.) *)
Definition castString (v : value) : value :=
  match v with
  | VUndefined => VUndefined
  | VNull => VNull
  | v => VString (ToString v)
  end.

Definition castSummary (sm : summary) : summary :=
  {| name := name sm; rowCount := rowCount sm; columnCount := columnCount sm;
     columns := map castString (columns sm) |}.

Section Routes.

(** The two entry points of the SheetJS library the routes call: reading a
    workbook from a path, which may throw, and turning a sheet (undefined
    when the workbook has none of that name) into row objects. *)
Variable readFile : string -> result XLSX.workbook.
Variable sheet_to_json : option XLSX.worksheet -> list object.

(** The record the upload route creates, before the workbook is processed:
    the schema's defaults for the fields not given. *)
Definition newFile (up : upload) (owner : user) : file :=
  {| filePath := up_path up;
     fileSize := up_size up;
     mimeType := up_mimetype up;
     uploadedBy := userId owner;
     isPublic := up_isPublic up;
     fileStatus := processing;
     processingError := None;
     worksheets := [];
     fileMetadata := None |}.

(** The [try]/[catch] of the upload route: the record as it is saved. *)
Definition processUpload (up : upload) (owner : user) : file :=
  let fileRecord := newFile up owner in
  let processed :=
    match readFile (up_path up) with
    | Throw m => Throw m
    | Ok workbook => summarizeAll workbook (XLSX.SheetNames workbook)
    end in
  match processed with
  | Ok sheets =>
      {| filePath := filePath fileRecord;
         fileSize := fileSize fileRecord;
         mimeType := mimeType fileRecord;
         uploadedBy := uploadedBy fileRecord;
         isPublic := isPublic fileRecord;
         fileStatus := completed;
         processingError := processingError fileRecord;
         worksheets := map castSummary sheets;
         fileMetadata :=
           Some {| totalRows :=
                     fold_left (fun sum ws => Num.add sum (Num.ofZ (rowCount ws)))
                       sheets Num.zero;
                   totalColumns := Num.max (map (fun ws => Num.ofZ (columnCount ws)) sheets);
                   worksheetCount := Num.ofNat (List.length sheets) |} |}
  | Throw m =>
      {| filePath := filePath fileRecord;
         fileSize := fileSize fileRecord;
         mimeType := mimeType fileRecord;
         uploadedBy := uploadedBy fileRecord;
         isPublic := isPublic fileRecord;
         fileStatus := error;
         processingError := Some m;
         worksheets := worksheets fileRecord;
         fileMetadata := fileMetadata fileRecord |}
  end.

(** POST /api/files/upload *)
Definition uploadRoute (reqFile : option upload) (caller : user) : reply file :=
  match reqFile with
  | None => Failure 400 "No file uploaded"
  | Some up => Success 201 (processUpload up caller)
  end.

(** The owner, a public file or an administrator. *)
Definition mayRead (f : file) (caller : user) : bool :=
  (uploadedBy f =? userId caller) || isPublic f || (role caller =? "admin").

Record worksheetData := {
  wd_worksheetName : string;
  wd_data : list object;
  wd_rowCount : nat;
  wd_columns : list string
}.

(** GET /api/files/:id/data/:worksheet, over the stored File documents. *)
Definition worksheetDataRoute (files : list (string * file)) (id worksheetName : string)
    (caller : user) : reply worksheetData :=
  match lookup id files with
  | None => Failure 404 "File not found"
  | Some f =>
      if negb (mayRead f caller) then Failure 403 "Access denied"
      else if negb (status_eqb (fileStatus f) completed)
      then Failure 400 "File is not processed yet"
      else
        match readFile (filePath f) with
        | Throw _ => Failure 500 "Error fetching worksheet data"
        | Ok workbook =>
            if negb (existsb (String.eqb worksheetName) (XLSX.SheetNames workbook))
            then Failure 404 "Worksheet not found"
            else
              let worksheet := lookup worksheetName (XLSX.Sheets workbook) in
              let data := sheet_to_json worksheet in
              Success 200
                {| wd_worksheetName := worksheetName;
                   wd_data := data;
                   wd_rowCount := List.length data;
                   wd_columns := Object_keys (nth 0 data []) |}
        end
  end.

End Routes.

End Files.

(** ** The analytics routes *)

Module Api.

Import Analytics.

Record chartConfig := {
  xAxis : axis;
  yAxis : axis;
  zAxis : option axis;
  title : string;
  colors : list string
}.

Record shareSettings := {
  sharePublic : bool;
  sharedWith : list (string * string)
}.

(** An Analytics document: the fields of the schema. *)
Record document := {
  fileId : string;
  ownerId : string;
  chartType : string;
  config : chartConfig;
  chart : chartData;
  insight : insights;
  isBookmarked : bool;
  share : shareSettings;
  viewCount : Z;
  downloadCount : Z
}.

(** The body of POST /create. *)
Record createBody := {
  c_fileId : string;
  c_chartType : string;
  c_xAxis : axis;
  c_yAxis : axis;
  c_zAxis : option axis;
  c_title : option string;
  c_colors : option (list string);
  c_worksheetName : option string
}.

(** The body of PUT /:id. *)
Record sharePatch := {
  p_isPublic : option bool;
  p_sharedWith : option (list (string * string))
}.

Record updateBody := {
  u_title : option string;
  u_colors : option (list string);
  u_isBookmarked : option bool;
  u_shareSettings : option sharePatch
}.

(** The chart types the schema's [enum] lets [save] accept. *)
Definition chartTypes : list string :=
  ["line"; "bar"; "pie"; "doughnut"; "scatter"; "area"; "3d-bar"; "3d-scatter"; "3d-surface"].

Definition includes (l : list string) (x : string) : bool := existsb (String.eqb x) l.

(** [worksheetName || workbook.SheetNames[0]], as the key it is used as. *)
Definition sheetKey (worksheetName : option string) (workbook : XLSX.workbook) : string :=
  let first := match XLSX.SheetNames workbook with n :: _ => n | [] => "undefined" end in
  match worksheetName with
  | Some n => if n =? "" then first else n
  | None => first
  end.

Section Routes.

(** The engine's limit on the arguments of a call, and the two entry points
    of the SheetJS library. *)
Variable argumentLimit : N.
Variable readFile : string -> result XLSX.workbook.
Variable sheet_to_json : option XLSX.worksheet -> list object.

(** POST /api/analytics/create, up to the document handed to [save]; any
    exception on the way is answered 500 by the [catch] of the route. *)
Definition createChart (files : list (string * Files.file)) (body : createBody)
    (caller : user) : reply document :=
  match lookup (c_fileId body) files with
  | None => Failure 404 "File not found"
  | Some file =>
      if negb (Files.mayRead file caller) then Failure 403 "Access denied to file"
      else if negb (Files.status_eqb (Files.fileStatus file) Files.completed)
      then Failure 400 "File is not processed yet"
      else
        match readFile (Files.filePath file) with
        | Throw _ => Failure 500 "Error creating analytics"
        | Ok workbook =>
            let sheetName := sheetKey (c_worksheetName body) workbook in
            let worksheet := lookup sheetName (XLSX.Sheets workbook) in
            let data := sheet_to_json worksheet in
            if (List.length data =? 0)%nat then Failure 400 "No data found in worksheet"
            else
              let columns := Object_keys (nth 0 data []) in
              if negb (includes columns (column (c_xAxis body)))
              then Failure 400 ("Column " ++ column (c_xAxis body) ++ " not found")
              else if negb (includes columns (column (c_yAxis body)))
              then Failure 400 ("Column " ++ column (c_yAxis body) ++ " not found")
              else if hasZ (c_zAxis body) && negb (includes columns (zColumn (c_zAxis body)))
              then Failure 400 ("Column " ++ zColumn (c_zAxis body) ++ " not found")
              else
                let chartData :=
                  processChartData data (c_chartType body) (c_xAxis body) (c_yAxis body)
                    (c_zAxis body) (c_colors body) in
                match generateInsights argumentLimit data (c_xAxis body) (c_yAxis body)
                        (c_zAxis body) with
                | Throw _ => Failure 500 "Error creating analytics"
                | Ok insights =>
                    let analytics :=
                      {| fileId := c_fileId body;
                         ownerId := userId caller;
                         chartType := c_chartType body;
                         config :=
                           {| xAxis := c_xAxis body;
                              yAxis := c_yAxis body;
                              zAxis := c_zAxis body;
                              title :=
                                match c_title body with
                                | Some t =>
                                    if t =? "" then c_chartType body ++ " Chart" else t
                                | None => c_chartType body ++ " Chart"
                                end;
                              colors :=
                                match c_colors body with
                                | Some cs => cs
                                | None =>
                                    ["#3498db"; "#e74c3c"; "#2ecc71"; "#f39c12"; "#9b59b6"]
                                end |};
                         chart := chartData;
                         insight := insights;
                         isBookmarked := false;
                         share := {| sharePublic := false; sharedWith := [] |};
                         viewCount := 0;
                         downloadCount := 0 |} in
                    (* save() validates chartType against the schema's enum *)
                    if includes chartTypes (c_chartType body) then Success 201 analytics
                    else Failure 500 "Error creating analytics"
                end
        end
  end.

(** The stored Analytics documents, by identifier. *)
Definition store := list (string * document).

Fixpoint replace (id : string) (d : document) (st : store) : store :=
  match st with
  | [] => []
  | (id', d') :: st' => if id' =? id then (id', d) :: st' else (id', d') :: replace id d st'
  end.

Definition remove (id : string) (st : store) : store :=
  filter (fun kv => negb (fst kv =? id)) st.

(** [analytics.viewCount += 1] *)
Definition viewed (a : document) : document :=
  {| fileId := fileId a; ownerId := ownerId a; chartType := chartType a;
     config := config a; chart := chart a; insight := insight a;
     isBookmarked := isBookmarked a; share := share a;
     viewCount := viewCount a + 1; downloadCount := downloadCount a |}.

(** The four conditional assignments of PUT /:id. *)
Definition applyUpdate (a : document) (body : updateBody) : document :=
  let title' :=
    match u_title body with
    | Some t => if t =? "" then title (config a) else t
    | None => title (config a)
    end in
  let colors' :=
    match u_colors body with Some cs => cs | None => colors (config a) end in
  let bookmarked' :=
    match u_isBookmarked body with Some b => b | None => isBookmarked a end in
  let share' :=
    match u_shareSettings body with
    | Some p =>
        {| sharePublic := match p_isPublic p with Some b => b | None => sharePublic (share a) end;
           sharedWith :=
             match p_sharedWith p with Some l => l | None => sharedWith (share a) end |}
    | None => share a
    end in
  {| fileId := fileId a; ownerId := ownerId a; chartType := chartType a;
     config := {| xAxis := xAxis (config a); yAxis := yAxis (config a);
                  zAxis := zAxis (config a); title := title'; colors := colors' |};
     chart := chart a; insight := insight a;
     isBookmarked := bookmarked'; share := share';
     viewCount := viewCount a; downloadCount := downloadCount a |}.

Definition isAdmin (caller : user) : bool := role caller =? "admin".

(** The requests that write Analytics documents.  [Create] carries the
    identifier the new document is given. *)
Inductive request :=
| Create (newId : string) (body : createBody)
| Get (id : string)
| Put (id : string) (body : updateBody)
| Delete (id : string).

Inductive payload :=
| Document (a : document)
| Message (m : string).

Definition handle (files : list (string * Files.file)) (caller : user) (req : request)
    (st : store) : store * reply payload :=
  match req with
  | Create newId body =>
      match createChart files body caller with
      | Failure code m => (st, Failure code m)
      | Success code analytics =>
          match lookup newId st with
          | Some _ => (st, Failure 500 "Error creating analytics")
          | None => ((st ++ [(newId, analytics)])%list, Success code (Document analytics))
          end
      end
  | Get id =>
      match lookup id st with
      | None => (st, Failure 404 "Analytics not found")
      | Some analytics =>
          if negb (ownerId analytics =? userId caller)
             && negb (sharePublic (share analytics)) && negb (isAdmin caller)
          then (st, Failure 403 "Access denied")
          else
            let analytics := viewed analytics in
            (replace id analytics st, Success 200 (Document analytics))
      end
  | Put id body =>
      match lookup id st with
      | None => (st, Failure 404 "Analytics not found")
      | Some analytics =>
          if negb (ownerId analytics =? userId caller) && negb (isAdmin caller)
          then (st, Failure 403 "Access denied")
          else
            let analytics := applyUpdate analytics body in
            (replace id analytics st, Success 200 (Document analytics))
      end
  | Delete id =>
      match lookup id st with
      | None => (st, Failure 404 "Analytics not found")
      | Some analytics =>
          if negb (ownerId analytics =? userId caller) && negb (isAdmin caller)
          then (st, Failure 403 "Access denied")
          else (remove id st, Success 200 (Message "Analytics deleted successfully"))
      end
  end.

(** A sequence of requests, each by its own caller. *)
Fixpoint run (files : list (string * Files.file)) (reqs : list (user * request))
    (st : store) : store :=
  match reqs with
  | [] => st
  | (caller, req) :: reqs' => run files reqs' (fst (handle files caller req st))
  end.

End Routes.

End Api.

(** ** The properties, in the words of the specification *)

Module Spec.

Import Analytics.

(** The Y-column of the records, coerced. *)
Definition yValues (data : list object) (yAxis : axis) : list number :=
  map (fun row => coerce row (column yAxis)) data.

(** The population standard deviation: the root of the mean squared
    deviation from the mean. *)
Definition populationStdDev (ys : list number) : number :=
  Num.sqrt
    (Num.div
       (fold_left (fun acc v => Num.add acc (Num.pow2 (Num.sub v (average ys)))) ys Num.zero)
       (Num.ofNat (List.length ys))).

(** A value deviates from the mean by more than two standard deviations. *)
Definition isOutlier (ys : list number) (v : number) : bool :=
  Num.gt (Num.abs (Num.sub v (average ys))) (Num.mul (Num.ofZ 2) (populationStdDev ys)).

(** ["<X-value>: <Y-value>"] *)
Definition render (xAxis yAxis : axis) (row : object) : string :=
  ToString (get row (column xAxis)) ++ ": " ++ ToString (get row (column yAxis)).

Inductive trend := upward | downward | stable.

Definition trendText (t : trend) : string :=
  match t with
  | upward => "Upward trend detected in the data"
  | downward => "Downward trend detected in the data"
  | stable => "Relatively stable trend in the data"
  end.

Definition tenPercentMore (x : number) : number := Num.mul x (Num.ofDecimal false 11 (-1)).
Definition tenPercentLess (x : number) : number := Num.mul x (Num.ofDecimal false 9 (-1)).

(** The trend of a sequence split at [floor(n/2)]: upward when the second
    mean is above 110% of the first, downward when it is below 90% of the
    first, stable otherwise. *)
Definition classify (ys : list number) : trend :=
  let half := (List.length ys / 2)%nat in
  let first := average (firstn half ys) in
  let second := average (skipn half ys) in
  if Num.gt second (tenPercentMore first) then upward
  else if Num.lt second (tenPercentLess first) then downward
  else stable.

(** The mean of the first half. *)
Definition firstMean (ys : list number) : number :=
  average (firstn (List.length ys / 2) ys).

(** The reading of "downward" that the specification glosses as "second
    mean at most 90% of the first". *)
Definition atMostNinetyPercent (ys : list number) : bool :=
  let half := (List.length ys / 2)%nat in
  SFleb (average (skipn half ys)) (tenPercentLess (average (firstn half ys))).

(** The key a record is grouped under: the string form of its X-value. *)
Definition keyOf (xAxis : axis) (row : object) : string :=
  ToString (get row (column xAxis)).

(** The distinct elements of a list, in first-seen order. *)
Definition firstSeen (ks : list string) : list string :=
  fold_left (fun seen k => if existsb (String.eqb k) seen then seen else (seen ++ [k])%list)
    ks [].

(** The group keys of the records, in first-seen order. *)
Definition groups (data : list object) (xAxis : axis) : list string :=
  firstSeen (map (keyOf xAxis) data).

(** One addition of a running total: a total that is NaN or zero counts as
    0. *)
Definition addTo (total v : number) : number :=
  Num.add (if Num.truthy total then total else Num.zero) v.

(** The total of a group: its coerced Y-values added up in record order,
    from 0. *)
Definition groupTotal (data : list object) (xAxis yAxis : axis) (k : string) : number :=
  fold_left addTo
    (map (fun row => coerce row (column yAxis))
       (filter (fun row => keyOf xAxis row =? k) data))
    Num.zero.

(** The groups as an object: each key with its total, created in first-seen
    order. *)
Definition grouped (data : list object) (xAxis yAxis : axis) : object :=
  map (fun k => (k, VNumber (groupTotal data xAxis yAxis k))) (groups data xAxis).

(** The numeric value of an array-index key. *)
Definition indexValue (k : string) : Z :=
  match arrayIndex k with Some n => n | None => 0%Z end.

(** The distinct raw values of a list, in first-seen order. *)
Definition value_eqb (a b : value) : bool :=
  match a, b with
  | VUndefined, VUndefined | VNull, VNull => true
  | VBool x, VBool y => Bool.eqb x y
  | VNumber x, VNumber y => SFeqb x y
  | VString x, VString y => x =? y
  | VObject x, VObject y => x =? y
  | _, _ => false
  end.

Definition distinctValues (vs : list value) : list value :=
  fold_left (fun seen v => if existsb (value_eqb v) seen then seen else (seen ++ [v])%list)
    vs [].

(** The numbers of a series of scalars. *)
Definition numbersOf (l : list datum) : list number :=
  flat_map (fun d => match d with Scalar (VNumber n) => [n] | _ => [] end) l.

(** The coerced Y-values of a group, in record order. *)
Definition groupValues (data : list object) (xAxis yAxis : axis) (k : string)
    : list number :=
  map (fun row => coerce row (column yAxis))
    (filter (fun row => keyOf xAxis row =? k) data).

Definition isInfinite (x : number) : bool :=
  match x with S754_infinity _ => true | _ => false end.

(** A number an addition can take as a running total without the [|| 0] of
    the accumulator changing it: not NaN, not [-0], and with an exponent in
    the range of the format. *)
Definition settled (x : number) : Prop :=
  match x with
  | S754_nan => False
  | S754_zero sign => sign = false
  | S754_infinity _ => True
  | S754_finite _ _ ex => (SpecFloat.emin Num.prec Num.emax <= ex)%Z
  end.

(** The sum of a list of integers, and the sum of their absolute values. *)
Definition total (zs : list Z) : Z := fold_right Z.add 0%Z zs.
Definition magnitude (zs : list Z) : Z := fold_right (fun z acc => (Z.abs z + acc)%Z) 0%Z zs.

(** The integer that decimal digits denote after the digits already read. *)
Fixpoint digitsFrom (d : Decimal.uint) (acc : Z) : Z :=
  match d with
  | Decimal.Nil => acc
  | Decimal.D0 l => digitsFrom l (10 * acc)
  | Decimal.D1 l => digitsFrom l (10 * acc + 1)
  | Decimal.D2 l => digitsFrom l (10 * acc + 2)
  | Decimal.D3 l => digitsFrom l (10 * acc + 3)
  | Decimal.D4 l => digitsFrom l (10 * acc + 4)
  | Decimal.D5 l => digitsFrom l (10 * acc + 5)
  | Decimal.D6 l => digitsFrom l (10 * acc + 6)
  | Decimal.D7 l => digitsFrom l (10 * acc + 7)
  | Decimal.D8 l => digitsFrom l (10 * acc + 8)
  | Decimal.D9 l => digitsFrom l (10 * acc + 9)
  end%Z.

(** A range as a parsed sheet has it: the corners in order, rows and
    columns from 0, the columns within 32 bits. *)
Definition wellFormed (rg : XLSX.range) : Prop :=
  (0 <= XLSX.r (XLSX.s rg) <= XLSX.r (XLSX.e rg))%Z
  /\ (0 <= XLSX.c (XLSX.s rg) <= XLSX.c (XLSX.e rg))%Z
  /\ (XLSX.c (XLSX.e rg) < 2 ^ 31)%Z.

(** [chartData.datasets[0].data] *)
Definition seriesData (cd : chartData) : list datum :=
  match datasets cd with
  | d :: _ => ds_data d
  | [] => []
  end.

(** The rejections of the specification, as the routes answer them. *)
Definition FileNotReady {A} : reply A := Failure 400 "File is not processed yet".
Definition WorksheetNotFound {A} : reply A := Failure 404 "Worksheet not found".


End Spec.

(** ** Sample inputs *)

Module Samples.

Import Analytics.

Definition plain (col : string) : axis := {| column := col; label := None |}.

(** Records with a name in column [k] and an integer in column [v]. *)
Definition rows (ys : list Z) : list object :=
  mapi (fun y i => [("k", VString ("r" ++ Num.decimal (Z.of_nat i)));
                    ("v", VNumber (Num.ofZ y))]) ys.

(** An argument limit of the order of that of V8 with its default stack. *)
Definition argumentLimit : N := 125000.

Definition insightsOf (ys : list Z) : result insights :=
  generateInsights argumentLimit (rows ys) (plain "k") (plain "v") None.

Definition text (k : string) (y : number) : object :=
  [("Region", VString k); ("Revenue", VNumber y)].

(** The scenario of the specification: East 100, West 200, East 50. *)
Definition sales : list object :=
  [text "East" (Num.ofZ 100); text "West" (Num.ofZ 200); text "East" (Num.ofZ 50)].

(** Keys that look like array indices, seen as 2 then 1. *)
Definition outOfOrder : list object :=
  [text "2" (Num.ofZ 10); text "1" (Num.ofZ 1); text "2" (Num.ofZ 20)].

(** A workbook with the sheet of the scenario and a sheet without cells. *)
Definition emptySheet : XLSX.worksheet := {| XLSX.ref := None; XLSX.cells := [] |}.

Definition salesSheet : XLSX.worksheet :=
  {| XLSX.ref := Some "A1:B4";
     XLSX.cells :=
       [("A1", VString "Region"); ("B1", VString "Revenue");
        ("A2", VString "East"); ("B2", VNumber (Num.ofZ 100));
        ("A3", VString "West"); ("B3", VNumber (Num.ofZ 200));
        ("A4", VString "East"); ("B4", VNumber (Num.ofZ 50))] |}.

(** The range of that sheet: A1 to B4. *)
Definition salesRange : XLSX.range :=
  {| XLSX.s := {| XLSX.r := 0; XLSX.c := 0 |}; XLSX.e := {| XLSX.r := 3; XLSX.c := 1 |} |}.

Definition book : XLSX.workbook :=
  {| XLSX.SheetNames := ["Sales"; "Empty"];
     XLSX.Sheets := [("Sales", salesSheet); ("Empty", emptySheet)] |}.

(** A workbook without sheets, and one whose first sheet has no cells. *)
Definition noSheets : XLSX.workbook := {| XLSX.SheetNames := []; XLSX.Sheets := [] |}.

Definition notes : XLSX.workbook :=
  {| XLSX.SheetNames := ["Notes"; "Sales"];
     XLSX.Sheets := [("Notes", emptySheet); ("Sales", salesSheet)] |}.

(** The storage: the workbook of the scenario, the workbook without sheets
    and the workbook that starts with an empty sheet. *)
Definition disk (path : string) : result XLSX.workbook :=
  if path =? "uploads/sales.xlsx" then Ok book
  else if path =? "uploads/blank.xlsx" then Ok noSheets
  else if path =? "uploads/notes.xlsx" then Ok notes
  else Throw "Cannot access file".

(** The rows [sheet_to_json] returns on the sheets of [book]: the three
    records of the scenario for the sheet with a range, none otherwise. *)
Definition rowsOf (ws : option XLSX.worksheet) : list object :=
  match ws with
  | Some w => match XLSX.ref w with Some _ => sales | None => [] end
  | None => []
  end.

Definition alice : user := {| userId := "u1"; role := "user" |}.
Definition bob : user := {| userId := "u2"; role := "user" |}.

Definition salesUpload : Files.upload :=
  {| Files.up_path := "uploads/sales.xlsx"; Files.up_size := 4096;
     Files.up_mimetype := "application/vnd.openxmlformats-officedocument.spreadsheetml.sheet";
     Files.up_isPublic := false |}.


Definition notesUpload : Files.upload :=
  {| Files.up_path := "uploads/notes.xlsx"; Files.up_size := 3072;
     Files.up_mimetype := "application/vnd.openxmlformats-officedocument.spreadsheetml.sheet";
     Files.up_isPublic := false |}.

(** The stored files: the processed upload of the scenario, and that of the
    workbook that starts with an empty sheet. *)
Definition files : list (string * Files.file) :=
  [("f1", Files.processUpload disk salesUpload alice);
   ("f2", Files.processUpload disk notesUpload alice)].

(** A chart request on the stored file that names no worksheet. *)
Definition barRequest : Api.createBody :=
  {| Api.c_fileId := "f1"; Api.c_chartType := "bar";
     Api.c_xAxis := {| column := "Region"; label := Some "Region" |};
     Api.c_yAxis := {| column := "Revenue"; label := Some "Revenue" |};
     Api.c_zAxis := None; Api.c_title := Some "Revenue by region";
     Api.c_colors := None; Api.c_worksheetName := None |}.

(** The same request on the file whose first sheet is empty. *)
Definition notesRequest : Api.createBody :=
  {| Api.c_fileId := "f2"; Api.c_chartType := "bar";
     Api.c_xAxis := {| column := "Region"; label := Some "Region" |};
     Api.c_yAxis := {| column := "Revenue"; label := Some "Revenue" |};
     Api.c_zAxis := None; Api.c_title := Some "Revenue by region";
     Api.c_colors := None; Api.c_worksheetName := None |}.

(** The Analytics documents after the request on the first file. *)
Definition charts : Api.store :=
  Api.run argumentLimit disk rowsOf files [(alice, Api.Create "a1" barRequest)] [].

Definition rename : Api.updateBody :=
  {| Api.u_title := Some "Revenue"; Api.u_colors := Some ["#000000"];
     Api.u_isBookmarked := Some true;
     Api.u_shareSettings :=
       Some {| Api.p_isPublic := Some true; Api.p_sharedWith := None |} |}.

(** Two records whose X-values differ, the string "null" and null, and
    have the same string form. *)
Definition sameText : list object :=
  [text "null" (Num.ofZ 1);
   [("Region", VNull); ("Revenue", VNumber (Num.ofZ 2))]].

End Samples.

(** ** Upload intake: the file filter, the schema limits and the tags field *)

Module Intake.

(** The MIME types the multer file filter lets through. *)
Definition allowedTypes : list string :=
  ["application/vnd.ms-excel";
   "application/vnd.openxmlformats-officedocument.spreadsheetml.sheet"].

(** [fileFilter]: [cb(null, true)] or [cb(new Error(...), false)]. *)
Definition fileFilter (mimetype : string) : result bool :=
  if existsb (String.eqb mimetype) allowedTypes then Ok true
  else Throw "Only Excel files (.xls, .xlsx) are allowed".

(** [limits.fileSize]: 10MB. *)
Definition fileSizeLimit : Z := 10 * 1024 * 1024.

(** The [enum] of [mimeType] and the [maxlength] of [description] in the
    File schema; the length of a string is counted in UTF-16 code units. *)
Definition mimeTypeEnum : list string :=
  ["application/vnd.ms-excel";
   "application/vnd.openxmlformats-officedocument.spreadsheetml.sheet"].

Definition descriptionMaxLength : nat := 500.

(** [str.split(',')] *)
Fixpoint splitComma (str : string) : list string :=
  match str with
  | EmptyString => [EmptyString]
  | String ch rest =>
      if (ch =? ",")%char then EmptyString :: splitComma rest
      else
        match splitComma rest with
        | piece :: pieces => String ch piece :: pieces
        | [] => [String ch EmptyString]
        end
  end.

Definition dropSuffix (w str : string) : option string :=
  let n := String.length str - String.length w in
  if (String.length w <=? String.length str)%nat && (substring n (String.length w) str =? w)
  then Some (substring 0 n str) else None.

Fixpoint trimEnd (fuel : nat) (str : string) : string :=
  match fuel with
  | O => str
  | S fuel' =>
      match firstSome (fun w => dropSuffix w str) whiteSpace with
      | Some str' => trimEnd fuel' str'
      | None => str
      end
  end.

(** [str.trim()]: the white space of both ends removed. *)
Definition trim (str : string) : string :=
  let str := trimStart (String.length str) str in
  trimEnd (String.length str) str.

(** [tags ? tags.split(',').map(tag => tag.trim()) : []] *)
Definition parseTags (tags : option string) : list string :=
  match tags with
  | Some str => if str =? "" then [] else map trim (splitComma str)
  | None => []
  end.

(** [description || ''] *)
Definition descriptionOf (description : option string) : string :=
  match description with Some d => d | None => "" end.

End Intake.

(** ** The stored files, the upload directory and the users' counters *)

Module Storage.

(** The body of an upload next to its file. *)
Record submission := {
  sub_file : Files.upload;
  sub_description : option string;
  sub_tags : option string
}.

(** The two counters of a user the file routes maintain. *)
Record counters := { filesUploaded : Z; storageUsed : Z }.

Record state := {
  files : list (string * Files.file);
  disk : list string;
  users : list (string * counters)
}.

(** [User.findByIdAndUpdate(id, { $inc: { filesUploaded, storageUsed } })] *)
Fixpoint inc (id : string) (dFiles dBytes : Z) (us : list (string * counters))
    : list (string * counters) :=
  match us with
  | [] => []
  | (id', cs) :: us' =>
      if id' =? id
      then (id', {| filesUploaded := filesUploaded cs + dFiles;
                    storageUsed := storageUsed cs + dBytes |}) :: us'
      else (id', cs) :: inc id dFiles dBytes us'
  end.

(** [fs.unlinkSync(path)] when the path exists. *)
Definition unlink (path : string) (paths : list string) : list string :=
  filter (fun p => negb (p =? path)) paths.

(** [File.findByIdAndDelete(id)] *)
Definition removeFile (id : string) (fs : list (string * Files.file))
    : list (string * Files.file) :=
  filter (fun kv => negb (fst kv =? id)) fs.

Section Routes.

Variable readFile : string -> result XLSX.workbook.

(** POST /api/files/upload with its effects.  multer has written the upload
    under its path before the handler runs; [newId] is the identifier the
    new document is given.  [save] rejects a MIME type outside the schema's
    [enum], a description longer than the schema allows and an identifier
    already in use, and the [catch] of the route then removes the upload. *)
Definition uploadStep (newId : string) (req : option submission) (caller : user)
    (st : state) : state * reply Files.file :=
  match req with
  | None => (st, Failure 400 "No file uploaded")
  | Some sub =>
      let up := sub_file sub in
      let written := Files.up_path up :: disk st in
      let fileRecord := Files.processUpload readFile up caller in
      if negb (existsb (String.eqb (Files.up_mimetype up)) Intake.mimeTypeEnum)
         || (Intake.descriptionMaxLength
             <? codeUnits (Intake.descriptionOf (sub_description sub)))%nat
         || (match lookup newId (files st) with Some _ => true | None => false end)
      then ({| files := files st;
               disk := unlink (Files.up_path up) written;
               users := users st |},
            Failure 500 "Error uploading file")
      else ({| files := (files st ++ [(newId, fileRecord)])%list;
               disk := written;
               users := inc (userId caller) 1 (Files.up_size up) (users st) |},
            Success 201 fileRecord)
  end.

(** GET /api/files/:id *)
Definition fileDetailsRoute (fs : list (string * Files.file)) (id : string)
    (caller : user) : reply Files.file :=
  match lookup id fs with
  | None => Failure 404 "File not found"
  | Some file =>
      if negb (Files.mayRead file caller) then Failure 403 "Access denied"
      else Success 200 file
  end.

(** DELETE /api/files/:id *)
Definition deleteStep (id : string) (caller : user) (st : state) : state * reply string :=
  match lookup id (files st) with
  | None => (st, Failure 404 "File not found")
  | Some file =>
      if negb (Files.uploadedBy file =? userId caller) && negb (role caller =? "admin")
      then (st, Failure 403 "Access denied")
      else ({| files := removeFile id (files st);
               disk := unlink (Files.filePath file) (disk st);
               users := inc (Files.uploadedBy file) (-1) (- Files.fileSize file) (users st) |},
            Success 200 "File deleted successfully")
  end.

End Routes.

End Storage.

(** ** The authentication middleware (backend/middleware/auth.js) *)

Module Auth.

(** The payload of a verified token. *)
Record decoded := { tokenUserId : string; tokenRole : string; iat : Z }.

(** The fields of the User document the middleware reads;
    [passwordChangedAt] in milliseconds. *)
Record account := {
  isActive : bool;
  passwordChangedAt : option Z;
  permissions : option (list string)
}.

(** The errors [jwt.verify] throws, by name. *)
Inductive verifyError := TokenExpiredError | JsonWebTokenError | OtherError.

(** The three places a token is looked for. *)
Record request := {
  authorization : option string;
  cookieToken : option string;
  queryToken : option string
}.

(** [req.user] as the middleware leaves it: the payload and the
    permissions of the account. *)
Record identity := {
  id_user : user;
  id_iat : Z;
  id_permissions : list string
}.

(** What a middleware does with a request: hand it on, or answer it with a
    status and an error code. *)
Inductive outcome (A : Type) :=
| Next (a : A)
| Denied (status : nat) (code : string).

Arguments Next {A} a.
Arguments Denied {A} status code.

(** [str.replace(pattern, '')]: the first occurrence of a non-empty pattern
    removed. *)
Fixpoint removeFirst (pattern str : string) : string :=
  if prefix pattern str
  then substring (String.length pattern) (String.length str - String.length pattern) str
  else
    match str with
    | EmptyString => EmptyString
    | String ch rest => String ch (removeFirst pattern rest)
    end.

(** [a || b] on optional strings: the empty string is falsy. *)
Definition orElse (a b : option string) : option string :=
  match a with
  | Some str => if str =? "" then b else a
  | None => b
  end.

(** [req.header('Authorization')?.replace('Bearer ', '') || req.cookies?.token
    || req.query?.token] *)
Definition tokenOf (req : request) : option string :=
  orElse
    (orElse (option_map (removeFirst "Bearer ") (authorization req)) (cookieToken req))
    (queryToken req).

Section Middleware.

Variable verify : string -> verifyError + decoded.
Variable findById : string -> option account.

(** [decoded.iat < user.passwordChangedAt.getTime() / 1000] *)
Definition issuedBefore (d : decoded) (changed : Z) : bool :=
  Num.lt (Num.ofZ (iat d)) (Num.div (Num.ofZ changed) (Num.ofZ 1000)).

Definition auth (req : request) : outcome identity :=
  match orElse (tokenOf req) None with
  | None => Denied 401 "NO_TOKEN"
  | Some token =>
      match verify token with
      | inl TokenExpiredError => Denied 401 "TOKEN_EXPIRED"
      | inl JsonWebTokenError => Denied 401 "INVALID_TOKEN"
      | inl OtherError => Denied 500 "AUTH_ERROR"
      | inr d =>
          match findById (tokenUserId d) with
          | None => Denied 401 "USER_NOT_FOUND"
          | Some acct =>
              if negb (isActive acct) then Denied 401 "ACCOUNT_DEACTIVATED"
              else if match passwordChangedAt acct with
                      | Some changed => issuedBefore d changed
                      | None => false
                      end
              then Denied 401 "PASSWORD_CHANGED"
              else Next {| id_user := {| userId := tokenUserId d; role := tokenRole d |};
                           id_iat := iat d;
                           id_permissions := match permissions acct with
                                             | Some ps => ps
                                             | None => []
                                             end |}
          end
      end
  end.

End Middleware.

(** [admin(requiredPermission)] *)
Definition admin (requiredPermission : option string) (who : option identity)
    : outcome identity :=
  match who with
  | None => Denied 401 "AUTH_REQUIRED"
  | Some i =>
      if negb (role (id_user i) =? "admin") then Denied 403 "ADMIN_REQUIRED"
      else
        match requiredPermission with
        | Some p =>
            if (negb (p =? "")) && negb (existsb (String.eqb p) (id_permissions i))
            then Denied 403 "PERMISSION_DENIED"
            else Next i
        | None => Next i
        end
  end.

(** The options of [ownerOrAdmin], with the defaults of the destructuring
    for the map of omitted options. *)
Record ownerOptions := {
  resourceUserIdField : string;
  allowSelfAccess : bool;
  requiredPermission : option string
}.

Definition defaultOptions : ownerOptions :=
  {| resourceUserIdField := "userId"; allowSelfAccess := true; requiredPermission := None |}.

(** [ownerOrAdmin(options)] on the route parameters and the body fields. *)
Definition ownerOrAdmin (options : ownerOptions) (params body : list (string * string))
    (who : option identity) : outcome identity :=
  match who with
  | None => Denied 401 "AUTH_REQUIRED"
  | Some i =>
      let isAdmin := role (id_user i) =? "admin" in
      let same (fields : list (string * string)) :=
        match lookup (resourceUserIdField options) fields with
        | Some v => userId (id_user i) =? v
        | None => false
        end in
      let isOwner := allowSelfAccess options && (same params || same body) in
      let hasPermission :=
        match requiredPermission options with
        | Some p => if p =? "" then true else existsb (String.eqb p) (id_permissions i)
        | None => true
        end in
      if isAdmin || (isOwner && hasPermission) then Next i
      else Denied 403 "ACCESS_DENIED"
  end.

End Auth.

(** ** The checks of the pages (frontend/src/components) *)

Module Pages.

(** ASCII lower case, as the [i] flag of a pattern folds it. *)
Definition lower (ch : ascii) : ascii :=
  let n := nat_of_ascii ch in
  if (65 <=? n)%nat && (n <=? 90)%nat then ascii_of_nat (n + 32) else ch.

Fixpoint lowercase (str : string) : string :=
  match str with
  | EmptyString => EmptyString
  | String ch rest => String (lower ch) (lowercase rest)
  end.

Definition endsWith (suffix str : string) : bool :=
  (String.length suffix <=? String.length str)%nat
  && (substring (String.length str - String.length suffix) (String.length suffix) str
      =? suffix).

(** [name.match(/\.(xls|xlsx)$/i)] *)
Definition excelName (name : string) : bool :=
  endsWith ".xls" (lowercase name) || endsWith ".xlsx" (lowercase name).

(** [handleFile] of the upload page: the error it sets, or none when the
    file is selected. *)
Definition handleFile (type name : string) (size : Z) : option string :=
  if negb (existsb (String.eqb type) Intake.allowedTypes) && negb (excelName name)
  then Some "Please select a valid Excel file (.xls or .xlsx)"
  else if (10 * 1024 * 1024 <? size)%Z then Some "File size must be less than 10MB"
  else None.

(** [getStatusColor] of the file list. *)
Definition getStatusColor (status : string) : string :=
  if status =? "completed" then "bg-green-100 text-green-800"
  else if status =? "processing" then "bg-yellow-100 text-yellow-800"
  else if status =? "failed" then "bg-red-100 text-red-800"
  else "bg-gray-100 text-gray-800".

(** The status strings of the File schema. *)
Definition statusText (st : Files.status) : string :=
  match st with
  | Files.processing => "processing"
  | Files.completed => "completed"
  | Files.error => "error"
  end.

(** The chart types the creation form offers. *)
Definition formChartTypes : list string := ["bar"; "line"; "pie"; "scatter"; "3d"].

End Pages.

(** ** Further sample inputs *)

Module Cases.

Import Analytics.

(** A chart request that selects a column the sheet does not have. *)
Definition unknownColumns : Api.createBody :=
  {| Api.c_fileId := "f1"; Api.c_chartType := "bar";
     Api.c_xAxis := {| column := "Area"; label := None |};
     Api.c_yAxis := {| column := "Profit"; label := None |};
     Api.c_zAxis := None; Api.c_title := None;
     Api.c_colors := None; Api.c_worksheetName := Some "Sales" |}.

(** The request of the creation form for its 3D chart. *)
Definition cubeRequest : Api.createBody :=
  {| Api.c_fileId := "f1"; Api.c_chartType := "3d";
     Api.c_xAxis := {| column := "Region"; label := Some "Region" |};
     Api.c_yAxis := {| column := "Revenue"; label := Some "Revenue" |};
     Api.c_zAxis := Some {| column := "Revenue"; label := Some "Revenue" |};
     Api.c_title := Some "Cube"; Api.c_colors := None;
     Api.c_worksheetName := Some "Sales" |}.

(** A sheet whose range starts at C2 and whose first row has one cell, a
    number. *)
Definition offsetSheet : XLSX.worksheet :=
  {| XLSX.ref := Some "C2:D3";
     XLSX.cells := [("C2", VNumber (Num.ofZ 2024)); ("C3", VNumber (Num.ofZ 7));
                    ("D3", VNumber (Num.ofZ 9))] |}.

(** An upload with its fields, and one whose description has 501
    characters. *)
Definition salesSubmission : Storage.submission :=
  {| Storage.sub_file := Samples.salesUpload;
     Storage.sub_description := Some "Quarterly sales";
     Storage.sub_tags := Some "sales, q1" |}.

(** An upload whose description has 300 accented letters: 600 bytes, 300
    UTF-16 code units. *)
Definition accentedSubmission : Storage.submission :=
  {| Storage.sub_file := Samples.salesUpload;
     Storage.sub_description :=
       Some (string_of_list_ascii
               (List.concat (repeat [ascii_of_nat 195; ascii_of_nat 169] 300)));
     Storage.sub_tags := None |}.

Definition wordySubmission : Storage.submission :=
  {| Storage.sub_file := Samples.salesUpload;
     Storage.sub_description := Some (string_of_list_ascii (repeat "x"%char 501));
     Storage.sub_tags := None |}.

(** The state before any upload, and after the upload of the scenario. *)
Definition fresh : Storage.state :=
  {| Storage.files := []; Storage.disk := [];
     Storage.users := [("u1", {| Storage.filesUploaded := 0; Storage.storageUsed := 0 |})] |}.

Definition stored : Storage.state :=
  fst (Storage.uploadStep Samples.disk "f1" (Some salesSubmission) Samples.alice fresh).

(** A token verifier and the accounts for the middleware: one valid token
    of an active user, one of a deactivated user. *)
Definition verifyToken (token : string) : Auth.verifyError + Auth.decoded :=
  if token =? "t-alice"
  then inr {| Auth.tokenUserId := "u1"; Auth.tokenRole := "user"; Auth.iat := 1700000000 |}
  else if token =? "t-carol"
  then inr {| Auth.tokenUserId := "u3"; Auth.tokenRole := "user"; Auth.iat := 1700000000 |}
  else if token =? "t-old" then inl Auth.TokenExpiredError
  else inl Auth.JsonWebTokenError.

Definition accounts (id : string) : option Auth.account :=
  if id =? "u1"
  then Some {| Auth.isActive := true; Auth.passwordChangedAt := Some 1600000000000%Z;
               Auth.permissions := None |}
  else if id =? "u3"
  then Some {| Auth.isActive := false; Auth.passwordChangedAt := None;
               Auth.permissions := None |}
  else None.

Definition bearer (token : string) : Auth.request :=
  {| Auth.authorization := Some ("Bearer " ++ token);
     Auth.cookieToken := None; Auth.queryToken := None |}.

(** An administrator without permissions. *)
Definition root : Auth.identity :=
  {| Auth.id_user := {| userId := "u9"; role := "admin" |};
     Auth.id_iat := 1700000000; Auth.id_permissions := [] |}.

(** Records for a 3D chart whose second X-value is zero. *)
Definition grid : list object :=
  [[("x", VNumber (Num.ofZ 5)); ("y", VNumber (Num.ofZ 1)); ("z", VNumber (Num.ofZ 2))];
   [("x", VNumber (Num.ofZ 0)); ("y", VNumber (Num.ofZ 3)); ("z", VString "n/a")]].

End Cases.

(** ** Who may read and who may change an Analytics document *)

Module Policy.

(** The owner, anyone when the document is public, or an administrator. *)
Definition mayView (a : Api.document) (caller : user) : bool :=
  (Api.ownerId a =? userId caller) || Api.sharePublic (Api.share a) || Api.isAdmin caller.

(** The owner or an administrator. *)
Definition mayChange (a : Api.document) (caller : user) : bool :=
  (Api.ownerId a =? userId caller) || Api.isAdmin caller.

(** An update that sets nothing. *)
Definition noUpdate : Api.updateBody :=
  {| Api.u_title := None; Api.u_colors := None; Api.u_isBookmarked := None;
     Api.u_shareSettings := None |}.

(** The read requests of a list of callers for one document. *)
Definition reads (id : string) (callers : list user) : list (user * Api.request) :=
  map (fun caller => (caller, Api.Get id)) callers.

End Policy.

(** ** Counting for the statements about the tags field *)

Module Text.

(** The number of commas of a string. *)
Fixpoint commas (str : string) : nat :=
  match str with
  | EmptyString => 0
  | String ch rest => (if (ch =? ",")%char then 1 else 0) + commas rest
  end.

End Text.

(** * Theorems *)

Import Analytics.

(** ** The JavaScript model on examples *)

Lemma parseFloat_examples :
  map (fun str => Num.toString (parseFloatString str))
    ["abc"; "12abc"; "  3.5e2x"; "-.5"; "."; "5."; "1e"; "1e-2"; "Infinity";
     "infinity"; "0x10"; "1e999"; ""; "+7"; "20.8"; "1,5"]
  = ["NaN"; "12"; "350"; "-0.5"; "NaN"; "5"; "1"; "0.01"; "Infinity";
     "NaN"; "0"; "Infinity"; "NaN"; "7"; "20.8"; "1"].
Proof. vm_compute. reflexivity. Qed.

Lemma coercion_examples :
  map (fun v => Num.toString (parseFloatOr v Num.zero))
    [VUndefined; VNull; VBool true; VString "abc"; VString "-0";
     VNumber (Num.ofZ 5); VNumber Num.NaN; VNumber (Num.ofDecimal true 25 (-1))]
  = ["0"; "0"; "0"; "0"; "0"; "5"; "0"; "-2.5"].
Proof. vm_compute. reflexivity. Qed.

Lemma toString_examples :
  map Num.toString
    [Num.ofZ 100; Num.ofDecimal false 208 (-1); Num.ofDecimal false 1 21;
     Num.ofDecimal false 1 (-7); Num.ofDecimal false 123456789 (-15);
     Num.div (Num.ofZ 1) (Num.ofZ 3); Num.ofDecimal true 5 (-1)]
  = ["100"; "20.8"; "1e+21"; "1e-7"; "1.23456789e-7";
     "0.3333333333333333"; "-0.5"].
Proof. vm_compute. reflexivity. Qed.

Lemma toFixed_examples :
  map Num.toFixed2
    [Num.ofDecimal false 208 (-1); Num.ofDecimal false 1005 (-3); Num.ofZ 3;
     Num.ofDecimal true 1 (-3); Num.ofDecimal false 1 21; Num.NaN]
  = ["20.80"; "1.00"; "3.00"; "-0.00"; "1e+21"; "NaN"].
Proof. vm_compute. reflexivity. Qed.

Lemma Object_keys_example :
  Object_keys [("b", 1); ("2", 2); ("a", 3); ("1", 4); ("10", 5); ("01", 6)]%nat
  = ["1"; "2"; "10"; "b"; "a"; "01"].
Proof. vm_compute. reflexivity. Qed.

(** ** Insight generator: outliers *)

Lemma filteriFrom_nth (f : object -> number) (P : number -> bool) (l pre : list object) :
  filteriFrom (fun _ i => P (nth i (map f (pre ++ l)) Num.NaN)) l (List.length pre)
  = filter (fun row => P (f row)) l.
Proof.
  revert pre. induction l as [|a l IH]; intros pre; simpl; [reflexivity|].
  assert (Hn : nth (List.length pre) (map f (pre ++ a :: l)) Num.NaN = f a).
  { rewrite map_app, app_nth2 by (rewrite length_map; lia).
    rewrite length_map, Nat.sub_diag. reflexivity. }
  rewrite Hn.
  specialize (IH (pre ++ [a])%list).
  rewrite <- app_assoc, length_app in IH. simpl in IH.
  rewrite Nat.add_1_r in IH. rewrite IH. reflexivity.
Qed.

Lemma filteri_nth (f : object -> number) (P : number -> bool) (l : list object) :
  filteri (fun _ i => P (nth i (map f l) Num.NaN)) l = filter (fun row => P (f row)) l.
Proof. exact (filteriFrom_nth f P l []). Qed.

Lemma spread_within {A} (argumentLimit : N) (f : list number -> A) (args : list number) :
  (N.of_nat (List.length args) <= argumentLimit)%N ->
  spread argumentLimit f args = Ok (f args).
Proof.
  intros H. unfold spread.
  destruct (N.ltb_spec argumentLimit (N.of_nat (List.length args))); [lia | reflexivity].
Qed.

Lemma spread_beyond {A} (argumentLimit : N) (f : list number -> A) (args : list number) :
  (argumentLimit < N.of_nat (List.length args))%N ->
  spread argumentLimit f args = Throw "Maximum call stack size exceeded".
Proof.
  intros H. unfold spread.
  destruct (N.ltb_spec argumentLimit (N.of_nat (List.length args))); [reflexivity | lia].
Qed.

(** The generator returns on every list its engine takes as arguments. *)
Lemma generateInsights_returns (argumentLimit : N) (data : list object)
    (xAxis yAxis : axis) (zAxis : option axis) :
  (N.of_nat (List.length data) <= argumentLimit)%N ->
  exists ins, generateInsights argumentLimit data xAxis yAxis zAxis = Ok ins.
Proof.
  intros H. unfold generateInsights.
  rewrite !spread_within by (rewrite length_map; exact H).
  eexists. reflexivity.
Qed.

Lemma outliers_spec (argumentLimit : N) (data : list object) (xAxis yAxis : axis)
    (zAxis : option axis) (ins : insights) :
  generateInsights argumentLimit data xAxis yAxis zAxis = Ok ins ->
  outliers ins
  = map (Spec.render xAxis yAxis)
      (filter (fun row => Spec.isOutlier (Spec.yValues data yAxis) (coerce row (column yAxis)))
         data).
Proof.
  unfold generateInsights.
  destruct (spread argumentLimit Num.max _); [|discriminate].
  destruct (spread argumentLimit Num.min _); [|discriminate].
  intros E. inversion E. cbn [outliers].
  match goal with |- (if ?b then ?m else []) = _ => assert (F : (if b then m else []) = m) end.
  { destruct (filteri _ data); reflexivity. }
  rewrite F. clear F.
  f_equal.
  exact (filteri_nth (fun row => coerce row (column yAxis))
           (Spec.isOutlier (Spec.yValues data yAxis)) data).
Qed.

(** Claim C1, as the code has it.  For every record list that the engine
    takes as the arguments of one call, the generator returns, and the
    outlier list is, in record order, the rendering ["<X-value>:
    <Y-value>"] of exactly the records whose coerced Y-value deviates from
    the mean by more than two population standard deviations.  For the
    Y-values [1,2,3,4,5] nothing is flagged; for [1,1,1,1,100] nothing is
    flagged either, the deviation of 100 being equal to two standard
    deviations and not more; with one more record, [1,1,1,1,1,100], the
    record holding 100 is flagged.  The X-value of the rendering is what
    [row[col]] reads: for a column the records do not hold, undefined, or
    the text of the member of [Object.prototype] of that name. *)
Theorem outliers_beyond_two_deviations :
  (forall (argumentLimit : N) (data : list object) (xAxis yAxis : axis)
          (zAxis : option axis),
      (N.of_nat (List.length data) <= argumentLimit)%N ->
      exists ins,
        generateInsights argumentLimit data xAxis yAxis zAxis = Ok ins
        /\ outliers ins
           = map (Spec.render xAxis yAxis)
               (filter (fun row =>
                          Spec.isOutlier (Spec.yValues data yAxis) (coerce row (column yAxis)))
                  data))
  /\ mapResult outliers (Samples.insightsOf [1; 2; 3; 4; 5]%Z) = Ok []
  /\ mapResult outliers (Samples.insightsOf [1; 1; 1; 1; 100]%Z) = Ok []
  /\ mapResult outliers (Samples.insightsOf [1; 1; 1; 1; 1; 100]%Z) = Ok ["r5: 100"]
  /\ mapResult outliers
       (generateInsights Samples.argumentLimit (Samples.rows [1; 1; 1; 1; 1; 100]%Z)
          (Samples.plain "name") (Samples.plain "v") None)
     = Ok ["undefined: 100"]
  /\ mapResult outliers
       (generateInsights Samples.argumentLimit (Samples.rows [1; 1; 1; 1; 1; 100]%Z)
          (Samples.plain "toString") (Samples.plain "v") None)
     = Ok ["function toString() { [native code] }: 100"].
Proof.
  split.
  - intros argumentLimit data xAxis yAxis zAxis H.
    destruct (generateInsights_returns argumentLimit data xAxis yAxis zAxis H) as [ins E].
    exists ins. split; [exact E|]. exact (outliers_spec _ _ _ _ _ _ E).
  - repeat split; vm_compute; reflexivity.
Qed.

Lemma outliers_beyond_two_deviations_witness :
  exists ins,
    generateInsights Samples.argumentLimit Samples.sales (Samples.plain "Region")
      (Samples.plain "Revenue") None = Ok ins
    /\ outliers ins = [].
Proof.
  destruct (proj1 outliers_beyond_two_deviations Samples.argumentLimit Samples.sales
              (Samples.plain "Region") (Samples.plain "Revenue") None)
    as [ins [E O]]; [vm_compute; discriminate|].
  exists ins. split; [exact E|]. rewrite O. vm_compute. reflexivity.
Defined.

(** Claim C1 as stated fails: for the Y-values [1,1,1,1,100] the record
    holding 100 is not flagged.  Its deviation from the mean 20.8 is 79.2,
    twice the standard deviation 39.6 is 79.2 as well, and the test is
    strict. *)
Lemma outlier_boundary_not_flagged :
  mapResult outliers (Samples.insightsOf [1; 1; 1; 1; 100]%Z) = Ok []
  /\ Spec.isOutlier (map Num.ofZ [1; 1; 1; 1; 100]%Z) (Num.ofZ 100) = false
  /\ Num.toString
       (Num.abs (Num.sub (Num.ofZ 100) (average (map Num.ofZ [1; 1; 1; 1; 100]%Z))))
     = "79.2"
  /\ Num.toString
       (Num.mul (Num.ofZ 2) (Spec.populationStdDev (map Num.ofZ [1; 1; 1; 1; 100]%Z)))
     = "79.2".
Proof. repeat split; vm_compute; reflexivity. Qed.

(** ** Insight generator: trend *)

Lemma trends_spec (argumentLimit : N) (data : list object) (xAxis yAxis : axis)
    (zAxis : option axis) (ins : insights) :
  generateInsights argumentLimit data xAxis yAxis zAxis = Ok ins ->
  trends ins
  = if (2 <=? List.length data)%nat
    then [Spec.trendText (Spec.classify (Spec.yValues data yAxis))]
    else [].
Proof.
  unfold generateInsights.
  destruct (spread argumentLimit Num.max _); [|discriminate].
  destruct (spread argumentLimit Num.min _); [|discriminate].
  intros E. injection E as <-. cbn [trends].
  fold (Spec.yValues data yAxis).
  assert (L : List.length (Spec.yValues data yAxis) = List.length data)
    by apply length_map.
  rewrite L.
  replace (1 <? List.length data)%nat with (2 <=? List.length data)%nat
    by (destruct (List.length data) as [|[|n]]; reflexivity).
  destruct (2 <=? List.length data)%nat; [|reflexivity].
  unfold Spec.classify, Spec.tenPercentMore, Spec.tenPercentLess. rewrite L.
  destruct (Num.gt _ _); [reflexivity|].
  destruct (Num.lt _ _); reflexivity.
Qed.

(** Claim C2, as the code has it, for a first half whose mean is not
    negative.  For every record list that the engine takes as the arguments
    of one call the generator returns; with at least two records it
    produces exactly one trend string, and when the mean of the first half
    (split at floor(n/2)) is not negative that string is: upward when the
    mean of the second half is above 110% of the first half's mean,
    downward when it is strictly below 90% of it, stable otherwise.  With
    fewer than two records there is no trend string.  The classification is
    stable for [10,10,10,10], upward for [1,1,9,9] and downward for
    [9,9,1,1]. *)
Theorem trend_classification :
  (forall (argumentLimit : N) (data : list object) (xAxis yAxis : axis)
          (zAxis : option axis),
      (N.of_nat (List.length data) <= argumentLimit)%N ->
      exists ins,
        generateInsights argumentLimit data xAxis yAxis zAxis = Ok ins
        /\ ((List.length data < 2)%nat -> trends ins = [])
        /\ ((2 <= List.length data)%nat -> exists t, trends ins = [Spec.trendText t])
        /\ ((2 <= List.length data)%nat ->
            Num.lt (Spec.firstMean (Spec.yValues data yAxis)) Num.zero = false ->
            trends ins = [Spec.trendText (Spec.classify (Spec.yValues data yAxis))]))
  /\ mapResult trends (Samples.insightsOf [10; 10; 10; 10]%Z)
     = Ok [Spec.trendText Spec.stable]
  /\ mapResult trends (Samples.insightsOf [1; 1; 9; 9]%Z) = Ok [Spec.trendText Spec.upward]
  /\ mapResult trends (Samples.insightsOf [9; 9; 1; 1]%Z)
     = Ok [Spec.trendText Spec.downward].
Proof.
  split.
  - intros argumentLimit data xAxis yAxis zAxis H.
    destruct (generateInsights_returns argumentLimit data xAxis yAxis zAxis H) as [ins E].
    exists ins. split; [exact E|].
    rewrite (trends_spec _ _ _ _ _ _ E).
    destruct (Nat.leb_spec 2 (List.length data)) as [G|G].
    + split; [lia|]. split; [eexists; reflexivity | reflexivity].
    + split; [reflexivity|]. split; intros; lia.
  - repeat split; vm_compute; reflexivity.
Qed.

Lemma trend_classification_witness :
  exists ins,
    generateInsights Samples.argumentLimit Samples.sales (Samples.plain "Region")
      (Samples.plain "Revenue") None = Ok ins
    /\ trends ins = [Spec.trendText Spec.upward].
Proof.
  destruct (proj1 trend_classification Samples.argumentLimit Samples.sales
              (Samples.plain "Region") (Samples.plain "Revenue") None)
    as [ins [E [_ [_ T]]]]; [vm_compute; discriminate|].
  exists ins. split; [exact E|].
  rewrite T; [vm_compute; reflexivity | simpl; lia | vm_compute; reflexivity].
Defined.

(** Claim C2 as stated fails on its gloss of "downward": for the Y-values
    [10,10,9,9] the second mean, 9, is at most 90% of the first, 10, and the
    trend is stable, not downward. *)
Lemma trend_at_ninety_percent_is_stable :
  Spec.atMostNinetyPercent (map Num.ofZ [10; 10; 9; 9]%Z) = true
  /\ mapResult trends (Samples.insightsOf [10; 10; 9; 9]%Z)
     = Ok [Spec.trendText Spec.stable]
  /\ mapResult trends (Samples.insightsOf [10; 10; 9; 9]%Z)
     <> Ok [Spec.trendText Spec.downward].
Proof.
  split; [vm_compute; reflexivity|].
  replace (mapResult trends (Samples.insightsOf [10; 10; 9; 9]%Z))
    with (@Ok (list string) [Spec.trendText Spec.stable]) by (vm_compute; reflexivity).
  split; [reflexivity|]. intros H. inversion H.
Qed.

(** ** Chart data transformer: proportional charts *)

Section ObjectOrder.

Context {A : Type}.

Lemma insertIndex_perm (n : Z) (k : string) (v : A) (l : list (Z * (string * A))) :
  Permutation (insertIndex n k v l) ((n, (k, v)) :: l).
Proof.
  induction l as [|[m kv] l IH]; simpl.
  - apply Permutation_refl.
  - destruct (n <? m)%Z.
    + apply Permutation_refl.
    + eapply perm_trans; [apply perm_skip, IH|].
      apply perm_swap.
Qed.

Lemma indexEntries_perm (o : list (string * A)) :
  Permutation (map snd (indexEntries o))
    (filter (fun kv => isIndex (fst kv)) o).
Proof.
  induction o as [|[k v] o IH]; simpl.
  - apply perm_nil.
  - unfold isIndex at 1. simpl. destruct (arrayIndex k) as [n|].
    + eapply perm_trans.
      * apply Permutation_map, insertIndex_perm.
      * simpl. apply perm_skip, IH.
    + exact IH.
Qed.

Lemma partition_perm (p : string * A -> bool) (l : list (string * A)) :
  Permutation (filter p l ++ filter (fun x => negb (p x)) l) l.
Proof.
  induction l as [|a l IH]; simpl.
  - apply perm_nil.
  - destruct (p a); simpl.
    + apply perm_skip, IH.
    + apply Permutation_sym, Permutation_cons_app,
        Permutation_sym, IH.
Qed.

(** The enumeration order lists every own property once. *)
Lemma ownEntries_perm (o : list (string * A)) :
  Permutation (ownEntries o) o.
Proof.
  unfold ownEntries.
  eapply perm_trans; [|apply (partition_perm (fun kv => isIndex (fst kv)))].
  apply Permutation_app_tail, indexEntries_perm.
Qed.

Lemma indexEntries_none (o : list (string * A)) :
  (forall k, In k (map fst o) -> isIndex k = false) -> indexEntries o = [].
Proof.
  induction o as [|[k v] o IH]; simpl; intros H; [reflexivity|].
  assert (E : isIndex k = false) by (apply H; now left).
  unfold isIndex in E. destruct (arrayIndex k); [discriminate|].
  apply IH. intros k' I. apply H. now right.
Qed.

(** Without array-index keys the enumeration order is the creation order. *)
Lemma ownEntries_plain (o : list (string * A)) :
  (forall k, In k (map fst o) -> isIndex k = false) -> ownEntries o = o.
Proof.
  intros H. unfold ownEntries. rewrite (indexEntries_none o H). simpl.
  induction o as [|[k v] o IH]; simpl; [reflexivity|].
  rewrite (H k) by (simpl; now left). simpl. f_equal.
  apply IH. intros k' I. apply H. simpl. now right.
Qed.

(** The array-index entries come out in ascending order of their index. *)
Lemma insertIndex_sorted (n : Z) (k : string) (v : A) (l : list (Z * (string * A))) :
  StronglySorted (fun a b => (fst a <= fst b)%Z) l ->
  StronglySorted (fun a b => (fst a <= fst b)%Z) (insertIndex n k v l).
Proof.
  induction 1 as [|[m kv] l S IH F]; simpl.
  - constructor; constructor.
  - destruct (Z.ltb_spec n m) as [L|G].
    + constructor.
      * constructor; assumption.
      * constructor; [simpl; lia|].
        eapply Forall_impl; [|exact F]. simpl. intros a Ha. lia.
    + constructor; [exact IH|].
      eapply Permutation_Forall.
      * apply Permutation_sym, insertIndex_perm.
      * constructor; [simpl; lia | exact F].
Qed.

Lemma indexEntries_sorted (o : list (string * A)) :
  StronglySorted (fun a b => (fst a <= fst b)%Z) (indexEntries o).
Proof.
  induction o as [|[k v] o IH]; simpl.
  - constructor.
  - destruct (arrayIndex k); [apply insertIndex_sorted, IH | exact IH].
Qed.

Lemma indexEntries_value (o : list (string * A)) :
  Forall (fun e => arrayIndex (fst (snd e)) = Some (fst e)) (indexEntries o).
Proof.
  induction o as [|[k v] o IH]; simpl.
  - constructor.
  - destruct (arrayIndex k) as [n|] eqn:E; [|exact IH].
    eapply Permutation_Forall.
    + apply Permutation_sym, insertIndex_perm.
    + constructor; [exact E | exact IH].
Qed.

End ObjectOrder.

Lemma existsb_eqb_In (k : string) (l : list string) :
  existsb (String.eqb k) l = true <-> In k l.
Proof.
  rewrite existsb_exists. split.
  - intros [x [I E]]. apply String.eqb_eq in E. now subst.
  - intros I. exists k. split; [exact I | apply String.eqb_refl].
Qed.

Lemma existsb_eqb_notIn (k : string) (l : list string) :
  existsb (String.eqb k) l = false <-> ~ In k l.
Proof.
  rewrite <- existsb_eqb_In. destruct (existsb _ l); split; congruence.
Qed.

Lemma firstSeen_snoc (ks : list string) (k : string) :
  Spec.firstSeen (ks ++ [k])
  = if existsb (String.eqb k) (Spec.firstSeen ks) then Spec.firstSeen ks
    else (Spec.firstSeen ks ++ [k])%list.
Proof. unfold Spec.firstSeen. rewrite fold_left_app. reflexivity. Qed.

Lemma firstSeen_In (ks : list string) (k : string) :
  In k (Spec.firstSeen ks) <-> In k ks.
Proof.
  revert k. induction ks as [|a ks IH] using rev_ind; intros k;
    [unfold Spec.firstSeen; simpl; tauto|].
  rewrite firstSeen_snoc, in_app_iff. simpl.
  destruct (existsb (String.eqb a) (Spec.firstSeen ks)) eqn:E.
  - apply existsb_eqb_In, IH in E. rewrite IH. split; [tauto|].
    intros [H|[H|[]]]; [exact H | now subst].
  - rewrite in_app_iff, IH. simpl. tauto.
Qed.

Lemma firstSeen_NoDup (ks : list string) : NoDup (Spec.firstSeen ks).
Proof.
  induction ks as [|a ks IH] using rev_ind; [constructor|].
  rewrite firstSeen_snoc.
  destruct (existsb (String.eqb a) (Spec.firstSeen ks)) eqn:E; [exact IH|].
  apply existsb_eqb_notIn in E.
  eapply Permutation_NoDup; [apply Permutation_cons_append|].
  constructor; assumption.
Qed.

Lemma groupTotal_snoc (pre : list object) (row : object) (xAxis yAxis : axis) (k : string) :
  Spec.groupTotal (pre ++ [row]) xAxis yAxis k
  = if Spec.keyOf xAxis row =? k
    then Spec.addTo (Spec.groupTotal pre xAxis yAxis k) (coerce row (column yAxis))
    else Spec.groupTotal pre xAxis yAxis k.
Proof.
  unfold Spec.groupTotal. rewrite filter_app. simpl.
  destruct (Spec.keyOf xAxis row =? k).
  - rewrite map_app, fold_left_app. reflexivity.
  - rewrite app_nil_r. reflexivity.
Qed.

Lemma groupTotal_absent (data : list object) (xAxis yAxis : axis) (k : string) :
  ~ In k (map (Spec.keyOf xAxis) data) -> Spec.groupTotal data xAxis yAxis k = Num.zero.
Proof.
  intros H. unfold Spec.groupTotal.
  replace (filter (fun row => Spec.keyOf xAxis row =? k) data) with (@nil object);
    [reflexivity|].
  symmetry. induction data as [|row data IH]; simpl; [reflexivity|].
  destruct (String.eqb_spec (Spec.keyOf xAxis row) k) as [E|N].
  - exfalso. apply H. simpl. now left.
  - apply IH. intros I. apply H. simpl. now right.
Qed.

Lemma lookup_tabulate (g : string -> value) (F : list string) (k : string) :
  lookup k (map (fun k => (k, g k)) F)
  = if existsb (String.eqb k) F then Some (g k) else None.
Proof.
  induction F as [|a F IH]; simpl; [reflexivity|].
  rewrite (String.eqb_sym k a).
  destruct (String.eqb_spec a k) as [->|N]; [reflexivity | exact IH].
Qed.

Lemma update_absent (g : string -> value) (F : list string) (k : string) (v : value) :
  ~ In k F ->
  update k v (map (fun k => (k, g k)) F) = (map (fun k => (k, g k)) F ++ [(k, v)])%list.
Proof.
  induction F as [|a F IH]; simpl; intros H; [reflexivity|].
  destruct (String.eqb_spec a k) as [E|N]; [exfalso; apply H; now left|].
  f_equal. apply IH. tauto.
Qed.

Lemma update_present (g g' : string -> value) (F : list string) (k : string) :
  NoDup F -> In k F -> (forall k', k' <> k -> g' k' = g k') ->
  update k (g' k) (map (fun k => (k, g k)) F) = map (fun k => (k, g' k)) F.
Proof.
  intros ND I Hg. induction F as [|a F IH]; simpl; [destruct I|].
  inversion ND as [|? ? Ha ND']; subst.
  destruct (String.eqb_spec a k) as [->|N].
  - f_equal. apply map_ext_in. intros k' I'.
    rewrite Hg; [reflexivity|]. intros ->. contradiction.
  - rewrite (Hg a N). f_equal. apply IH; [exact ND'|].
    destruct I as [E|I]; [contradiction | exact I].
Qed.

(** The single pass of the pie branch builds the groups: each key once, in
    first-seen order, with the total of its group. *)
Lemma aggregate_grouped (data : list object) (xAxis yAxis : axis) :
  (forall row, In row data -> inherited (Spec.keyOf xAxis row) = false) ->
  aggregate data xAxis yAxis = Spec.grouped data xAxis yAxis.
Proof.
  induction data as [|row pre IH] using rev_ind; intros H; [reflexivity|].
  assert (Hpre : forall r, In r pre -> inherited (Spec.keyOf xAxis r) = false).
  { intros r I. apply H, in_app_iff. now left. }
  assert (Hrow : inherited (Spec.keyOf xAxis row) = false).
  { apply H, in_app_iff. right. now left. }
  unfold aggregate in *. rewrite fold_left_app. simpl. rewrite (IH Hpre).
  unfold aggregateStep. fold (Spec.keyOf xAxis row).
  set (k := Spec.keyOf xAxis row) in *.
  set (v := coerce row (column yAxis)).
  unfold Spec.grouped, Spec.groups. rewrite map_app. simpl. fold k.
  rewrite firstSeen_snoc.
  set (F := Spec.firstSeen (map (Spec.keyOf xAxis) pre)).
  set (g := fun k' => VNumber (Spec.groupTotal pre xAxis yAxis k')).
  set (g' := fun k' => VNumber (Spec.groupTotal (pre ++ [row]) xAxis yAxis k')).
  assert (Hg : forall k', k' <> k -> g' k' = g k').
  { intros k' N. unfold g', g. rewrite groupTotal_snoc. fold k.
    destruct (String.eqb_spec k k'); [congruence | reflexivity]. }
  assert (Hk : g' k = VNumber (Spec.addTo (Spec.groupTotal pre xAxis yAxis k) v)).
  { unfold g'. rewrite groupTotal_snoc. fold k. rewrite String.eqb_refl. reflexivity. }
  assert (Hset : set (map (fun k => (k, g k)) F) k
                   (orZeroPlus (map (fun k => (k, g k)) F) k v)
                 = update k (g' k) (map (fun k => (k, g k)) F)).
  { unfold set. destruct (String.eqb_spec k "__proto__") as [E|_].
    - rewrite E in Hrow. discriminate.
    - f_equal. rewrite Hk. unfold orZeroPlus. rewrite lookup_tabulate.
      destruct (existsb (String.eqb k) F) eqn:E.
      + reflexivity.
      + unfold inherited in Hrow. destruct (inheritedText k); [discriminate|].
        rewrite groupTotal_absent; [reflexivity|].
        apply existsb_eqb_notIn in E. intros I. apply E. unfold F.
        now apply firstSeen_In. }
  transitivity (update k (g' k) (map (fun k => (k, g k)) F)); [exact Hset|].
  change (update k (g' k) (map (fun k => (k, g k)) F)
          = map (fun k => (k, g' k)) (if existsb (String.eqb k) F then F else (F ++ [k])%list)).
  destruct (existsb (String.eqb k) F) eqn:E.
  - apply existsb_eqb_In in E.
    apply update_present; [apply firstSeen_NoDup | exact E | exact Hg].
  - apply existsb_eqb_notIn in E. rewrite update_absent by exact E.
    rewrite map_app. simpl. f_equal.
    apply map_ext_in. intros k' I. rewrite Hg; [reflexivity|]. intros ->. contradiction.
Qed.

(** ** Running totals in binary64 *)

Section Rounding.

Variables prec emax : Z.
Hypothesis prec_pos : (0 < prec)%Z.

Local Open Scope Z_scope.

Lemma fexp_emin (ex : Z) : emin prec emax <= fexp prec emax ex.
Proof. unfold fexp. lia. Qed.

Lemma shr_m_of_loc (m : Z) (l : location) : shr_m (shr_record_of_loc m l) = m.
Proof. destruct l as [|[| |]]; reflexivity. Qed.

Lemma shr_1_div2 (mrs : shr_record) :
  0 <= shr_m mrs -> shr_m (shr_1 mrs) = shr_m mrs / 2.
Proof.
  destruct mrs as [m rb sb]. simpl. intros H.
  destruct m as [|[p|p|]|p]; try reflexivity; try lia; simpl.
  - rewrite (Pos2Z.inj_xI p). apply Z.div_unique with (r := 1); lia.
  - rewrite (Pos2Z.inj_xO p). apply Z.div_unique with (r := 0); lia.
Qed.

Lemma iter_shr_1 (p : positive) (mrs : shr_record) :
  0 <= shr_m mrs -> shr_m (iter_pos shr_1 p mrs) = shr_m mrs / 2 ^ Zpos p.
Proof.
  revert mrs. induction p as [p IH|p IH|]; intros mrs H; simpl iter_pos.
  - assert (H1 : 0 <= shr_m (shr_1 mrs)).
    { rewrite shr_1_div2 by exact H. apply Z.div_pos; lia. }
    assert (H2 : 0 <= shr_m (iter_pos shr_1 p (shr_1 mrs))).
    { rewrite IH by exact H1. apply Z.div_pos; [exact H1 | lia]. }
    rewrite IH by exact H2. rewrite IH by exact H1. rewrite shr_1_div2 by exact H.
    rewrite !Z.div_div by lia. f_equal.
    rewrite (Pos2Z.inj_xI p).
    replace (2 * Zpos p + 1) with (Zpos p + Zpos p + 1) by lia.
    rewrite !Z.pow_add_r, Z.pow_1_r by lia. ring.
  - assert (H1 : 0 <= shr_m (iter_pos shr_1 p mrs)).
    { rewrite IH by exact H. apply Z.div_pos; [exact H | lia]. }
    rewrite IH by exact H1. rewrite IH by exact H.
    rewrite Z.div_div by lia. f_equal.
    rewrite (Pos2Z.inj_xO p).
    replace (2 * Zpos p) with (Zpos p + Zpos p) by lia.
    rewrite Z.pow_add_r by lia. ring.
  - rewrite shr_1_div2 by exact H. reflexivity.
Qed.

Lemma digits2_lower (m : positive) : 2 ^ (Zpos (digits2_pos m) - 1) <= Zpos m.
Proof.
  induction m as [m IH|m IH|]; simpl digits2_pos.
  - rewrite Pos2Z.inj_succ, (Pos2Z.inj_xI m).
    replace (Z.succ (Zpos (digits2_pos m)) - 1) with (1 + (Zpos (digits2_pos m) - 1)) by lia.
    rewrite Z.pow_add_r by lia. lia.
  - rewrite Pos2Z.inj_succ, (Pos2Z.inj_xO m).
    replace (Z.succ (Zpos (digits2_pos m)) - 1) with (1 + (Zpos (digits2_pos m) - 1)) by lia.
    rewrite Z.pow_add_r by lia. lia.
  - simpl. lia.
Qed.

(** Shifting a positive mantissa to the exponent of the format leaves it
    positive when its exponent is in range, and the exponent in range. *)
Lemma shr_fexp_positive (m : positive) (ex : Z) (l : location) :
  emin prec emax <= ex ->
  0 < shr_m (fst (shr_fexp prec emax (Zpos m) ex l))
  /\ emin prec emax <= snd (shr_fexp prec emax (Zpos m) ex l).
Proof.
  intros H. unfold shr_fexp, shr. simpl Zdigits2.
  destruct (fexp prec emax (Zpos (digits2_pos m) + ex) - ex) as [|p|p] eqn:E; simpl.
  - rewrite shr_m_of_loc. lia.
  - assert (F : fexp prec emax (Zpos (digits2_pos m) + ex)
                = Zpos (digits2_pos m) + ex - prec) by (unfold fexp in *; lia).
    split; [|rewrite <- E; pose proof (fexp_emin (Zpos (digits2_pos m) + ex)); lia].
    rewrite iter_shr_1 by (rewrite shr_m_of_loc; lia).
    rewrite shr_m_of_loc. apply Z.div_str_pos. split; [lia|].
    eapply Z.le_trans; [|apply digits2_lower].
    apply Z.pow_le_mono_r; lia.
  - rewrite shr_m_of_loc. lia.
Qed.

Lemma shr_fexp_exponent (m ex : Z) (l : location) :
  emin prec emax <= snd (shr_fexp prec emax m ex l).
Proof.
  unfold shr_fexp, shr. pose proof (fexp_emin (Zdigits2 m + ex)).
  destruct (fexp prec emax (Zdigits2 m + ex) - ex) eqn:E; simpl; lia.
Qed.

(** A finite result of rounding has its exponent in range. *)
Lemma binary_round_aux_exponent (sx : bool) (mx ex : Z) (lx : location)
    (s : bool) (m : positive) (e : Z) :
  binary_round_aux prec emax sx mx ex lx = S754_finite s m e -> emin prec emax <= e.
Proof.
  unfold binary_round_aux.
  destruct (shr_fexp prec emax mx ex lx) as [mrs' e'].
  pose proof (shr_fexp_exponent
                (round_nearest_even (shr_m mrs') (loc_of_shr_record mrs')) e' loc_Exact) as X.
  destruct (shr_fexp prec emax _ e' loc_Exact) as [mrs'' e'']. simpl in X.
  destruct (shr_m mrs''); try discriminate.
  destruct (e'' <=? emax - prec); [|discriminate].
  intros E. inversion E; subst. exact X.
Qed.

Lemma round_nearest_even_ge (m : Z) (l : location) : m <= round_nearest_even m l.
Proof. destruct l as [|[| |]]; simpl; try lia. destruct (Z.even m); lia. Qed.

(** Rounding a positive mantissa whose exponent is in range gives a finite
    number or an infinity. *)
Lemma binary_round_aux_positive (sx : bool) (m : positive) (ex : Z) (lx : location) :
  emin prec emax <= ex ->
  (exists m' e', binary_round_aux prec emax sx (Zpos m) ex lx = S754_finite sx m' e'
                 /\ emin prec emax <= e')
  \/ binary_round_aux prec emax sx (Zpos m) ex lx = S754_infinity sx.
Proof.
  intros H. unfold binary_round_aux.
  destruct (shr_fexp_positive m ex lx H) as [P1 E1].
  destruct (shr_fexp prec emax (Zpos m) ex lx) as [mrs' e']. simpl in P1, E1.
  pose proof (round_nearest_even_ge (shr_m mrs') (loc_of_shr_record mrs')) as G.
  destruct (round_nearest_even (shr_m mrs') (loc_of_shr_record mrs')) as [|m2|m2];
    try lia.
  destruct (shr_fexp_positive m2 e' loc_Exact E1) as [P2 E2].
  destruct (shr_fexp prec emax (Zpos m2) e' loc_Exact) as [mrs'' e'']. simpl in P2, E2.
  destruct (shr_m mrs'') as [|m3|m3]; try lia.
  destruct (e'' <=? emax - prec); [left | right; reflexivity].
  exists m3, e''. split; [reflexivity | exact E2].
Qed.

Lemma binary_round_positive (sx : bool) (m : positive) (ex : Z) :
  emin prec emax <= ex ->
  (exists m' e', binary_round prec emax sx m ex = S754_finite sx m' e'
                 /\ emin prec emax <= e')
  \/ binary_round prec emax sx m ex = S754_infinity sx.
Proof.
  intros H. unfold binary_round, shl_align.
  pose proof (fexp_emin (Zpos (digits2_pos m) + ex)) as F.
  destruct (fexp prec emax (Zpos (digits2_pos m) + ex) - ex) eqn:E;
    apply binary_round_aux_positive; lia.
Qed.

End Rounding.

Lemma prec_positive : (0 < Num.prec)%Z.
Proof. reflexivity. Qed.

Lemma settled_truthy (x : number) :
  (forall s m ex, x = S754_finite s m ex -> (emin Num.prec Num.emax <= ex)%Z) ->
  Num.truthy x = true -> Spec.settled x.
Proof.
  intros H T. destruct x as [s|s| |s m ex]; try discriminate; simpl.
  - exact I.
  - exact (H s m ex eq_refl).
Qed.

Lemma ofDecimal_exponent (neg : bool) (m e10 : Z) (s : bool) (m' : positive) (ex : Z) :
  Num.ofDecimal neg m e10 = S754_finite s m' ex -> (emin Num.prec Num.emax <= ex)%Z.
Proof.
  unfold Num.ofDecimal. destruct m as [|p|p]; try discriminate.
  destruct (0 <=? e10)%Z.
  - unfold binary_normalize.
    destruct (if neg then (- (Zpos p * 10 ^ e10))%Z else (Zpos p * 10 ^ e10)%Z) as [|q|q];
      try discriminate; unfold binary_round;
      destruct (shl_align _ _ _) as [mz ez]; apply binary_round_aux_exponent.
  - unfold SFdiv. destruct (SFdiv_core_binary _ _ _ _ _ _) as [[mz ez] lz].
    apply binary_round_aux_exponent.
Qed.

Lemma parseFloatString_exponent (str : string) (s : bool) (m : positive) (ex : Z) :
  parseFloatString str = S754_finite s m ex -> (emin Num.prec Num.emax <= ex)%Z.
Proof.
  unfold parseFloatString.
  repeat match goal with
         | |- context [let '(_, _) := ?x in _] => destruct x
         end.
  destruct (prefix "Infinity" _); [discriminate|].
  repeat match goal with
         | |- context [let '(_, _) := ?x in _] => destruct x
         end.
  destruct (_ =? 0)%Z; [discriminate|].
  apply ofDecimal_exponent.
Qed.

Lemma coerce_settled (row : object) (col : string) : Spec.settled (coerce row col).
Proof.
  unfold coerce, parseFloatOr.
  destruct (Num.truthy (parseFloat (get row col))) eqn:T; [|reflexivity].
  apply settled_truthy; [|exact T].
  intros s m ex. apply parseFloatString_exponent.
Qed.

(** Adding a finite number to a settled total gives a settled total. *)
Lemma add_settled (a b : number) :
  Spec.settled a -> Spec.settled b -> Spec.isInfinite b = false ->
  Spec.settled (Num.add a b).
Proof.
  destruct a as [sa|sa| |sa ma ea], b as [sb|sb| |sb mb eb]; simpl;
    try discriminate; try tauto.
  - intros -> -> _. reflexivity.
  - intros A B _. unfold Num.add, SFadd, binary_normalize.
    assert (E : (emin Num.prec Num.emax <= Z.min ea eb)%Z) by lia.
    destruct (cond_Zopp sa _ + cond_Zopp sb _)%Z as [|q|q].
    + reflexivity.
    + destruct (binary_round_positive Num.prec Num.emax prec_positive false q _ E)
        as [[m' [e' [-> G]]] | ->]; [exact G | exact I].
    + destruct (binary_round_positive Num.prec Num.emax prec_positive true q _ E)
        as [[m' [e' [-> G]]] | ->]; [exact G | exact I].
Qed.

Lemma addTo_settled (total v : number) :
  Spec.settled total -> Spec.addTo total v = Num.add total v.
Proof.
  unfold Spec.addTo. destruct total as [s|s| |s m ex]; simpl; try tauto.
  intros ->. reflexivity.
Qed.

Lemma totals_plain (vs : list number) (total : number) :
  Forall (fun v => Spec.settled v /\ Spec.isInfinite v = false) vs ->
  Spec.settled total ->
  fold_left Spec.addTo vs total = fold_left Num.add vs total.
Proof.
  intros F. revert total. induction F as [|v vs [S N] F IH]; intros total T; simpl.
  - reflexivity.
  - rewrite (addTo_settled total v T). apply IH, add_settled; assumption.
Qed.

(** The total of a group of finite values is their sum in record order. *)
Lemma groupTotal_sum (data : list object) (xAxis yAxis : axis) (k : string) :
  (forall row, In row data -> Spec.keyOf xAxis row = k ->
               Spec.isInfinite (coerce row (column yAxis)) = false) ->
  Spec.groupTotal data xAxis yAxis k = Analytics.sum (Spec.groupValues data xAxis yAxis k).
Proof.
  intros H. unfold Spec.groupTotal, Analytics.sum. fold (Spec.groupValues data xAxis yAxis k).
  apply totals_plain; [|reflexivity].
  unfold Spec.groupValues. apply Forall_map, Forall_forall.
  intros row I. apply filter_In in I. destruct I as [I E].
  apply String.eqb_eq in E. split; [apply coerce_settled | exact (H row I E)].
Qed.

(** ** Sums of integer values *)

(** Rounding in the format, for mantissas that need none. *)
Section Exact.

Variables prec emax : Z.

Local Open Scope Z_scope.

Lemma iter_pos_iter {A} (f : A -> A) (p : positive) (x : A) :
  iter_pos f p x = Pos.iter f x p.
Proof.
  revert x. induction p as [p IH|p IH|]; intros x; simpl.
  - rewrite !IH. now rewrite !Pos.iter_swap.
  - now rewrite !IH.
  - reflexivity.
Qed.

Lemma digits2_shift (m d : positive) :
  digits2_pos (Pos.iter xO m d) = (digits2_pos m + d)%positive.
Proof.
  induction d as [|d IH] using Pos.peano_ind.
  - simpl. lia.
  - rewrite Pos.iter_succ. simpl. rewrite IH. lia.
Qed.

Lemma shift_value (m d : positive) : Zpos (Pos.iter xO m d) = Zpos m * 2 ^ Zpos d.
Proof.
  induction d as [|d IH] using Pos.peano_ind.
  - simpl. lia.
  - rewrite Pos.iter_succ, Pos2Z.inj_xO, IH, Pos2Z.inj_succ, Z.pow_succ_r by lia. ring.
Qed.

Lemma shift_shift (m d q : positive) :
  Pos.iter xO (Pos.iter xO m d) q = Pos.iter xO m (q + d).
Proof. now rewrite Pos.iter_add. Qed.

Lemma shr_shift (m d : positive) :
  iter_pos shr_1 d {| shr_m := Zpos (Pos.iter xO m d); shr_r := false; shr_s := false |}
  = {| shr_m := Zpos m; shr_r := false; shr_s := false |}.
Proof.
  rewrite iter_pos_iter. induction d as [|d IH] using Pos.peano_ind.
  - reflexivity.
  - rewrite Pos.iter_succ_r, Pos.iter_succ. simpl shr_1. exact IH.
Qed.

Lemma shr_add (p q : positive) (mrs : shr_record) :
  iter_pos shr_1 (p + q) mrs = iter_pos shr_1 p (iter_pos shr_1 q mrs).
Proof. rewrite !iter_pos_iter. apply Pos.iter_add. Qed.

Lemma binary_round_aux_ext (s : bool) (m1 e1 m2 e2 : Z) (l1 l2 : location) :
  shr_fexp prec emax m1 e1 l1 = shr_fexp prec emax m2 e2 l2 ->
  binary_round_aux prec emax s m1 e1 l1 = binary_round_aux prec emax s m2 e2 l2.
Proof. intros H. unfold binary_round_aux. now rewrite H. Qed.

(** Rounding sees the value only: a mantissa with [d] more low zero bits and
    an exponent lower by [d] rounds to the same number. *)
Lemma binary_round_shift (s : bool) (m d : positive) (e : Z) :
  binary_round prec emax s (Pos.iter xO m d) (e - Zpos d) = binary_round prec emax s m e.
Proof.
  unfold binary_round.
  replace (Zpos (digits2_pos (Pos.iter xO m d)) + (e - Zpos d))
    with (Zpos (digits2_pos m) + e) by (rewrite digits2_shift; lia).
  set (t := fexp prec emax (Zpos (digits2_pos m) + e)).
  assert (T : t = fexp prec emax (Zpos (digits2_pos m) + e)) by reflexivity.
  clearbody t. unfold shl_align.
  destruct (t - (e - Zpos d)) as [|n|n] eqn:E1; destruct (t - e) as [|n2|n2] eqn:E2;
    try lia; apply binary_round_aux_ext; unfold shr_fexp; simpl Zdigits2;
    rewrite ?digits2_shift.
  all: repeat match goal with
              | |- context [fexp prec emax ?x] =>
                  replace x with (Zpos (digits2_pos m) + e) by lia; rewrite <- T
              end;
    simpl shr_record_of_loc; rewrite ?E1, ?E2.
  - (* t = e - d *)
    assert (n2 = d) by lia. subst n2. replace (t - t) with 0 by lia.
    replace (e - Zpos d) with t by lia. reflexivity.
  - (* t = e *)
    assert (n = d) by lia. subst n.
    unfold shr. rewrite shr_shift. f_equal. lia.
  - (* e < t *)
    assert (n = (n2 + d)%positive) by lia. subst n.
    unfold shr. rewrite shr_add, shr_shift. f_equal. lia.
  - (* e - d < t < e *)
    assert (d = (n + n2)%positive) by lia. subst d.
    replace (t - t) with 0 by lia. unfold shr.
    rewrite <- shift_shift, shr_shift. f_equal. lia.
  - (* t < e - d *)
    assert (n2 = (n + d)%positive) by lia. subst n2.
    now rewrite shift_shift.
Qed.


(** A mantissa that needs no rounding: shifted to the exponent of the
    format it is the result. *)
Lemma binary_round_exact (s : bool) (m : positive) (e : Z) :
  fexp prec emax (Zpos (digits2_pos m) + e) <= e ->
  fexp prec emax (Zpos (digits2_pos m) + e) <= emax - prec ->
  exists m', binary_round prec emax s m e
             = S754_finite s m' (fexp prec emax (Zpos (digits2_pos m) + e))
             /\ Zpos m' = Zpos m * 2 ^ (e - fexp prec emax (Zpos (digits2_pos m) + e)).
Proof.
  set (t := fexp prec emax (Zpos (digits2_pos m) + e)).
  assert (T : t = fexp prec emax (Zpos (digits2_pos m) + e)) by reflexivity.
  clearbody t. intros H1 H2. unfold binary_round. rewrite <- T. unfold shl_align.
  assert (R : forall mz, fexp prec emax (Zpos (digits2_pos mz) + t) = t ->
                binary_round_aux prec emax s (Zpos mz) t loc_Exact = S754_finite s mz t).
  { intros mz F. unfold binary_round_aux, shr_fexp. simpl Zdigits2. rewrite F.
    replace (t - t) with 0 by lia.
    cbn [shr shr_record_of_loc shr_m loc_of_shr_record shr_r shr_s round_nearest_even
         Zdigits2].
    rewrite F. replace (t - t) with 0 by lia.
    cbn [shr shr_record_of_loc shr_m].
    destruct (t <=? emax - prec) eqn:L; [reflexivity | lia]. }
  destruct (t - e) as [|n|n] eqn:E; try lia.
  - assert (e = t) by lia. subst e. exists m. split.
    + apply R. now rewrite <- T.
    + replace (t - t) with 0 by lia. simpl. lia.
  - exists (Pos.iter xO m n). split.
    + apply R. rewrite digits2_shift, T. f_equal. lia.
    + rewrite shift_value. f_equal. f_equal. lia.
Qed.

End Exact.

Section IntegerSums.

Local Open Scope Z_scope.

Lemma digits2_upper (m : positive) (n : Z) :
  0 <= n -> Zpos m < 2 ^ n -> Zpos (digits2_pos m) <= n.
Proof.
  revert n. induction m as [m IH|m IH|]; intros n N H; simpl digits2_pos.
  - assert (0 < n) by (destruct (Z.eq_dec n 0) as [->|]; [simpl in H; lia | lia]).
    replace n with (Z.succ (n - 1)) in H by lia. rewrite Z.pow_succ_r in H by lia.
    rewrite Pos2Z.inj_succ. specialize (IH (n - 1)). lia.
  - assert (0 < n) by (destruct (Z.eq_dec n 0) as [->|]; [simpl in H; lia | lia]).
    replace n with (Z.succ (n - 1)) in H by lia. rewrite Z.pow_succ_r in H by lia.
    rewrite Pos2Z.inj_succ. specialize (IH (n - 1)). lia.
  - assert (0 < n) by (destruct (Z.eq_dec n 0) as [->|]; [simpl in H; lia | lia]).
    lia.
Qed.

(** A positive integer below 2^53 is a number of the format: a mantissa
    and an exponent at most 0 with the same value. *)
Lemma round_integer (s : bool) (m : positive) :
  Zpos m < 2 ^ 53 ->
  exists m' e, binary_round Num.prec Num.emax s m 0 = S754_finite s m' e
               /\ e <= 0 /\ emin Num.prec Num.emax <= e
               /\ Zpos m' = Zpos m * 2 ^ (- e).
Proof.
  intros H. pose proof (digits2_upper m 53 ltac:(lia) H) as D.
  assert (F : fexp Num.prec Num.emax (Zpos (digits2_pos m) + 0)
              = Zpos (digits2_pos m) - 53).
  { unfold fexp, emin, Num.prec, Num.emax. lia. }
  destruct (binary_round_exact Num.prec Num.emax s m 0) as [m' [E V]].
  - rewrite F. lia.
  - rewrite F. unfold Num.prec, Num.emax. lia.
  - exists m', (fexp Num.prec Num.emax (Zpos (digits2_pos m) + 0)).
    split; [exact E|]. rewrite F in *. unfold emin, Num.prec, Num.emax.
    repeat split; try lia. rewrite V. f_equal.
Qed.

Lemma aligned_value (m : positive) (e e' : Z) :
  e' <= e -> Zpos (fst (shl_align m e e')) = Zpos m * 2 ^ (e - e').
Proof.
  intros H. unfold shl_align. destruct (e' - e) as [|n|n] eqn:E; try lia; cbn [fst].
  - replace (e - e') with 0 by lia. now rewrite Z.pow_0_r, Z.mul_1_r.
  - rewrite shift_value. f_equal. f_equal. lia.
Qed.

(** Rounding an integer scaled up by a power of two, at the exponent that
    scales it down again, is rounding the integer. *)
Lemma normalize_scaled (z k : Z) :
  0 <= k ->
  binary_normalize Num.prec Num.emax (z * 2 ^ k) (- k) false = Num.ofZ z.
Proof.
  intros K. unfold Num.ofZ.
  destruct k as [|k|k]; try lia.
  - simpl. now rewrite Z.mul_1_r.
  - destruct z as [|p|p]; [reflexivity| |].
    + replace (Zpos p * 2 ^ Zpos k) with (Zpos (Pos.iter xO p k))
        by (now rewrite shift_value).
      simpl binary_normalize.
      exact (binary_round_shift Num.prec Num.emax false p k 0).
    + replace (Zneg p * 2 ^ Zpos k) with (Zneg (Pos.iter xO p k))
        by (rewrite <- !Pos2Z.opp_pos, shift_value; ring).
      simpl binary_normalize.
      exact (binary_round_shift Num.prec Num.emax true p k 0).
Qed.

Lemma ofZ_finite (z : Z) :
  z <> 0 -> Z.abs z < 2 ^ 53 ->
  exists s m e, Num.ofZ z = S754_finite s m e
                /\ e <= 0 /\ emin Num.prec Num.emax <= e
                /\ cond_Zopp s (Zpos m) = z * 2 ^ (- e).
Proof.
  intros N H. unfold Num.ofZ. destruct z as [|p|p]; [congruence| |]; simpl binary_normalize.
  - destruct (round_integer false p) as [m [e [E [L [G V]]]]]; [exact H|].
    exists false, m, e. repeat split; try assumption.
  - destruct (round_integer true p) as [m [e [E [L [G V]]]]]; [exact H|].
    exists true, m, e. repeat split; try assumption.
    cbn [cond_Zopp]. rewrite V, <- (Pos2Z.opp_pos p). ring.
Qed.

(** Integers below 2^53 in magnitude add without rounding the addends: the
    sum is the rounding of the integer sum. *)
Lemma add_ofZ (a b : Z) :
  Z.abs a < 2 ^ 53 -> Z.abs b < 2 ^ 53 ->
  Num.add (Num.ofZ a) (Num.ofZ b) = Num.ofZ (a + b).
Proof.
  intros A B.
  destruct (Z.eq_dec a 0) as [->|Na].
  { destruct (Z.eq_dec b 0) as [->|Nb]; [reflexivity|].
    destruct (ofZ_finite b Nb B) as [s [m [e [E _]]]].
    rewrite Z.add_0_l, E. reflexivity. }
  destruct (ofZ_finite a Na A) as [sa [ma [ea [Ea [La [_ Va]]]]]].
  destruct (Z.eq_dec b 0) as [->|Nb].
  { rewrite Z.add_0_r, Ea. reflexivity. }
  destruct (ofZ_finite b Nb B) as [sb [mb [eb [Eb [Lb [_ Vb]]]]]].
  rewrite Ea, Eb. unfold Num.add, SFadd.
  set (ez := Z.min ea eb).
  assert (Sa : cond_Zopp sa (Zpos (fst (shl_align ma ea ez))) = a * 2 ^ (- ez)).
  { rewrite aligned_value by lia.
    replace (cond_Zopp sa (Zpos ma * 2 ^ (ea - ez)))
      with (cond_Zopp sa (Zpos ma) * 2 ^ (ea - ez)) by (destruct sa; cbn [cond_Zopp]; ring).
    rewrite Va, <- Z.mul_assoc, <- Z.pow_add_r by lia. f_equal. f_equal. lia. }
  assert (Sb : cond_Zopp sb (Zpos (fst (shl_align mb eb ez))) = b * 2 ^ (- ez)).
  { rewrite aligned_value by lia.
    replace (cond_Zopp sb (Zpos mb * 2 ^ (eb - ez)))
      with (cond_Zopp sb (Zpos mb) * 2 ^ (eb - ez)) by (destruct sb; cbn [cond_Zopp]; ring).
    rewrite Vb, <- Z.mul_assoc, <- Z.pow_add_r by lia. f_equal. f_equal. lia. }
  rewrite Sa, Sb, <- Z.mul_add_distr_r.
  replace ez with (- - ez) at 2 by lia.
  apply normalize_scaled. lia.
Qed.

Lemma ofZ_plain (z : Z) :
  Z.abs z < 2 ^ 53 -> Spec.settled (Num.ofZ z) /\ Spec.isInfinite (Num.ofZ z) = false.
Proof.
  intros H. destruct (Z.eq_dec z 0) as [->|N]; [split; reflexivity|].
  destruct (ofZ_finite z N H) as [s [m [e [-> [_ [G _]]]]]]. split; [exact G | reflexivity].
Qed.

Lemma magnitude_nonneg (zs : list Z) : 0 <= Spec.magnitude zs.
Proof. induction zs as [|z zs IH]; simpl; lia. Qed.

Lemma magnitude_In (zs : list Z) (z : Z) : In z zs -> Z.abs z <= Spec.magnitude zs.
Proof.
  induction zs as [|y zs IH]; simpl; [tauto|].
  pose proof (magnitude_nonneg zs). intros [->|I]; [lia | specialize (IH I); lia].
Qed.

Lemma total_magnitude (zs : list Z) : Z.abs (Spec.total zs) <= Spec.magnitude zs.
Proof. induction zs as [|z zs IH]; simpl; lia. Qed.

Lemma total_app (l1 l2 : list Z) : Spec.total (l1 ++ l2) = Spec.total l1 + Spec.total l2.
Proof. induction l1 as [|z l1 IH]; simpl; lia. Qed.

Lemma magnitude_app (l1 l2 : list Z) :
  Spec.magnitude (l1 ++ l2) = Spec.magnitude l1 + Spec.magnitude l2.
Proof. induction l1 as [|z l1 IH]; simpl; lia. Qed.

Lemma total_perm (l1 l2 : list Z) : Permutation l1 l2 -> Spec.total l1 = Spec.total l2.
Proof. induction 1; simpl; lia. Qed.

Lemma magnitude_perm (l1 l2 : list Z) :
  Permutation l1 l2 -> Spec.magnitude l1 = Spec.magnitude l2.
Proof. induction 1; simpl; lia. Qed.

Lemma total_flat_map {K} (g : K -> list Z) (ks : list K) :
  Spec.total (flat_map g ks) = Spec.total (map (fun k => Spec.total (g k)) ks).
Proof. induction ks as [|k ks IH]; simpl; [reflexivity|]. rewrite total_app. lia. Qed.

Lemma magnitude_flat_map {K} (g : K -> list Z) (ks : list K) :
  Spec.magnitude (map (fun k => Spec.total (g k)) ks) <= Spec.magnitude (flat_map g ks).
Proof.
  induction ks as [|k ks IH]; simpl; [lia|].
  rewrite magnitude_app. pose proof (total_magnitude (g k)). lia.
Qed.

Lemma magnitude_filter {B} (p : B -> bool) (f : B -> Z) (l : list B) :
  Spec.magnitude (map f (filter p l)) <= Spec.magnitude (map f l).
Proof.
  induction l as [|b l IH]; simpl; [lia|].
  destruct (p b); simpl; lia.
Qed.

(** Integers whose magnitudes add up to less than 2^53 are added without
    rounding, in any order. *)
Lemma sum_from (zs : list Z) (acc : Z) :
  Z.abs acc + Spec.magnitude zs < 2 ^ 53 ->
  fold_left Num.add (map Num.ofZ zs) (Num.ofZ acc) = Num.ofZ (acc + Spec.total zs).
Proof.
  revert acc. induction zs as [|z zs IH]; intros acc H; simpl in *.
  - now rewrite Z.add_0_r.
  - pose proof (magnitude_nonneg zs).
    rewrite add_ofZ by lia. rewrite IH by lia. f_equal. lia.
Qed.

Lemma sum_integers (zs : list Z) :
  Spec.magnitude zs < 2 ^ 53 -> Analytics.sum (map Num.ofZ zs) = Num.ofZ (Spec.total zs).
Proof.
  intros H. unfold Analytics.sum. change Num.zero with (Num.ofZ 0).
  rewrite sum_from by (simpl; lia). reflexivity.
Qed.

Lemma totals_integers (zs : list Z) :
  Spec.magnitude zs < 2 ^ 53 ->
  fold_left Spec.addTo (map Num.ofZ zs) Num.zero = Num.ofZ (Spec.total zs).
Proof.
  intros H. rewrite totals_plain; [exact (sum_integers zs H) | | reflexivity].
  apply Forall_map, Forall_forall. intros z I. apply ofZ_plain.
  pose proof (magnitude_In zs z I). lia.
Qed.

End IntegerSums.

(** ** Groups as a partition of the records *)

Lemma flat_map_ext_in {K B} (f g : K -> list B) (l : list K) :
  (forall k, In k l -> f k = g k) -> flat_map f l = flat_map g l.
Proof.
  induction l as [|k l IH]; intros H; simpl; [reflexivity|].
  rewrite (H k (or_introl eq_refl)), IH; [reflexivity|].
  intros k' I. apply H. now right.
Qed.

Lemma flat_map_map {K B C} (f : B -> C) (g : K -> list B) (l : list K) :
  flat_map (fun k => map f (g k)) l = map f (flat_map g l).
Proof.
  induction l as [|k l IH]; simpl; [reflexivity|]. now rewrite map_app, IH.
Qed.

Lemma filter_map {B C} (p : C -> bool) (f : B -> C) (l : list B) :
  filter p (map f l) = map f (filter (fun b => p (f b)) l).
Proof.
  induction l as [|b l IH]; simpl; [reflexivity|].
  destruct (p (f b)); simpl; now rewrite IH.
Qed.

Section Partition.

Context {B : Type} (key : B -> string).

Lemma filter_split (p : B -> bool) (l : list B) :
  Permutation (filter p l ++ filter (fun b => negb (p b)) l) l.
Proof.
  induction l as [|b l IH]; simpl; [apply perm_nil|].
  destruct (p b); simpl.
  - apply perm_skip, IH.
  - apply Permutation_sym, Permutation_cons_app, Permutation_sym, IH.
Qed.

Lemma filter_other (k k' : string) (l : list B) :
  k' <> k ->
  filter (fun b => (key b =? k')%string) (filter (fun b => negb (key b =? k)%string) l)
  = filter (fun b => (key b =? k')%string) l.
Proof.
  intros N. induction l as [|b l IH]; simpl; [reflexivity|].
  destruct (key b =? k)%string eqn:E; simpl.
  - apply String.eqb_eq in E.
    destruct (key b =? k')%string eqn:E'; [|exact IH].
    apply String.eqb_eq in E'. congruence.
  - now rewrite IH.
Qed.

(** Distinct keys that cover the keys of a list split it: the groups, one
    after the other, hold every element once. *)
Lemma partition_by_key (keys : list string) (l : list B) :
  NoDup keys -> (forall b, In b l -> In (key b) keys) ->
  Permutation (flat_map (fun k => filter (fun b => (key b =? k)%string) l) keys) l.
Proof.
  intros N. revert l. induction N as [|k keys O N IH]; intros l C; simpl.
  - destruct l as [|b l]; [apply perm_nil | destruct (C b (or_introl eq_refl))].
  - eapply perm_trans; [|apply (filter_split (fun b => (key b =? k)%string))].
    apply Permutation_app_head.
    rewrite (flat_map_ext_in
               (fun k' => filter (fun b => (key b =? k')%string) l)
               (fun k' => filter (fun b => (key b =? k')%string)
                            (filter (fun b => negb (key b =? k)%string) l))).
    + apply IH. intros b I. apply filter_In in I. destruct I as [I E].
      destruct (C b I) as [K|J]; [|exact J].
      rewrite K, String.eqb_refl in E. discriminate.
    + intros k' I. symmetry. apply filter_other. intros ->. exact (O I).
Qed.

End Partition.

(** The totals of the groups of integer Y-values are integers, and add up
    to the sum of all the values. *)
Lemma grouped_sum (data : list object) (xAxis yAxis : axis) (keys : list string)
    (zs : list Z) :
  NoDup keys ->
  (forall row, In row data -> In (Spec.keyOf xAxis row) keys) ->
  Spec.yValues data yAxis = map Num.ofZ zs ->
  (Spec.magnitude zs < 2 ^ 53)%Z ->
  Analytics.sum (map (Spec.groupTotal data xAxis yAxis) keys) = Num.ofZ (Spec.total zs).
Proof.
  intros N C Y M.
  assert (L : List.length data = List.length zs).
  { apply (f_equal (@List.length _)) in Y. unfold Spec.yValues in Y.
    now rewrite !length_map in Y. }
  set (l := combine data zs).
  assert (D : map fst l = data).
  { unfold l. clear -L. revert zs L. induction data as [|r data IH]; intros [|z zs] L;
      simpl in *; try discriminate; [reflexivity|]. f_equal. apply IH. lia. }
  assert (Z : map snd l = zs).
  { unfold l. clear -L. revert zs L. induction data as [|r data IH]; intros [|z zs] L;
      simpl in *; try discriminate; [reflexivity|]. f_equal. apply IH. lia. }
  assert (V : Forall (fun p => coerce (fst p) (column yAxis) = Num.ofZ (snd p)) l).
  { unfold l. clear -Y. unfold Spec.yValues in Y. revert zs Y.
    induction data as [|r data IH]; intros [|z zs] Y; simpl in *; try discriminate;
      constructor; inversion Y; [assumption | now apply IH]. }
  set (group := fun k => map snd (filter (fun p => (Spec.keyOf xAxis (fst p) =? k)%string) l)).
  assert (G : forall k, Spec.groupValues data xAxis yAxis k = map Num.ofZ (group k)).
  { intros k. unfold Spec.groupValues, group. rewrite <- D at 1.
    rewrite filter_map, !map_map. apply map_ext_in. intros p I.
    apply filter_In in I. rewrite Forall_forall in V. apply V, I. }
  assert (P : Permutation (flat_map group keys) zs).
  { unfold group. rewrite flat_map_map, <- Z. apply Permutation_map.
    apply (partition_by_key (fun p => Spec.keyOf xAxis (fst p))); [exact N|].
    intros p I. apply C. rewrite <- D. now apply in_map. }
  assert (T : forall k, Spec.groupTotal data xAxis yAxis k = Num.ofZ (Spec.total (group k))).
  { intros k. unfold Spec.groupTotal. fold (Spec.groupValues data xAxis yAxis k).
    rewrite G. apply totals_integers.
    eapply Z.le_lt_trans; [|exact M]. unfold group. rewrite <- Z.
    apply magnitude_filter. }
  rewrite (map_ext _ _ T), <- (map_map (fun k => Spec.total (group k)) Num.ofZ).
  rewrite sum_integers.
  - now rewrite <- total_flat_map, (total_perm _ _ P).
  - eapply Z.le_lt_trans; [apply magnitude_flat_map|].
    now rewrite (magnitude_perm _ _ P).
Qed.

Lemma numbersOf_numbers {K} (f : K -> number) (l : list K) :
  Spec.numbersOf (map (fun k => Scalar (VNumber (f k))) l) = map f l.
Proof. induction l as [|k l IH]; simpl; [reflexivity | now rewrite IH]. Qed.

(** Every record's value is in the values of exactly one group. *)
Lemma grouped_values_partition (data : list object) (xAxis yAxis : axis)
    (keys : list string) :
  NoDup keys ->
  (forall row, In row data -> In (Spec.keyOf xAxis row) keys) ->
  Permutation (flat_map (Spec.groupValues data xAxis yAxis) keys) (Spec.yValues data yAxis).
Proof.
  intros N C. unfold Spec.groupValues, Spec.yValues.
  rewrite flat_map_map. apply Permutation_map.
  exact (partition_by_key (Spec.keyOf xAxis) keys data N C).
Qed.

(** ** Proportional charts: labels and values *)

Lemma filter_map_fst {A} (p : string -> bool) (l : list (string * A)) :
  map fst (filter (fun kv => p (fst kv)) l) = filter p (map fst l).
Proof.
  induction l as [|[k v] l IH]; simpl; [reflexivity|].
  destruct (p k); simpl; now rewrite IH.
Qed.

Lemma sorted_index_keys {A} (l : list (Z * (string * A))) :
  StronglySorted (fun a b => (fst a <= fst b)%Z) l ->
  Forall (fun e => arrayIndex (fst (snd e)) = Some (fst e)) l ->
  StronglySorted (fun a b => (Spec.indexValue a <= Spec.indexValue b)%Z)
    (map fst (map snd l)).
Proof.
  induction 1 as [|a l S IH F]; intros V; simpl; [constructor|].
  inversion V as [|? ? Va Vl]; subst.
  constructor; [apply IH, Vl|].
  rewrite map_map. apply Forall_map.
  rewrite Forall_forall in *. intros b I.
  unfold Spec.indexValue. rewrite Va, (Vl b I). apply F, I.
Qed.

Lemma grouped_keys (data : list object) (xAxis yAxis : axis) :
  map fst (Spec.grouped data xAxis yAxis) = Spec.groups data xAxis.
Proof. unfold Spec.grouped. rewrite map_map. simpl. apply map_id. Qed.

Lemma grouped_values (data : list object) (xAxis yAxis : axis) (kv : string * value) :
  In kv (Spec.grouped data xAxis yAxis) ->
  snd kv = VNumber (Spec.groupTotal data xAxis yAxis (fst kv)).
Proof.
  unfold Spec.grouped. rewrite in_map_iff. intros [k [<- _]]. reflexivity.
Qed.

Lemma groups_spec (data : list object) (xAxis : axis) (k : string) :
  In k (Spec.groups data xAxis) <-> exists row, In row data /\ Spec.keyOf xAxis row = k.
Proof.
  unfold Spec.groups. rewrite firstSeen_In, in_map_iff.
  split; intros [row [H1 H2]]; exists row; tauto.
Qed.

(** Claim C4, as the code has it.  For pie and doughnut charts, and records
    none of whose X-values has the name of a member of [Object.prototype] as
    its string form, the transformer groups the records by the string form
    of the X-value.  The labels are the distinct keys, those that are array
    indices first, in ascending numeric order, the others after them in
    first-seen order; the values are the totals of the groups, in the order
    of the labels, each the coerced Y-values of the group added up in record
    order from 0, which is their sum when none of them is infinite; there
    are as many labels as distinct keys; the values of the groups, taken
    together, are the coerced Y-values of the records, each once, so that
    the data and the Y-values add up the same numbers, and to the same sum
    when the Y-values are integers whose magnitudes add up to less than
    2^53; and without array-index keys the labels are in first-seen
    order. *)
Theorem proportional_groups (data : list object) (chartType : string)
    (xAxis yAxis : axis) (zAxis : option axis) (colors : option (list string)) :
  proportional chartType = true ->
  (forall row, In row data -> inherited (Spec.keyOf xAxis row) = false) ->
  exists (series : dataset) (indexKeys : list string),
    datasets (processChartData data chartType xAxis yAxis zAxis colors) = [series]
    /\ labels (processChartData data chartType xAxis yAxis zAxis colors)
       = map VString
           (indexKeys ++ filter (fun k => negb (isIndex k)) (Spec.groups data xAxis))
    /\ ds_data series
       = map (fun k => Scalar (VNumber (Spec.groupTotal data xAxis yAxis k)))
           (indexKeys ++ filter (fun k => negb (isIndex k)) (Spec.groups data xAxis))
    /\ Permutation indexKeys (filter isIndex (Spec.groups data xAxis))
    /\ StronglySorted (fun a b => (Spec.indexValue a <= Spec.indexValue b)%Z) indexKeys
    /\ List.length (labels (processChartData data chartType xAxis yAxis zAxis colors))
       = List.length (Spec.groups data xAxis)
    /\ NoDup (Spec.groups data xAxis)
    /\ (forall k, In k (Spec.groups data xAxis)
                  <-> exists row, In row data /\ Spec.keyOf xAxis row = k)
    /\ (forall k,
          (forall row, In row data -> Spec.keyOf xAxis row = k ->
                       Spec.isInfinite (coerce row (column yAxis)) = false) ->
          Spec.groupTotal data xAxis yAxis k
          = Analytics.sum (Spec.groupValues data xAxis yAxis k))
    /\ Permutation
         (flat_map (Spec.groupValues data xAxis yAxis)
            (indexKeys ++ filter (fun k => negb (isIndex k)) (Spec.groups data xAxis)))
         (Spec.yValues data yAxis)
    /\ (forall zs : list Z,
          Spec.yValues data yAxis = map Num.ofZ zs ->
          (Spec.magnitude zs < 2 ^ 53)%Z ->
          Analytics.sum (Spec.numbersOf (ds_data series))
          = Analytics.sum (Spec.yValues data yAxis)
          /\ Analytics.sum (Spec.yValues data yAxis) = Num.ofZ (Spec.total zs))
    /\ ((forall k, In k (Spec.groups data xAxis) -> isIndex k = false) ->
        labels (processChartData data chartType xAxis yAxis zAxis colors)
        = map VString (Spec.groups data xAxis)).
Proof.
  intros P H. unfold processChartData. rewrite P, (aggregate_grouped data xAxis yAxis H).
  set (G := Spec.grouped data xAxis yAxis).
  assert (K : Object_keys G
              = (map fst (map snd (indexEntries G))
                 ++ filter (fun k => negb (isIndex k)) (Spec.groups data xAxis))%list).
  { unfold Object_keys, ownEntries. rewrite map_app. f_equal.
    rewrite (filter_map_fst (fun k => negb (isIndex k))). f_equal.
    apply grouped_keys. }
  assert (V : map Scalar (Object_values G)
              = map (fun k => Scalar (VNumber (Spec.groupTotal data xAxis yAxis k)))
                  (Object_keys G)).
  { unfold Object_values, Object_keys. rewrite !map_map. apply map_ext_in.
    intros kv I. f_equal. apply grouped_values.
    eapply Permutation_in; [apply ownEntries_perm | exact I]. }
  assert (Q : Permutation (Object_keys G) (Spec.groups data xAxis)).
  { unfold Object_keys. rewrite <- (grouped_keys data xAxis yAxis). fold G.
    apply Permutation_map, ownEntries_perm. }
  assert (N : NoDup (Object_keys G)).
  { eapply Permutation_NoDup; [apply Permutation_sym, Q | apply firstSeen_NoDup]. }
  assert (C : forall row, In row data -> In (Spec.keyOf xAxis row) (Object_keys G)).
  { intros row I. eapply Permutation_in; [apply Permutation_sym, Q|].
    apply groups_spec. now exists row. }
  eexists. exists (map fst (map snd (indexEntries G))).
  split; [reflexivity|]. cbn [labels ds_data withBackground withData].
  rewrite <- K.
  split; [reflexivity|]. split; [exact V|]. split.
  { rewrite <- (grouped_keys data xAxis yAxis). fold G.
    rewrite <- (filter_map_fst isIndex). apply Permutation_map, indexEntries_perm. }
  split; [apply sorted_index_keys; [apply indexEntries_sorted | apply indexEntries_value]|].
  split; [rewrite length_map; apply (Permutation_length Q)|].
  split; [apply firstSeen_NoDup|].
  split; [apply groups_spec|].
  split; [apply groupTotal_sum|].
  split; [exact (grouped_values_partition data xAxis yAxis _ N C)|].
  split.
  - intros zs Y M. rewrite V, numbersOf_numbers.
    rewrite (grouped_sum data xAxis yAxis _ zs N C Y M), Y.
    split; [symmetry|]; exact (sum_integers zs M).
  - intros I. unfold Object_keys. rewrite ownEntries_plain.
    + f_equal. apply grouped_keys.
    + intros k J. apply I. fold G in J. rewrite <- (grouped_keys data xAxis yAxis). exact J.
Qed.

(** The scenario of the specification: pie chart of Revenue by Region over
    East 100, West 200, East 50.  The labels are East and West, the data
    150 and 200, and both the data and the Y-values add up to 350. *)
Lemma proportional_groups_witness :
  proportional "pie" = true
  /\ (forall row, In row Samples.sales ->
        inherited (Spec.keyOf (Samples.plain "Region") row) = false)
  /\ Spec.yValues Samples.sales (Samples.plain "Revenue") = map Num.ofZ [100; 200; 50]%Z
  /\ (Spec.magnitude [100; 200; 50] < 2 ^ 53)%Z
  /\ exists (series : dataset),
    datasets (processChartData Samples.sales "pie" (Samples.plain "Region")
                (Samples.plain "Revenue") None None) = [series]
    /\ labels (processChartData Samples.sales "pie" (Samples.plain "Region")
                 (Samples.plain "Revenue") None None)
       = [VString "East"; VString "West"]
    /\ ds_data series = [Scalar (VNumber (Num.ofZ 150)); Scalar (VNumber (Num.ofZ 200))]
    /\ Permutation
         (flat_map
            (Spec.groupValues Samples.sales (Samples.plain "Region") (Samples.plain "Revenue"))
            ["East"; "West"])
         (Spec.yValues Samples.sales (Samples.plain "Revenue"))
    /\ Analytics.sum (Spec.numbersOf (ds_data series))
       = Analytics.sum (Spec.yValues Samples.sales (Samples.plain "Revenue"))
    /\ Analytics.sum (Spec.yValues Samples.sales (Samples.plain "Revenue"))
       = Num.ofZ 350.
Proof.
  assert (H : forall row, In row Samples.sales ->
                inherited (Spec.keyOf (Samples.plain "Region") row) = false).
  { intros row I. simpl in I.
    repeat (destruct I as [<-|I]; [reflexivity|]). destruct I. }
  assert (Y : Spec.yValues Samples.sales (Samples.plain "Revenue")
              = map Num.ofZ [100; 200; 50]%Z) by reflexivity.
  assert (M : (Spec.magnitude [100; 200; 50] < 2 ^ 53)%Z) by reflexivity.
  split; [reflexivity|]. split; [exact H|]. split; [exact Y|]. split; [exact M|].
  destruct (proportional_groups Samples.sales "pie" (Samples.plain "Region")
              (Samples.plain "Revenue") None None eq_refl H)
    as [series [indexKeys [D [L [V [P [_ [_ [_ [_ [_ [Q [S _]]]]]]]]]]]]].
  assert (E : indexKeys = []).
  { apply Permutation_sym, Permutation_nil in P. exact P. }
  subst indexKeys. exists series.
  split; [exact D|]. split; [exact L|]. split; [exact V|].
  split; [exact Q|].
  exact (S _ Y M).
Defined.

(** The scenario evaluates to the labels East, West and the data 150, 200. *)
Lemma sales_pie :
  labels (processChartData Samples.sales "pie" (Samples.plain "Region")
            (Samples.plain "Revenue") None None)
  = [VString "East"; VString "West"]
  /\ Spec.seriesData (processChartData Samples.sales "pie" (Samples.plain "Region")
                        (Samples.plain "Revenue") None None)
     = [Scalar (VNumber (Num.ofZ 150)); Scalar (VNumber (Num.ofZ 200))].
Proof. split; vm_compute; reflexivity. Qed.

(** Grouped by a column that the records do not hold and every object
    inherits, the records share one key, the text of the inherited
    member. *)
Lemma inherited_column_pie :
  labels (processChartData Samples.sales "pie" (Samples.plain "constructor")
            (Samples.plain "Revenue") None None)
  = [VString "function Object() { [native code] }"]
  /\ Spec.seriesData (processChartData Samples.sales "pie" (Samples.plain "constructor")
                        (Samples.plain "Revenue") None None)
     = [Scalar (VNumber (Num.ofZ 350))].
Proof. split; vm_compute; reflexivity. Qed.

(** Claim C4 as stated fails.  With the X-values "2", "1", "2" the labels
    are "1", "2", not the first-seen order "2", "1".  With the X-values
    "null" and null there is one label for two distinct X-values. *)
Lemma proportional_labels_not_first_seen :
  labels (processChartData Samples.outOfOrder "pie" (Samples.plain "Region")
            (Samples.plain "Revenue") None None)
  = [VString "1"; VString "2"]
  /\ Spec.groups Samples.outOfOrder (Samples.plain "Region") = ["2"; "1"]
  /\ labels (processChartData Samples.outOfOrder "pie" (Samples.plain "Region")
               (Samples.plain "Revenue") None None)
     <> map VString (Spec.groups Samples.outOfOrder (Samples.plain "Region"))
  /\ List.length (labels (processChartData Samples.sameText "pie" (Samples.plain "Region")
                            (Samples.plain "Revenue") None None))
     = 1%nat
  /\ List.length
       (Spec.distinctValues
          (map (fun row => get row (column (Samples.plain "Region"))) Samples.sameText))
     = 2%nat
  /\ List.length (labels (processChartData Samples.sameText "pie" (Samples.plain "Region")
                            (Samples.plain "Revenue") None None))
     <> List.length
          (Spec.distinctValues
             (map (fun row => get row (column (Samples.plain "Region"))) Samples.sameText)).
Proof.
  assert (L : labels (processChartData Samples.outOfOrder "pie" (Samples.plain "Region")
                        (Samples.plain "Revenue") None None)
              = [VString "1"; VString "2"]) by (vm_compute; reflexivity).
  assert (G : Spec.groups Samples.outOfOrder (Samples.plain "Region") = ["2"; "1"])
    by (vm_compute; reflexivity).
  split; [exact L|]. split; [exact G|]. split.
  { rewrite L, G. simpl. intros E. inversion E. }
  split; [vm_compute; reflexivity|]. split; [vm_compute; reflexivity|].
  vm_compute. intros E. inversion E.
Qed.

(** ** Chart data transformer: default series and 3D points *)

Lemma mapiFrom_length {A B} (f : A -> nat -> B) (l : list A) (i : nat) :
  List.length (mapiFrom f l i) = List.length l.
Proof. revert i. induction l as [|a l IH]; intros i; simpl; [reflexivity | now rewrite IH]. Qed.

Lemma mapiFrom_nth_error {A B} (f : A -> nat -> B) (l : list A) (i n : nat) :
  nth_error (mapiFrom f l i) n = option_map (fun a => f a (i + n)%nat) (nth_error l n).
Proof.
  revert i n. induction l as [|a l IH]; intros i [|n]; simpl; try reflexivity.
  - now rewrite Nat.add_0_r.
  - rewrite IH. now rewrite Nat.add_succ_r.
Qed.

Lemma nth_map_coerce (data : list object) (col : string) (index : nat) (row : object) :
  nth_error data index = Some row ->
  nth index (map (fun row => coerce row col) data) Num.NaN = coerce row col.
Proof.
  intros H. apply nth_error_nth.
  rewrite nth_error_map, H. reflexivity.
Qed.

Lemma parseFloatOr_nan (v : value) (d : number) :
  Num.isNaN (parseFloat v) = true -> parseFloatOr v d = d.
Proof.
  unfold parseFloatOr, Num.truthy. intros ->. reflexivity.
Qed.

Lemma parseFloatOr_truthy (v : value) (d : number) :
  Num.truthy (parseFloat v) = true -> parseFloatOr v d = parseFloat v.
Proof. unfold parseFloatOr. intros ->. reflexivity. Qed.

Lemma coerce_not_nan (row : object) (col : string) : Num.isNaN (coerce row col) = false.
Proof.
  unfold coerce, parseFloatOr, Num.truthy.
  destruct (parseFloat (get row col)); reflexivity.
Qed.

(** Claim C5, as the code has it.  For chart types other than pie and
    doughnut, whenever a Z-axis selection with a column name is present the
    single series holds one point per record, in record order; its y and z
    are the Y and Z values coerced with 0 on failure, and its x is the
    record's position when the X-value does not parse as a number, and the
    parsed X-value when that is a number other than zero. *)
Theorem three_dimensional_points (data : list object) (chartType : string)
    (xAxis yAxis : axis) (zAxis : option axis) (colors : option (list string)) :
  proportional chartType = false ->
  hasZ zAxis = true ->
  exists series : dataset,
    datasets (processChartData data chartType xAxis yAxis zAxis colors) = [series]
    /\ List.length (ds_data series) = List.length data
    /\ forall (index : nat) (row : object),
        nth_error data index = Some row ->
        exists x : number,
          nth_error (ds_data series) index
          = Some (Point x (coerce row (column yAxis)) (coerce row (zColumn zAxis)))
          /\ (Num.isNaN (parseFloat (get row (column xAxis))) = true ->
              x = Num.ofNat index)
          /\ (Num.truthy (parseFloat (get row (column xAxis))) = true ->
              x = parseFloat (get row (column xAxis))).
Proof.
  intros P Z. unfold processChartData. rewrite P, Z.
  eexists. split; [reflexivity|]. cbn [ds_data withData]. split.
  - apply mapiFrom_length.
  - intros index row H.
    exists (parseFloatOr (get row (column xAxis)) (Num.ofNat index)).
    split; [|split].
    + unfold mapi. rewrite mapiFrom_nth_error, H. simpl.
      rewrite !(nth_map_coerce data _ index row H). reflexivity.
    + apply parseFloatOr_nan.
    + apply parseFloatOr_truthy.
Qed.

Lemma three_dimensional_points_witness :
  proportional "3d-scatter" = false
  /\ hasZ (Some (Samples.plain "Revenue")) = true
  /\ exists series : dataset,
    datasets (processChartData Samples.sales "3d-scatter" (Samples.plain "Region")
                (Samples.plain "Revenue") (Some (Samples.plain "Revenue")) None) = [series]
    /\ List.length (ds_data series) = List.length Samples.sales
    /\ forall (index : nat) (row : object),
        nth_error Samples.sales index = Some row ->
        exists x : number,
          nth_error (ds_data series) index
          = Some (Point x (coerce row (column (Samples.plain "Revenue")))
                    (coerce row (zColumn (Some (Samples.plain "Revenue")))))
          /\ (Num.isNaN (parseFloat (get row (column (Samples.plain "Region")))) = true ->
              x = Num.ofNat index)
          /\ (Num.truthy (parseFloat (get row (column (Samples.plain "Region")))) = true ->
              x = parseFloat (get row (column (Samples.plain "Region")))).
Proof.
  split; [reflexivity|]. split; [reflexivity|].
  exact (three_dimensional_points Samples.sales "3d-scatter" (Samples.plain "Region")
           (Samples.plain "Revenue") (Some (Samples.plain "Revenue")) None
           eq_refl eq_refl).
Defined.

(** Claim C5 as stated fails for the proportional types: a pie chart with a
    Z-axis selection carries the totals of the groups, not points. *)
Lemma pie_with_z_axis_has_no_points :
  hasZ (Some (Samples.plain "Revenue")) = true
  /\ Spec.seriesData
       (processChartData Samples.sales "pie" (Samples.plain "Region")
          (Samples.plain "Revenue") (Some (Samples.plain "Revenue")) None)
     = [Scalar (VNumber (Num.ofZ 150)); Scalar (VNumber (Num.ofZ 200))].
Proof. split; vm_compute; reflexivity. Qed.





(** ** Workbook parser *)

(** *** Cell addresses read back *)

Lemma decode_letter (x : Z) (rest : string) (R C : Z) :
  (0 <= x < 26)%Z ->
  XLSX.decode_cell_from (String (ascii_of_nat (Z.to_nat (x + 65))) rest) R C
  = XLSX.decode_cell_from rest R (26 * C + (x + 1)).
Proof.
  intros H. cbn [XLSX.decode_cell_from].
  rewrite nat_ascii_embedding by lia. rewrite Z2Nat.id by lia.
  destruct (Z.leb_spec 48 (x + 65)); [|lia].
  destruct (Z.leb_spec (x + 65) 57); [lia|].
  destruct (Z.leb_spec 65 (x + 65)); [|lia].
  destruct (Z.leb_spec (x + 65) 90); [|lia].
  cbn [andb]. f_equal. lia.
Qed.

Lemma toInt32_small (z : Z) : (0 <= z < 2 ^ 31)%Z -> XLSX.toInt32 z = z.
Proof.
  intros H. unfold XLSX.toInt32.
  change (2 ^ 31)%Z with 2147483648%Z in *. change (2 ^ 32)%Z with 4294967296%Z.
  rewrite Z.mod_small; lia.
Qed.

Lemma decode_letters (fuel : nat) (col : Z) (acc rest : string) (R : Z) :
  (0 <= col < 26 ^ Z.of_nat fuel)%Z ->
  (col <= 2 ^ 31)%Z ->
  XLSX.decode_cell_from (XLSX.encode_letters fuel col acc ++ rest) R 0
  = XLSX.decode_cell_from (acc ++ rest) R col.
Proof.
  revert col acc. induction fuel as [|fuel IH]; intros col acc H B.
  - simpl in H. assert (col = 0%Z) by lia. subst. reflexivity.
  - cbn [XLSX.encode_letters].
    destruct (Z.eqb_spec col 0) as [->|N]; [reflexivity|].
    assert (P : (0 <= col - 1)%Z) by lia.
    rewrite Z.quot_div_nonneg, Z.rem_mod_nonneg by lia.
    pose proof (Z.mod_pos_bound (col - 1) 26 ltac:(lia)) as M.
    pose proof (Z.div_mod (col - 1) 26 ltac:(lia)) as D.
    assert (Q : (0 <= (col - 1) / 26)%Z) by (apply Z.div_pos; lia).
    assert (U : ((col - 1) / 26 < 26 ^ Z.of_nat fuel)%Z).
    { apply Z.div_lt_upper_bound; [lia|].
      rewrite Nat2Z.inj_succ, Z.pow_succ_r in H by lia. lia. }
    change (2 ^ 31)%Z with 2147483648%Z in *.
    rewrite toInt32_small by (change (2 ^ 31)%Z with 2147483648%Z; lia).
    rewrite IH by lia.
    change (String ?ch acc ++ rest) with (String ch (acc ++ rest)).
    rewrite decode_letter by exact M. f_equal. lia.
Qed.

Lemma decode_digits (d : Decimal.uint) (R C : Z) :
  XLSX.decode_cell_from (NilEmpty.string_of_uint d) R C
  = {| XLSX.r := Spec.digitsFrom d R - 1; XLSX.c := C - 1 |}.
Proof.
  revert R. induction d; intros R; cbn [NilEmpty.string_of_uint Spec.digitsFrom];
    [reflexivity|..];
    cbn [XLSX.decode_cell_from];
    match goal with
    | |- context [Z.of_nat (nat_of_ascii ?ch)] =>
        let v := eval vm_compute in (Z.of_nat (nat_of_ascii ch)) in
        change (Z.of_nat (nat_of_ascii ch)) with v
    end;
    match goal with
    | |- context [if ?b then _ else _] =>
        let v := eval vm_compute in b in change b with v
    end;
    cbv iota; rewrite IHd; do 3 f_equal; try lia.
Qed.

Lemma digitsFrom_pos (d : Decimal.uint) (acc : positive) :
  Spec.digitsFrom d (Zpos acc) = Zpos (Pos.of_uint_acc d acc).
Proof.
  revert acc. induction d; intros acc; cbn [Spec.digitsFrom Pos.of_uint_acc];
    [reflexivity| rewrite <- IHd; f_equal; lia ..].
Qed.

Lemma digitsFrom_zero (d : Decimal.uint) :
  Spec.digitsFrom d 0 = Z.of_N (Pos.of_uint d).
Proof.
  induction d; cbn [Spec.digitsFrom Pos.of_uint];
    [reflexivity | exact IHd | apply digitsFrom_pos ..].
Qed.

Lemma decode_digits_zero (d : Decimal.uint) (C : Z) :
  XLSX.decode_cell_from (NilZero.string_of_uint d) 0 C
  = {| XLSX.r := Spec.digitsFrom d 0 - 1; XLSX.c := C - 1 |}.
Proof.
  destruct d; [reflexivity|..];
    (etransitivity; [|apply decode_digits]); reflexivity.
Qed.

Lemma decode_decimal (z C : Z) :
  (0 <= z)%Z ->
  XLSX.decode_cell_from (Num.decimal z) 0 C = {| XLSX.r := z - 1; XLSX.c := C - 1 |}.
Proof.
  intros H. unfold Num.decimal. rewrite decode_digits_zero, digitsFrom_zero.
  change (Pos.of_uint ?d) with (N.of_uint d).
  rewrite DecimalN.Unsigned.of_to. f_equal. lia.
Qed.

(** [decode_cell] reads back what [encode_cell] writes. *)
Lemma decode_encode_cell (a : XLSX.cellAddress) :
  (0 <= XLSX.r a)%Z -> (0 <= XLSX.c a < 2 ^ 31)%Z ->
  XLSX.decode_cell (XLSX.encode_cell a) = a.
Proof.
  intros Hr Hc. unfold XLSX.decode_cell, XLSX.encode_cell, XLSX.encode_row.
  change (2 ^ 31)%Z with 2147483648%Z in *.
  rewrite decode_letters;
    [|change (26 ^ Z.of_nat 16)%Z with 43608742899428874059776%Z; lia
     |change (2 ^ 31)%Z with 2147483648%Z; lia].
  destruct (Z.ltb_spec (XLSX.r a + 1) 0); [lia|].
  change ("" ++ ?x) with x.
  rewrite decode_decimal by lia. destruct a as [r c]. simpl. f_equal; lia.
Qed.

(** *** Ranges read back *)

Lemma letters_chars (fuel : nat) (col : Z) (acc : string) (ch : ascii) :
  (0 <= col <= 2 ^ 31)%Z ->
  In ch (list_ascii_of_string (XLSX.encode_letters fuel col acc)) ->
  In ch (list_ascii_of_string acc) \/ (65 <= nat_of_ascii ch <= 90)%nat.
Proof.
  change (2 ^ 31)%Z with 2147483648%Z.
  revert col acc. induction fuel as [|fuel IH]; intros col acc H I; [now left|].
  cbn [XLSX.encode_letters] in I.
  destruct (Z.eqb_spec col 0) as [->|N]; [now left|].
  rewrite Z.quot_div_nonneg, Z.rem_mod_nonneg in I by lia.
  pose proof (Z.mod_pos_bound (col - 1) 26 ltac:(lia)) as M.
  assert (Q : (0 <= (col - 1) / 26)%Z) by (apply Z.div_pos; lia).
  assert (U : ((col - 1) / 26 < 2147483648)%Z) by (apply Z.div_lt_upper_bound; lia).
  rewrite toInt32_small in I by (change (2 ^ 31)%Z with 2147483648%Z; lia).
  apply IH in I; [|lia].
  destruct I as [[<-|I]|I]; [right | now left | now right].
  rewrite nat_ascii_embedding by lia. lia.
Qed.

Lemma digits_chars (d : Decimal.uint) (ch : ascii) :
  In ch (list_ascii_of_string (NilEmpty.string_of_uint d)) ->
  (48 <= nat_of_ascii ch <= 57)%nat.
Proof.
  induction d; cbn [NilEmpty.string_of_uint list_ascii_of_string];
    [intros []|..]; (intros [<-|I]; [vm_compute; split; repeat constructor | exact (IHd I)]).
Qed.

Lemma chars_app (a b : string) :
  list_ascii_of_string (a ++ b) = (list_ascii_of_string a ++ list_ascii_of_string b)%list.
Proof. induction a as [|ch a IH]; simpl; [reflexivity | now rewrite IH]. Qed.

Lemma encode_cell_chars (a : XLSX.cellAddress) (ch : ascii) :
  (0 <= XLSX.r a)%Z -> (0 <= XLSX.c a < 2 ^ 31)%Z ->
  In ch (list_ascii_of_string (XLSX.encode_cell a)) ->
  (48 <= nat_of_ascii ch <= 57)%nat \/ (65 <= nat_of_ascii ch <= 90)%nat.
Proof.
  intros Hr Hc. unfold XLSX.encode_cell, XLSX.encode_row.
  change (2 ^ 31)%Z with 2147483648%Z in *.
  rewrite chars_app, in_app_iff. intros [I|I].
  - apply letters_chars in I; [|change (2 ^ 31)%Z with 2147483648%Z; lia].
    destruct I as [[]|I]. now right.
  - left. destruct (Z.ltb_spec (XLSX.r a + 1) 0); [lia|].
    unfold Num.decimal, NilZero.string_of_uint in I.
    destruct (N.to_uint (Z.to_N (XLSX.r a + 1))) eqn:D;
      try (rewrite <- D in I; exact (digits_chars _ _ I)).
    simpl in I. destruct I as [<-|[]]. vm_compute. split; repeat constructor.
Qed.

Lemma splitColon_none (a : string) :
  ~ In ":"%char (list_ascii_of_string a) -> XLSX.splitColon a = (a, None).
Proof.
  induction a as [|ch a IH]; intros N; [reflexivity|].
  cbn [XLSX.splitColon].
  assert (D : ch <> ":"%char) by (intros ->; apply N; now left).
  rewrite IH by (intros I; apply N; now right).
  destruct ch as [[|] [|] [|] [|] [|] [|] [|] [|]]; try reflexivity. contradiction.
Qed.

Lemma splitColon_some (a b : string) :
  ~ In ":"%char (list_ascii_of_string a) ->
  XLSX.splitColon (a ++ String ":" b) = (a, Some b).
Proof.
  induction a as [|ch a IH]; intros N; [reflexivity|].
  change (String ch a ++ String ":" b) with (String ch (a ++ String ":" b)).
  cbn [XLSX.splitColon].
  assert (D : ch <> ":"%char) by (intros ->; apply N; now left).
  rewrite IH by (intros I; apply N; now right).
  destruct ch as [[|] [|] [|] [|] [|] [|] [|] [|]]; try reflexivity. contradiction.
Qed.

Lemma encode_cell_no_colon (a : XLSX.cellAddress) :
  (0 <= XLSX.r a)%Z -> (0 <= XLSX.c a < 2 ^ 31)%Z ->
  ~ In ":"%char (list_ascii_of_string (XLSX.encode_cell a)).
Proof.
  intros Hr Hc I. apply (encode_cell_chars a _ Hr Hc) in I.
  change (nat_of_ascii ":") with 58%nat in I. lia.
Qed.

(** [decode_range] reads back the range whose text a parsed sheet has. *)
Lemma decode_encode_range (rg : XLSX.range) :
  Spec.wellFormed rg -> XLSX.decode_range (XLSX.encode_range rg) = rg.
Proof.
  intros [[R1 R2] [[C1 C2] B]].
  assert (Ds : XLSX.decode_cell (XLSX.encode_cell (XLSX.s rg)) = XLSX.s rg)
    by (apply decode_encode_cell; lia).
  assert (De : XLSX.decode_cell (XLSX.encode_cell (XLSX.e rg)) = XLSX.e rg)
    by (apply decode_encode_cell; lia).
  unfold XLSX.encode_range, XLSX.decode_range.
  destruct (String.eqb_spec (XLSX.encode_cell (XLSX.s rg)) (XLSX.encode_cell (XLSX.e rg)))
    as [E|N].
  - rewrite splitColon_none by (apply encode_cell_no_colon; lia).
    rewrite Ds. destruct rg as [s e]. simpl in *. f_equal. congruence.
  - change (":" ++ XLSX.encode_cell (XLSX.e rg))
      with (String ":" (XLSX.encode_cell (XLSX.e rg))).
    rewrite splitColon_some by (apply encode_cell_no_colon; lia).
    rewrite Ds, De. destruct rg; reflexivity.
Qed.

(** *** The summary of a sheet *)

Lemma headersFrom_length (ws : XLSX.worksheet) (row col : Z) (count : nat) :
  List.length (Files.headersFrom ws row col count) = count.
Proof.
  revert col. induction count as [|count IH]; intros col; simpl; [reflexivity|].
  now rewrite IH.
Qed.

Lemma headersFrom_nth (ws : XLSX.worksheet) (row col : Z) (count i : nat) :
  (i < count)%nat ->
  nth_error (Files.headersFrom ws row col count) i
  = Some match lookup (XLSX.encode_cell {| XLSX.r := row; XLSX.c := col + Z.of_nat i |})
                 (XLSX.cells ws) with
         | Some v => v
         | None => VString ("Column " ++ Num.toString (Num.ofZ (col + Z.of_nat i + 1)))
         end.
Proof.
  revert col i. induction count as [|count IH]; intros col i L; [lia|].
  cbn [Files.headersFrom]. destruct i as [|i].
  - rewrite Z.add_0_r. reflexivity.
  - cbn [nth_error]. rewrite IH by lia.
    replace (col + 1 + Z.of_nat i)%Z with (col + Z.of_nat (S i))%Z by lia.
    reflexivity.
Qed.

Lemma encode_range_not_empty (rg : XLSX.range) :
  Spec.wellFormed rg -> XLSX.encode_range rg <> "".
Proof.
  intros W E. pose proof (decode_encode_range rg W) as D. rewrite E in D.
  destruct W as [[R _] _]. rewrite <- D in R. vm_compute in R. now apply R.
Qed.

Lemma sheetRange_parsed (ws : XLSX.worksheet) (rg : XLSX.range) :
  Spec.wellFormed rg -> XLSX.ref ws = Some (XLSX.encode_range rg) ->
  Files.sheetRange ws = rg.
Proof.
  intros W E. unfold Files.sheetRange. rewrite E.
  destruct (String.eqb_spec (XLSX.encode_range rg) "") as [Z|_].
  - exfalso. exact (encode_range_not_empty rg W Z).
  - now apply decode_encode_range.
Qed.

Lemma sheetRange_default (ws : XLSX.worksheet) :
  XLSX.ref ws = None \/ XLSX.ref ws = Some "" ->
  Files.sheetRange ws
  = {| XLSX.s := {| XLSX.r := 0; XLSX.c := 0 |}; XLSX.e := {| XLSX.r := 0; XLSX.c := 0 |} |}.
Proof. unfold Files.sheetRange. intros [-> | ->]; reflexivity. Qed.

(** Claim C7.  The summary of a parsed sheet, whose ['!ref'] entry is the
    text of its occupied range, has the inclusive extent of that range as
    its row count and as its column count, and as many column headers as
    its column count.  A sheet without a range entry is summarised over the
    single cell A1: one row, one column, one header, which is "Column 1"
    when the sheet has no cell at A1. *)
Theorem summary_counts (sheetName : string) (ws : XLSX.worksheet) :
  (forall rg : XLSX.range,
      Spec.wellFormed rg ->
      XLSX.ref ws = Some (XLSX.encode_range rg) ->
      Files.rowCount (Files.castSummary (Files.summarize sheetName ws))
      = (XLSX.r (XLSX.e rg) - XLSX.r (XLSX.s rg) + 1)%Z
      /\ Files.columnCount (Files.castSummary (Files.summarize sheetName ws))
         = (XLSX.c (XLSX.e rg) - XLSX.c (XLSX.s rg) + 1)%Z
      /\ Z.of_nat (List.length (Files.columns (Files.castSummary
                                                 (Files.summarize sheetName ws))))
         = Files.columnCount (Files.castSummary (Files.summarize sheetName ws)))
  /\ (XLSX.ref ws = None \/ XLSX.ref ws = Some "" ->
      Files.rowCount (Files.castSummary (Files.summarize sheetName ws)) = 1%Z
      /\ Files.columnCount (Files.castSummary (Files.summarize sheetName ws)) = 1%Z
      /\ List.length (Files.columns (Files.castSummary (Files.summarize sheetName ws)))
         = 1%nat
      /\ (lookup "A1" (XLSX.cells ws) = None ->
          Files.castSummary (Files.summarize sheetName ws)
          = {| Files.name := sheetName; Files.rowCount := 1; Files.columnCount := 1;
               Files.columns := [VString "Column 1"] |})).
Proof.
  split.
  - intros rg W E. unfold Files.summarize, Files.castSummary.
    rewrite (sheetRange_parsed ws rg W E).
    cbn [Files.rowCount Files.columnCount Files.columns].
    split; [reflexivity|]. split; [reflexivity|].
    rewrite length_map, headersFrom_length.
    destruct W as [_ [C _]]. lia.
  - intros R. unfold Files.summarize, Files.castSummary.
    rewrite (sheetRange_default ws R).
    cbn [Files.rowCount Files.columnCount Files.columns Files.name
         XLSX.s XLSX.e XLSX.r XLSX.c].
    split; [reflexivity|]. split; [reflexivity|]. split; [reflexivity|].
    intros C. change (Z.to_nat (0 - 0 + 1)) with 1%nat. cbn [Files.headersFrom].
    change (XLSX.encode_cell {| XLSX.r := 0; XLSX.c := 0 |}) with "A1".
    rewrite C. reflexivity.
Qed.

Lemma summary_counts_witness :
  Spec.wellFormed Samples.salesRange
  /\ XLSX.encode_range Samples.salesRange = "A1:B4"
  /\ XLSX.ref Samples.salesSheet = Some (XLSX.encode_range Samples.salesRange)
  /\ Files.rowCount (Files.castSummary (Files.summarize "Sales" Samples.salesSheet)) = 4%Z
  /\ Files.columnCount (Files.castSummary (Files.summarize "Sales" Samples.salesSheet))
     = 2%Z
  /\ List.length
       (Files.columns (Files.castSummary (Files.summarize "Sales" Samples.salesSheet)))
     = 2%nat.
Proof.
  assert (W : Spec.wellFormed Samples.salesRange).
  { unfold Spec.wellFormed. simpl. lia. }
  assert (E : XLSX.ref Samples.salesSheet = Some (XLSX.encode_range Samples.salesRange))
    by reflexivity.
  destruct (proj1 (summary_counts "Sales" Samples.salesSheet) Samples.salesRange W E)
    as [R [C L]].
  split; [exact W|]. split; [reflexivity|]. split; [exact E|].
  split; [rewrite R; reflexivity|]. split; [rewrite C; reflexivity|].
  apply Nat2Z.inj. rewrite L, C. reflexivity.
Defined.

(** The two sample sheets: Region, Revenue over four rows, and the sheet
    without cells. *)
Lemma sample_summaries :
  Files.summarize "Sales" Samples.salesSheet
  = {| Files.name := "Sales"; Files.rowCount := 4; Files.columnCount := 2;
       Files.columns := [VString "Region"; VString "Revenue"] |}
  /\ Files.summarize "Empty" Samples.emptySheet
     = {| Files.name := "Empty"; Files.rowCount := 1; Files.columnCount := 1;
          Files.columns := [VString "Column 1"] |}.
Proof. split; vm_compute; reflexivity. Qed.

(** ** Ingestion *)

Lemma summarizeAll_length (wb : XLSX.workbook) (names : list string)
    (sheets : list Files.summary) :
  Files.summarizeAll wb names = Ok sheets -> List.length sheets = List.length names.
Proof.
  revert sheets. induction names as [|n names IH]; intros sheets; simpl.
  - intros E. inversion E. reflexivity.
  - destruct (lookup n (XLSX.Sheets wb)); [|discriminate].
    destruct (Files.summarizeAll wb names) as [rest|]; [|discriminate].
    intros E. inversion E. simpl. now rewrite (IH rest eq_refl).
Qed.



(** ** Worksheet data reader *)

Lemma Object_keys_In {A} (o : list (string * A)) (k : string) :
  In k (Object_keys o) <-> In k (map fst o).
Proof.
  unfold Object_keys. split; apply Permutation_in, Permutation_map.
  - apply ownEntries_perm.
  - apply Permutation_sym, ownEntries_perm.
Qed.

(** Claim C8.  For a stored file the caller may read: when its status is
    not completed the reader fails with FileNotReady; when it is completed
    and the name is no sheet of the workbook, with WorksheetNotFound;
    otherwise it returns the rows of the sheet as records, with the keys of
    the first record as the column list, which is empty when the sheet has
    no record. *)
Theorem worksheet_reader (readFile : string -> result XLSX.workbook)
    (sheet_to_json : option XLSX.worksheet -> list object)
    (files : list (string * Files.file)) (id worksheetName : string)
    (caller : user) (f : Files.file) :
  lookup id files = Some f ->
  Files.mayRead f caller = true ->
  (Files.fileStatus f <> Files.completed ->
   Files.worksheetDataRoute readFile sheet_to_json files id worksheetName caller
   = Spec.FileNotReady)
  /\ (forall wb,
        Files.fileStatus f = Files.completed ->
        readFile (Files.filePath f) = Ok wb ->
        ~ In worksheetName (XLSX.SheetNames wb) ->
        Files.worksheetDataRoute readFile sheet_to_json files id worksheetName caller
        = Spec.WorksheetNotFound)
  /\ (forall wb,
        Files.fileStatus f = Files.completed ->
        readFile (Files.filePath f) = Ok wb ->
        In worksheetName (XLSX.SheetNames wb) ->
        exists data columns,
          Files.worksheetDataRoute readFile sheet_to_json files id worksheetName caller
          = Success 200
              {| Files.wd_worksheetName := worksheetName;
                 Files.wd_data := data;
                 Files.wd_rowCount := List.length data;
                 Files.wd_columns := columns |}
          /\ data = sheet_to_json (lookup worksheetName (XLSX.Sheets wb))
          /\ (forall k, In k columns <-> In k (map fst (nth 0 data [])))
          /\ List.length columns = List.length (nth 0 data [])
          /\ (data = [] -> columns = [])).
Proof.
  intros L M. unfold Files.worksheetDataRoute. rewrite L, M. simpl.
  split; [|split].
  - intros N. destruct (Files.fileStatus f); try reflexivity. congruence.
  - intros wb C R N. rewrite C, R. simpl.
    apply existsb_eqb_notIn in N. rewrite N. reflexivity.
  - intros wb C R I. rewrite C, R. simpl.
    apply existsb_eqb_In in I. rewrite I. simpl.
    eexists. eexists. split; [reflexivity|]. split; [reflexivity|].
    split; [|split].
    + intros k. apply Object_keys_In.
    + unfold Object_keys. rewrite length_map.
      apply Permutation_length, ownEntries_perm.
    + intros ->. reflexivity.
Qed.

Lemma worksheet_reader_witness :
  lookup "f1" Samples.files
  = Some (Files.processUpload Samples.disk Samples.salesUpload Samples.alice)
  /\ Files.mayRead (Files.processUpload Samples.disk Samples.salesUpload Samples.alice)
       Samples.alice = true
  /\ Files.worksheetDataRoute Samples.disk Samples.rowsOf Samples.files "f1" "Budget"
       Samples.alice
     = Spec.WorksheetNotFound.
Proof.
  split; [reflexivity|]. split; [reflexivity|].
  refine (proj1 (proj2 (worksheet_reader Samples.disk Samples.rowsOf Samples.files
                          "f1" "Budget" Samples.alice _ eq_refl eq_refl))
            Samples.book _ eq_refl _).
  - vm_compute. reflexivity.
  - simpl. intros [H|[H|[]]]; discriminate.
Defined.

(** The reader on the sample storage: the three records of the Sales sheet
    with their two columns, and no column for the sheet without records. *)
Lemma sample_reads :
  Files.worksheetDataRoute Samples.disk Samples.rowsOf Samples.files "f1" "Sales"
    Samples.alice
  = Success 200
      {| Files.wd_worksheetName := "Sales"; Files.wd_data := Samples.sales;
         Files.wd_rowCount := 3; Files.wd_columns := ["Region"; "Revenue"] |}
  /\ Files.worksheetDataRoute Samples.disk Samples.rowsOf Samples.files "f1" "Empty"
       Samples.alice
     = Success 200
         {| Files.wd_worksheetName := "Empty"; Files.wd_data := [];
            Files.wd_rowCount := 0; Files.wd_columns := [] |}.
Proof. split; vm_compute; reflexivity. Qed.

(** ** Analytics documents *)





Lemma lookup_replace_same (id : string) (d a : Api.document) (st : Api.store) :
  lookup id st = Some a -> lookup id (Api.replace id d st) = Some d.
Proof.
  induction st as [|[id' d'] st IH]; simpl; [discriminate|].
  destruct (String.eqb_spec id' id) as [E|N]; simpl.
  - intros _. subst. now rewrite String.eqb_refl.
  - intros H. destruct (String.eqb_spec id' id); [contradiction | auto].
Qed.


Lemma lookup_remove_other (id id0 : string) (st : Api.store) :
  id0 <> id -> lookup id (Api.remove id0 st) = lookup id st.
Proof.
  intros N. unfold Api.remove. induction st as [|[id' d'] st IH]; simpl; [reflexivity|].
  destruct (String.eqb_spec id' id0) as [E|N0]; simpl.
  - subst. destruct (String.eqb_spec id0 id); [contradiction | exact IH].
  - destruct (String.eqb_spec id' id); [reflexivity | exact IH].
Qed.





(** ** Chart creation without a worksheet name *)

(** Claim C10, as the code has it.  A chart request that names no
    worksheet, or an empty one, is handled on the first sheet of the
    workbook, for a completed file the caller may read.  When that sheet
    has no record the request is refused with 400.  When it has records
    that hold the selected columns and that the engine takes as the
    arguments of one call, and the chart type is one of the schema, the
    request succeeds, and the chart data and the insights of the new
    document are those of the first sheet's records. *)
Theorem chart_on_first_sheet (argumentLimit : N)
    (readFile : string -> result XLSX.workbook)
    (sheet_to_json : option XLSX.worksheet -> list object)
    (files : list (string * Files.file)) (body : Api.createBody) (caller : user)
    (f : Files.file) (wb : XLSX.workbook) (first : string) (rest : list string) :
  Api.c_worksheetName body = None \/ Api.c_worksheetName body = Some "" ->
  lookup (Api.c_fileId body) files = Some f ->
  Files.mayRead f caller = true ->
  Files.fileStatus f = Files.completed ->
  readFile (Files.filePath f) = Ok wb ->
  XLSX.SheetNames wb = first :: rest ->
  Api.sheetKey (Api.c_worksheetName body) wb = first
  /\ (sheet_to_json (lookup first (XLSX.Sheets wb)) = [] ->
      Api.createChart argumentLimit readFile sheet_to_json files body caller
      = Failure 400 "No data found in worksheet")
  /\ (sheet_to_json (lookup first (XLSX.Sheets wb)) <> [] ->
      (N.of_nat (List.length (sheet_to_json (lookup first (XLSX.Sheets wb))))
       <= argumentLimit)%N ->
      In (column (Api.c_xAxis body))
        (Object_keys (nth 0 (sheet_to_json (lookup first (XLSX.Sheets wb))) [])) ->
      In (column (Api.c_yAxis body))
        (Object_keys (nth 0 (sheet_to_json (lookup first (XLSX.Sheets wb))) [])) ->
      (hasZ (Api.c_zAxis body) = true ->
       In (zColumn (Api.c_zAxis body))
         (Object_keys (nth 0 (sheet_to_json (lookup first (XLSX.Sheets wb))) []))) ->
      In (Api.c_chartType body) Api.chartTypes ->
      exists (a : Api.document) (ins : insights),
        Api.createChart argumentLimit readFile sheet_to_json files body caller
        = Success 201 a
        /\ Api.chart a
           = processChartData (sheet_to_json (lookup first (XLSX.Sheets wb)))
               (Api.c_chartType body) (Api.c_xAxis body) (Api.c_yAxis body)
               (Api.c_zAxis body) (Api.c_colors body)
        /\ generateInsights argumentLimit (sheet_to_json (lookup first (XLSX.Sheets wb)))
             (Api.c_xAxis body) (Api.c_yAxis body) (Api.c_zAxis body) = Ok ins
        /\ Api.insight a = ins).
Proof.
  intros W L M C R S.
  assert (K : Api.sheetKey (Api.c_worksheetName body) wb = first).
  { unfold Api.sheetKey. rewrite S. destruct W as [-> | ->]; reflexivity. }
  split; [exact K|].
  unfold Api.createChart, Api.includes. rewrite L, M, C, R, K.
  cbn [negb Files.status_eqb].
  split.
  - intros ->. reflexivity.
  - intros D B X Y Z T. apply existsb_eqb_In in X, Y, T.
    destruct (generateInsights_returns argumentLimit _ (Api.c_xAxis body)
                (Api.c_yAxis body) (Api.c_zAxis body) B) as [ins G].
    rewrite X, Y, T, G.
    destruct (sheet_to_json (lookup first (XLSX.Sheets wb))) as [|row data] eqn:E;
      [contradiction|].
    cbn [List.length Nat.eqb negb andb].
    destruct (hasZ (Api.c_zAxis body)) eqn:HZ; cbn [andb].
    + specialize (Z eq_refl). apply existsb_eqb_In in Z. rewrite Z. cbn [negb].
      eexists. exists ins. split; [reflexivity|]. split; [reflexivity|].
      split; reflexivity.
    + eexists. exists ins. split; [reflexivity|]. split; [reflexivity|].
      split; reflexivity.
Qed.

Lemma chart_on_first_sheet_witness :
  exists (a : Api.document) (ins : insights),
    Api.createChart Samples.argumentLimit Samples.disk Samples.rowsOf Samples.files
      Samples.barRequest Samples.alice = Success 201 a
    /\ Api.chart a
       = processChartData Samples.sales "bar" (Api.c_xAxis Samples.barRequest)
           (Api.c_yAxis Samples.barRequest) None None
    /\ generateInsights Samples.argumentLimit Samples.sales
         (Api.c_xAxis Samples.barRequest) (Api.c_yAxis Samples.barRequest) None = Ok ins
    /\ Api.insight a = ins.
Proof.
  refine (proj2 (proj2 (chart_on_first_sheet Samples.argumentLimit Samples.disk
                          Samples.rowsOf Samples.files
                          Samples.barRequest Samples.alice
                          (Files.processUpload Samples.disk Samples.salesUpload Samples.alice)
                          Samples.book "Sales" ["Empty"]
                          (or_introl eq_refl) eq_refl eq_refl eq_refl eq_refl eq_refl))
            _ _ _ _ _ _).
  - discriminate.
  - vm_compute. discriminate.
  - vm_compute. left. reflexivity.
  - vm_compute. right. left. reflexivity.
  - discriminate.
  - simpl. right. left. reflexivity.
Defined.

(** Claim C10 as stated fails: a request that names no worksheet fails
    when the first sheet of the workbook has no record, here the sheet
    Notes, although the second sheet holds the records the request asks
    for. *)
Lemma first_sheet_without_records :
  Api.c_worksheetName Samples.notesRequest = None
  /\ XLSX.SheetNames Samples.notes = ["Notes"; "Sales"]
  /\ Api.createChart Samples.argumentLimit Samples.disk Samples.rowsOf Samples.files
       Samples.notesRequest Samples.alice
     = Failure 400 "No data found in worksheet".
Proof. repeat split. Qed.

(** * Further properties of the routes and helpers *)

(** ** Chart creation *)

(** What a successful creation went through, and the document it hands to
    [save]. *)
Lemma createChart_inversion (argumentLimit : N)
    (readFile : string -> result XLSX.workbook)
    (sheet_to_json : option XLSX.worksheet -> list object)
    (files : list (string * Files.file)) (body : Api.createBody) (caller : user)
    (code : nat) (a : Api.document) :
  Api.createChart argumentLimit readFile sheet_to_json files body caller = Success code a ->
  exists f wb,
    lookup (Api.c_fileId body) files = Some f
    /\ Files.mayRead f caller = true
    /\ Files.fileStatus f = Files.completed
    /\ readFile (Files.filePath f) = Ok wb
    /\ sheet_to_json (lookup (Api.sheetKey (Api.c_worksheetName body) wb) (XLSX.Sheets wb))
       <> []
    /\ In (column (Api.c_xAxis body))
         (Object_keys (nth 0 (sheet_to_json
                                (lookup (Api.sheetKey (Api.c_worksheetName body) wb)
                                   (XLSX.Sheets wb))) []))
    /\ In (column (Api.c_yAxis body))
         (Object_keys (nth 0 (sheet_to_json
                                (lookup (Api.sheetKey (Api.c_worksheetName body) wb)
                                   (XLSX.Sheets wb))) []))
    /\ (hasZ (Api.c_zAxis body) = true ->
        In (zColumn (Api.c_zAxis body))
          (Object_keys (nth 0 (sheet_to_json
                                 (lookup (Api.sheetKey (Api.c_worksheetName body) wb)
                                    (XLSX.Sheets wb))) [])))
    /\ In (Api.c_chartType body) Api.chartTypes
    /\ code = 201%nat
    /\ a = {| Api.fileId := Api.c_fileId body;
              Api.ownerId := userId caller;
              Api.chartType := Api.c_chartType body;
              Api.config :=
                {| Api.xAxis := Api.c_xAxis body;
                   Api.yAxis := Api.c_yAxis body;
                   Api.zAxis := Api.c_zAxis body;
                   Api.title := Api.title (Api.config a);
                   Api.colors := Api.colors (Api.config a) |};
              Api.chart :=
                processChartData
                  (sheet_to_json (lookup (Api.sheetKey (Api.c_worksheetName body) wb)
                                    (XLSX.Sheets wb)))
                  (Api.c_chartType body) (Api.c_xAxis body) (Api.c_yAxis body)
                  (Api.c_zAxis body) (Api.c_colors body);
              Api.insight := Api.insight a;
              Api.isBookmarked := false;
              Api.share := {| Api.sharePublic := false; Api.sharedWith := [] |};
              Api.viewCount := 0;
              Api.downloadCount := 0 |}
    /\ Api.title (Api.config a) <> ""
    /\ (forall cs, Api.c_colors body = Some cs -> Api.colors (Api.config a) = cs)
    /\ generateInsights argumentLimit
         (sheet_to_json (lookup (Api.sheetKey (Api.c_worksheetName body) wb)
                           (XLSX.Sheets wb)))
         (Api.c_xAxis body) (Api.c_yAxis body) (Api.c_zAxis body)
       = Ok (Api.insight a).
Proof.
  unfold Api.createChart, Api.includes.
  destruct (lookup (Api.c_fileId body) files) as [f|]; [|discriminate].
  destruct (Files.mayRead f caller) eqn:M; [|discriminate].
  destruct (Files.fileStatus f) eqn:C; try discriminate.
  destruct (readFile (Files.filePath f)) as [wb|] eqn:R; [|discriminate].
  cbn [negb Files.status_eqb].
  remember (sheet_to_json
              (lookup (Api.sheetKey (Api.c_worksheetName body) wb) (XLSX.Sheets wb)))
    as data eqn:D.
  destruct data as [|row data']; [discriminate|].
  cbn [List.length Nat.eqb].
  destruct (existsb (String.eqb (column (Api.c_xAxis body)))
              (Object_keys (nth 0 (row :: data') []))) eqn:X; [|discriminate].
  destruct (existsb (String.eqb (column (Api.c_yAxis body)))
              (Object_keys (nth 0 (row :: data') []))) eqn:Y; [|discriminate].
  cbn [negb].
  destruct (hasZ (Api.c_zAxis body)
            && negb (existsb (String.eqb (zColumn (Api.c_zAxis body)))
                       (Object_keys (nth 0 (row :: data') [])))) eqn:Z; [discriminate|].
  destruct (generateInsights argumentLimit (row :: data') (Api.c_xAxis body)
              (Api.c_yAxis body) (Api.c_zAxis body)) as [ins|] eqn:G; [|discriminate].
  destruct (existsb (String.eqb (Api.c_chartType body)) Api.chartTypes) eqn:T;
    [|discriminate].
  intros E. injection E as <- <-.
  exists f, wb. rewrite <- D. cbn [Api.config Api.title Api.colors Api.insight].
  apply existsb_eqb_In in X, Y, T.
  repeat split; try assumption; try discriminate.
  - intros HZ. rewrite HZ in Z. cbn [andb] in Z.
    apply negb_false_iff in Z. now apply existsb_eqb_In in Z.
  - destruct (Api.c_title body) as [t|].
    + destruct (String.eqb_spec t ""); [|assumption].
      destruct (Api.c_chartType body); discriminate.
    + destruct (Api.c_chartType body); discriminate.
  - intros cs ->. reflexivity.
Qed.

(** A document is created only from a completed file that its caller may
    read, whose sheet has records holding the selected columns, and with a
    chart type of the schema; it then belongs to the caller, is private,
    not bookmarked, never viewed, carries the request's axis selections and
    a title that is not empty. *)
Theorem created_document (argumentLimit : N)
    (readFile : string -> result XLSX.workbook)
    (sheet_to_json : option XLSX.worksheet -> list object)
    (files : list (string * Files.file)) (body : Api.createBody) (caller : user)
    (code : nat) (a : Api.document) :
  Api.createChart argumentLimit readFile sheet_to_json files body caller = Success code a ->
  code = 201%nat
  /\ (exists f wb,
        lookup (Api.c_fileId body) files = Some f
        /\ Files.mayRead f caller = true
        /\ Files.fileStatus f = Files.completed
        /\ readFile (Files.filePath f) = Ok wb
        /\ sheet_to_json
             (lookup (Api.sheetKey (Api.c_worksheetName body) wb) (XLSX.Sheets wb)) <> []
        /\ In (column (Api.c_xAxis body))
             (Object_keys
                (nth 0 (sheet_to_json
                          (lookup (Api.sheetKey (Api.c_worksheetName body) wb)
                             (XLSX.Sheets wb))) []))
        /\ In (column (Api.c_yAxis body))
             (Object_keys
                (nth 0 (sheet_to_json
                          (lookup (Api.sheetKey (Api.c_worksheetName body) wb)
                             (XLSX.Sheets wb))) [])))
  /\ In (Api.c_chartType body) Api.chartTypes
  /\ Api.fileId a = Api.c_fileId body
  /\ Api.ownerId a = userId caller
  /\ Api.chartType a = Api.c_chartType body
  /\ Api.xAxis (Api.config a) = Api.c_xAxis body
  /\ Api.yAxis (Api.config a) = Api.c_yAxis body
  /\ Api.zAxis (Api.config a) = Api.c_zAxis body
  /\ Api.title (Api.config a) <> ""
  /\ Api.isBookmarked a = false
  /\ Api.sharePublic (Api.share a) = false
  /\ Api.sharedWith (Api.share a) = []
  /\ Api.viewCount a = 0%Z
  /\ Api.downloadCount a = 0%Z.
Proof.
  intros H.
  destruct (createChart_inversion _ _ _ _ _ _ _ _ H)
    as [f [wb [L [M [C [R [D [X [Y [_ [T [-> [E [N _]]]]]]]]]]]]]].
  split; [reflexivity|]. split; [exists f, wb; repeat split; assumption|].
  split; [exact T|]. split; [rewrite E; reflexivity|].
  split; [rewrite E; reflexivity|]. split; [rewrite E; reflexivity|].
  split; [rewrite E; reflexivity|]. split; [rewrite E; reflexivity|].
  split; [rewrite E; reflexivity|]. split; [exact N|].
  repeat split; rewrite E; reflexivity.
Qed.

Lemma created_document_witness :
  exists a : Api.document,
    Api.createChart Samples.argumentLimit
        Samples.disk Samples.rowsOf Samples.files Samples.barRequest
      Samples.alice = Success 201 a
    /\ Api.ownerId a = userId Samples.alice
    /\ Api.viewCount a = 0%Z
    /\ Api.sharePublic (Api.share a) = false.
Proof.
  destruct (Api.createChart Samples.argumentLimit
      Samples.disk Samples.rowsOf Samples.files Samples.barRequest
              Samples.alice) as [code a|code m] eqn:E; [|vm_compute in E; discriminate].
  pose proof (created_document _ _ _ _ _ _ _ _ E)
    as [-> [_ [_ [_ [O [_ [_ [_ [_ [_ [_ [P [_ [V _]]]]]]]]]]]]]].
  exists a. repeat split; assumption.
Defined.

(** The first selected column the first record does not hold is the one the
    rejection names: X before Y before Z. *)
Theorem missing_column_named (argumentLimit : N)
    (readFile : string -> result XLSX.workbook)
    (sheet_to_json : option XLSX.worksheet -> list object)
    (files : list (string * Files.file)) (body : Api.createBody) (caller : user)
    (f : Files.file) (wb : XLSX.workbook) (row : object) (rest : list object) :
  lookup (Api.c_fileId body) files = Some f ->
  Files.mayRead f caller = true ->
  Files.fileStatus f = Files.completed ->
  readFile (Files.filePath f) = Ok wb ->
  sheet_to_json (lookup (Api.sheetKey (Api.c_worksheetName body) wb) (XLSX.Sheets wb))
  = row :: rest ->
  (~ In (column (Api.c_xAxis body)) (Object_keys row) ->
   Api.createChart argumentLimit readFile sheet_to_json files body caller
   = Failure 400 ("Column " ++ column (Api.c_xAxis body) ++ " not found"))
  /\ (In (column (Api.c_xAxis body)) (Object_keys row) ->
      ~ In (column (Api.c_yAxis body)) (Object_keys row) ->
      Api.createChart argumentLimit readFile sheet_to_json files body caller
      = Failure 400 ("Column " ++ column (Api.c_yAxis body) ++ " not found"))
  /\ (In (column (Api.c_xAxis body)) (Object_keys row) ->
      In (column (Api.c_yAxis body)) (Object_keys row) ->
      hasZ (Api.c_zAxis body) = true ->
      ~ In (zColumn (Api.c_zAxis body)) (Object_keys row) ->
      Api.createChart argumentLimit readFile sheet_to_json files body caller
      = Failure 400 ("Column " ++ zColumn (Api.c_zAxis body) ++ " not found")).
Proof.
  intros L M C R D. unfold Api.createChart, Api.includes.
  rewrite L, M, C, R, D. cbn [negb Files.status_eqb List.length Nat.eqb nth].
  split; [|split].
  - intros X. apply existsb_eqb_notIn in X. rewrite X. reflexivity.
  - intros X Y. apply existsb_eqb_In in X. apply existsb_eqb_notIn in Y.
    rewrite X, Y. reflexivity.
  - intros X Y HZ Z. apply existsb_eqb_In in X, Y. apply existsb_eqb_notIn in Z.
    rewrite X, Y, HZ, Z. reflexivity.
Qed.

Lemma missing_column_named_witness :
  Api.createChart Samples.argumentLimit
      Samples.disk Samples.rowsOf Samples.files Cases.unknownColumns
    Samples.alice
  = Failure 400 "Column Area not found".
Proof.
  refine (proj1 (missing_column_named Samples.argumentLimit
      Samples.disk Samples.rowsOf Samples.files
                   Cases.unknownColumns Samples.alice
                   (Files.processUpload Samples.disk Samples.salesUpload Samples.alice)
                   Samples.book (Samples.text "East" (Num.ofZ 100))
                   [Samples.text "West" (Num.ofZ 200); Samples.text "East" (Num.ofZ 50)]
                   eq_refl eq_refl eq_refl eq_refl eq_refl) _).
  replace (Object_keys (Samples.text "East" (Num.ofZ 100))) with ["Region"; "Revenue"]
    by (vm_compute; reflexivity).
  simpl. intros H. destruct H as [H|[H|H]]; [discriminate | discriminate | exact H].
Defined.

(** A chart type outside the schema's list never yields a document; of the
    five types the creation form offers, "3d" is such a type and the other
    four are in the list. *)
Theorem unknown_chart_type_rejected (argumentLimit : N)
    (readFile : string -> result XLSX.workbook)
    (sheet_to_json : option XLSX.worksheet -> list object)
    (files : list (string * Files.file)) (body : Api.createBody) (caller : user) :
  ~ In (Api.c_chartType body) Api.chartTypes ->
  (exists code message,
      Api.createChart argumentLimit
          readFile sheet_to_json files body caller = Failure code message)
  /\ In "3d" Pages.formChartTypes
  /\ ~ In "3d" Api.chartTypes
  /\ (forall t, In t Pages.formChartTypes -> t <> "3d" -> In t Api.chartTypes).
Proof.
  intros N. split; [|split; [|split]].
  - destruct (Api.createChart argumentLimit readFile sheet_to_json files body caller)
      as [code a|code m] eqn:E.
    + destruct (createChart_inversion _ _ _ _ _ _ _ _ E)
        as [f [wb [_ [_ [_ [_ [_ [_ [_ [_ [T _]]]]]]]]]]].
      contradiction.
    + exists code, m. reflexivity.
  - simpl. tauto.
  - simpl. intros H. repeat (destruct H as [H|H]; [discriminate|]). exact H.
  - intros t I D. simpl in I.
    destruct I as [<-|[<-|[<-|[<-|[<-|[]]]]]]; simpl; tauto.
Qed.

Lemma unknown_chart_type_rejected_witness :
  exists code message,
    Api.createChart Samples.argumentLimit
        Samples.disk Samples.rowsOf Samples.files Cases.cubeRequest
      Samples.alice = Failure code message.
Proof.
  refine (proj1 (unknown_chart_type_rejected Samples.argumentLimit
      Samples.disk Samples.rowsOf Samples.files
                   Cases.cubeRequest Samples.alice _)).
  simpl. intros H. repeat (destruct H as [H|H]; [discriminate|]). exact H.
Defined.

(** ** Sheets beyond the argument limit *)

Lemma generateInsights_throws (argumentLimit : N) (data : list object)
    (xAxis yAxis : axis) (zAxis : option axis) :
  (argumentLimit < N.of_nat (List.length data))%N ->
  generateInsights argumentLimit data xAxis yAxis zAxis
  = Throw "Maximum call stack size exceeded".
Proof.
  intros H. unfold generateInsights.
  rewrite spread_beyond by (rewrite length_map; exact H). reflexivity.
Qed.

(** A sheet with more records than the engine takes as the arguments of
    one call cannot be charted: the insight generator throws on the spread
    of the Y-values into Math.max, and the create route, for a request that
    passed its other checks, answers 500 and stores nothing. *)
Theorem long_sheet_is_refused (argumentLimit : N)
    (readFile : string -> result XLSX.workbook)
    (sheet_to_json : option XLSX.worksheet -> list object)
    (files : list (string * Files.file)) (caller : user) (newId : string)
    (body : Api.createBody) (st : Api.store) (f : Files.file) (wb : XLSX.workbook) :
  lookup (Api.c_fileId body) files = Some f ->
  Files.mayRead f caller = true ->
  Files.fileStatus f = Files.completed ->
  readFile (Files.filePath f) = Ok wb ->
  (argumentLimit
   < N.of_nat (List.length
                 (sheet_to_json (lookup (Api.sheetKey (Api.c_worksheetName body) wb)
                                   (XLSX.Sheets wb)))))%N ->
  In (column (Api.c_xAxis body))
    (Object_keys (nth 0 (sheet_to_json (lookup (Api.sheetKey (Api.c_worksheetName body) wb)
                                          (XLSX.Sheets wb))) [])) ->
  In (column (Api.c_yAxis body))
    (Object_keys (nth 0 (sheet_to_json (lookup (Api.sheetKey (Api.c_worksheetName body) wb)
                                          (XLSX.Sheets wb))) [])) ->
  (hasZ (Api.c_zAxis body) = true ->
   In (zColumn (Api.c_zAxis body))
     (Object_keys (nth 0 (sheet_to_json (lookup (Api.sheetKey (Api.c_worksheetName body) wb)
                                           (XLSX.Sheets wb))) []))) ->
  generateInsights argumentLimit
    (sheet_to_json (lookup (Api.sheetKey (Api.c_worksheetName body) wb) (XLSX.Sheets wb)))
    (Api.c_xAxis body) (Api.c_yAxis body) (Api.c_zAxis body)
  = Throw "Maximum call stack size exceeded"
  /\ Api.handle argumentLimit readFile sheet_to_json files caller (Api.Create newId body) st
     = (st, Failure 500 "Error creating analytics").
Proof.
  intros L M C R B X Y Z.
  pose proof (generateInsights_throws argumentLimit _ (Api.c_xAxis body) (Api.c_yAxis body)
                (Api.c_zAxis body) B) as G.
  split; [exact G|].
  cbn [Api.handle]. unfold Api.createChart, Api.includes. rewrite L, M, C, R.
  cbn [negb Files.status_eqb].
  apply existsb_eqb_In in X, Y. rewrite X, Y, G.
  destruct (sheet_to_json (lookup (Api.sheetKey (Api.c_worksheetName body) wb)
                             (XLSX.Sheets wb))) as [|row data] eqn:E;
    [simpl in B; lia|].
  cbn [List.length Nat.eqb negb andb].
  destruct (hasZ (Api.c_zAxis body)) eqn:HZ; cbn [andb]; [|reflexivity].
  specialize (Z eq_refl). apply existsb_eqb_In in Z. rewrite Z. reflexivity.
Qed.

(** With an engine that takes two arguments, the three records of the
    scenario are refused. *)
Lemma long_sheet_is_refused_witness :
  Api.handle 2 Samples.disk Samples.rowsOf Samples.files Samples.alice
    (Api.Create "a1" Samples.barRequest) []
  = ([], Failure 500 "Error creating analytics").
Proof.
  refine (proj2 (long_sheet_is_refused 2 Samples.disk Samples.rowsOf Samples.files
                   Samples.alice "a1" Samples.barRequest []
                   (Files.processUpload Samples.disk Samples.salesUpload Samples.alice)
                   Samples.book eq_refl eq_refl eq_refl eq_refl _ _ _ _)).
  - vm_compute. reflexivity.
  - vm_compute. left. reflexivity.
  - vm_compute. right. left. reflexivity.
  - discriminate.
Defined.

(** ** The stored Analytics documents *)

Lemma lookup_app_new {A} (k : string) (o : list (string * A)) (a : A) :
  lookup k o = None -> lookup k (o ++ [(k, a)]) = Some a.
Proof.
  induction o as [|[k' v] o IH]; simpl.
  - intros _. now rewrite String.eqb_refl.
  - destruct (k' =? k); [discriminate | exact IH].
Qed.

Lemma lookup_remove_same (id : string) (st : Api.store) :
  lookup id (Api.remove id st) = None.
Proof.
  unfold Api.remove. induction st as [|[id' d] st IH]; simpl; [reflexivity|].
  destruct (String.eqb_spec id' id) as [E|N]; simpl; [exact IH|].
  destruct (String.eqb_spec id' id); [contradiction | exact IH].
Qed.

Lemma replace_same (id : string) (a : Api.document) (st : Api.store) :
  lookup id st = Some a -> Api.replace id a st = st.
Proof.
  induction st as [|[id' d] st IH]; simpl; [reflexivity|].
  destruct (String.eqb_spec id' id) as [E|N].
  - intros H. inversion H. reflexivity.
  - intros H. now rewrite IH.
Qed.

Lemma replace_replace (id : string) (d1 d2 : Api.document) (st : Api.store) :
  Api.replace id d2 (Api.replace id d1 st) = Api.replace id d2 st.
Proof.
  induction st as [|[id' d] st IH]; simpl; [reflexivity|].
  destruct (String.eqb_spec id' id) as [E|N]; simpl.
  - destruct (String.eqb_spec id' id); [reflexivity | contradiction].
  - destruct (String.eqb_spec id' id); [contradiction | now rewrite IH].
Qed.

Lemma applyUpdate_twice (a : Api.document) (body : Api.updateBody) :
  Api.applyUpdate (Api.applyUpdate a body) body = Api.applyUpdate a body.
Proof.
  unfold Api.applyUpdate. cbn [Api.config Api.title Api.colors Api.isBookmarked Api.share
                                 Api.sharePublic Api.sharedWith Api.xAxis Api.yAxis Api.zAxis
                                 Api.fileId Api.ownerId Api.chartType Api.chart Api.insight
                                 Api.viewCount Api.downloadCount].
  f_equal.
  - f_equal.
    + destruct (Api.u_title body) as [t|]; [|reflexivity].
      destruct (t =? ""); reflexivity.
    + destruct (Api.u_colors body); reflexivity.
  - destruct (Api.u_isBookmarked body); reflexivity.
  - destruct (Api.u_shareSettings body) as [p|]; [|reflexivity].
    cbn [Api.sharePublic Api.sharedWith].
    destruct (Api.p_isPublic p), (Api.p_sharedWith p); reflexivity.
Qed.

Lemma applyUpdate_nothing (a : Api.document) :
  Api.applyUpdate a Policy.noUpdate = a.
Proof. destruct a as [? ? ? [? ? ? ? ?] ? ? ? [? ?] ? ?]. reflexivity. Qed.

(** A request that is rejected leaves the stored documents as they were. *)
Theorem rejected_request_changes_nothing (argumentLimit : N)
    (readFile : string -> result XLSX.workbook)
    (sheet_to_json : option XLSX.worksheet -> list object)
    (files : list (string * Files.file)) (caller : user) (req : Api.request)
    (st st' : Api.store) (code : nat) (message : string) :
  Api.handle argumentLimit
      readFile sheet_to_json files caller req st = (st', Failure code message) ->
  st' = st.
Proof.
  destruct req as [newId body | id | id body | id]; simpl.
  - destruct (Api.createChart argumentLimit readFile sheet_to_json files body caller).
    + destruct (lookup newId st); intros E; inversion E; reflexivity.
    + intros E. inversion E. reflexivity.
  - destruct (lookup id st); [|intros E; inversion E; reflexivity].
    destruct (_ && _); intros E; inversion E. reflexivity.
  - destruct (lookup id st); [|intros E; inversion E; reflexivity].
    destruct (_ && _); intros E; inversion E. reflexivity.
  - destruct (lookup id st); [|intros E; inversion E; reflexivity].
    destruct (_ && _); intros E; inversion E. reflexivity.
Qed.

Lemma rejected_request_changes_nothing_witness :
  fst (Api.handle Samples.argumentLimit Samples.disk Samples.rowsOf Samples.files Samples.bob
         (Api.Put "a1" Samples.rename) Samples.charts)
  = Samples.charts.
Proof.
  destruct (Api.handle Samples.argumentLimit Samples.disk Samples.rowsOf Samples.files Samples.bob
              (Api.Put "a1" Samples.rename) Samples.charts) as [st' [code p|code m]] eqn:E.
  - vm_compute in E. discriminate.
  - exact (rejected_request_changes_nothing _ _ _ _ _ _ _ _ _ _ E).
Defined.

(** Creating a chart and reading it back: the read answers the created
    document, with its configuration, chart data and insights as created,
    and with a view count of 1; the chart data and the insights are those
    that the two helpers compute from the records of the chosen sheet of
    the file's workbook. *)
Theorem create_then_read (argumentLimit : N)
    (readFile : string -> result XLSX.workbook)
    (sheet_to_json : option XLSX.worksheet -> list object)
    (files : list (string * Files.file)) (caller : user) (newId : string)
    (body : Api.createBody) (st st1 : Api.store) (code : nat) (a : Api.document) :
  Api.handle argumentLimit readFile sheet_to_json files caller (Api.Create newId body) st
  = (st1, Success code (Api.Document a)) ->
  lookup newId st1 = Some a
  /\ exists st2 a' f wb,
      Api.handle argumentLimit readFile sheet_to_json files caller (Api.Get newId) st1
      = (st2, Success 200 (Api.Document a'))
      /\ lookup newId st2 = Some a'
      /\ Api.config a' = Api.config a
      /\ Api.chart a' = Api.chart a
      /\ Api.insight a' = Api.insight a
      /\ Api.viewCount a' = 1%Z
      /\ Api.xAxis (Api.config a') = Api.c_xAxis body
      /\ Api.yAxis (Api.config a') = Api.c_yAxis body
      /\ Api.zAxis (Api.config a') = Api.c_zAxis body
      /\ lookup (Api.c_fileId body) files = Some f
      /\ readFile (Files.filePath f) = Ok wb
      /\ Api.chart a'
         = processChartData
             (sheet_to_json (lookup (Api.sheetKey (Api.c_worksheetName body) wb)
                               (XLSX.Sheets wb)))
             (Api.c_chartType body) (Api.c_xAxis body)
             (Api.c_yAxis body) (Api.c_zAxis body) (Api.c_colors body)
      /\ generateInsights argumentLimit
           (sheet_to_json (lookup (Api.sheetKey (Api.c_worksheetName body) wb)
                             (XLSX.Sheets wb)))
           (Api.c_xAxis body) (Api.c_yAxis body) (Api.c_zAxis body)
         = Ok (Api.insight a').
Proof.
  simpl.
  destruct (Api.createChart argumentLimit readFile sheet_to_json files body caller)
    as [code' a0|code' m] eqn:C; [|intros E; inversion E].
  destruct (lookup newId st) eqn:L; intros E; inversion E; subst st1 code a. clear E.
  pose proof (lookup_app_new newId st a0 L) as L1.
  destruct (createChart_inversion _ _ _ _ _ _ _ _ C)
    as [f [wb [F [_ [_ [R [_ [_ [_ [_ [_ [_ [A [_ [_ G]]]]]]]]]]]]]]].
  split; [exact L1|].
  rewrite L1.
  assert (O : Api.ownerId a0 = userId caller) by (rewrite A; reflexivity).
  rewrite O, String.eqb_refl. cbn [negb andb].
  eexists. eexists. exists f, wb. split; [reflexivity|].
  split; [now apply lookup_replace_same with (a := a0)|].
  cbn [Api.viewed Api.config Api.chart Api.insight Api.viewCount].
  split; [reflexivity|]. split; [reflexivity|]. split; [reflexivity|].
  split; [rewrite A; reflexivity|].
  split; [rewrite A; reflexivity|]. split; [rewrite A; reflexivity|].
  split; [rewrite A; reflexivity|].
  split; [exact F|]. split; [exact R|].
  split; [rewrite A; reflexivity | exact G].
Qed.

Lemma create_then_read_witness :
  exists a st2 a',
    lookup "a1" Samples.charts = Some a
    /\ Api.handle Samples.argumentLimit Samples.disk Samples.rowsOf Samples.files
         Samples.alice (Api.Get "a1") Samples.charts
       = (st2, Success 200 (Api.Document a'))
    /\ Api.chart a'
       = processChartData Samples.sales "bar" (Api.c_xAxis Samples.barRequest)
           (Api.c_yAxis Samples.barRequest) None None
    /\ Api.viewCount a' = 1%Z.
Proof.
  destruct (Api.handle Samples.argumentLimit Samples.disk Samples.rowsOf Samples.files
              Samples.alice (Api.Create "a1" Samples.barRequest) [])
    as [st1 [code [a|m]|code m]] eqn:E; try (vm_compute in E; discriminate).
  destruct (create_then_read _ _ _ _ _ _ _ _ _ _ _ E)
    as [L [st2 [a' [f [wb [G [_ [_ [_ [_ [V [_ [_ [_ [F [R [C _]]]]]]]]]]]]]]]]].
  assert (S : st1 = Samples.charts).
  { change Samples.charts
      with (fst (Api.handle Samples.argumentLimit Samples.disk Samples.rowsOf
                   Samples.files Samples.alice (Api.Create "a1" Samples.barRequest) [])).
    rewrite E. reflexivity. }
  rewrite S in *. exists a, st2, a'. split; [exact L|]. split; [exact G|].
  split; [|exact V].
  rewrite C. vm_compute in F. inversion F; subst f. vm_compute in R.
  inversion R; subst wb. reflexivity.
Defined.

Lemma mayView_viewed (a : Api.document) (caller : user) :
  Policy.mayView (Api.viewed a) caller = Policy.mayView a caller.
Proof. reflexivity. Qed.

Lemma get_permitted (argumentLimit : N)
    (readFile : string -> result XLSX.workbook)
    (sheet_to_json : option XLSX.worksheet -> list object)
    (files : list (string * Files.file)) (caller : user) (id : string)
    (st : Api.store) (a : Api.document) :
  lookup id st = Some a ->
  Policy.mayView a caller = true ->
  Api.handle argumentLimit readFile sheet_to_json files caller (Api.Get id) st
  = (Api.replace id (Api.viewed a) st, Success 200 (Api.Document (Api.viewed a))).
Proof.
  intros L V. simpl. rewrite L. unfold Policy.mayView in V.
  destruct (Api.ownerId a =? userId caller), (Api.sharePublic (Api.share a)),
    (Api.isAdmin caller); try discriminate; reflexivity.
Qed.

(** Reads add up: after the reads of callers who may all view a document,
    its view count has grown by their number and nothing else of it has
    changed. *)
Theorem views_add_up (argumentLimit : N)
    (readFile : string -> result XLSX.workbook)
    (sheet_to_json : option XLSX.worksheet -> list object)
    (files : list (string * Files.file)) (id : string) (callers : list user)
    (st : Api.store) (a : Api.document) :
  lookup id st = Some a ->
  Forall (fun caller => Policy.mayView a caller = true) callers ->
  exists a',
    lookup id (Api.run argumentLimit
        readFile sheet_to_json files (Policy.reads id callers) st) = Some a'
    /\ Api.viewCount a' = (Api.viewCount a + Z.of_nat (List.length callers))%Z
    /\ Api.config a' = Api.config a
    /\ Api.chart a' = Api.chart a
    /\ Api.insight a' = Api.insight a
    /\ Api.isBookmarked a' = Api.isBookmarked a
    /\ Api.share a' = Api.share a.
Proof.
  intros L F. revert st a L F.
  induction callers as [|caller callers IH]; intros st a L F.
  - exists a. simpl. rewrite Z.add_0_r. repeat split. exact L.
  - inversion F as [|? ? V F']; subst.
    cbn [Policy.reads map Api.run].
    rewrite (get_permitted argumentLimit readFile sheet_to_json files caller id st a L V).
    cbn [fst].
    destruct (IH (Api.replace id (Api.viewed a) st) (Api.viewed a)) as [a' [L' [C R]]].
    + now apply lookup_replace_same with (a := a).
    + eapply Forall_impl; [|exact F']. intros c Hc. now rewrite mayView_viewed.
    + exists a'. split; [exact L'|]. split; [|exact R].
      rewrite C. cbn [Api.viewed Api.viewCount List.length]. lia.
Qed.

Lemma views_add_up_witness :
  exists a a',
    lookup "a1" Samples.charts = Some a
    /\ lookup "a1"
         (Api.run Samples.argumentLimit Samples.disk Samples.rowsOf Samples.files
            (Policy.reads "a1" [Samples.alice; Samples.alice; Samples.alice])
            Samples.charts) = Some a'
    /\ Api.viewCount a' = (Api.viewCount a + 3)%Z.
Proof.
  destruct (lookup "a1" Samples.charts) as [a|] eqn:L; [|vm_compute in L; discriminate].
  assert (V : Policy.mayView a Samples.alice = true).
  { vm_compute in L. inversion L. reflexivity. }
  destruct (views_add_up Samples.argumentLimit Samples.disk Samples.rowsOf Samples.files "a1"
              [Samples.alice; Samples.alice; Samples.alice] Samples.charts a L)
    as [a' [L' [C _]]].
  - repeat constructor; exact V.
  - exists a, a'. repeat split; assumption.
Defined.

(** An update applied twice is the update applied once, and an update that
    sets nothing leaves the stored documents as they are. *)
Theorem update_idempotent (argumentLimit : N)
    (readFile : string -> result XLSX.workbook)
    (sheet_to_json : option XLSX.worksheet -> list object)
    (files : list (string * Files.file)) (caller : user) (id : string)
    (body : Api.updateBody) (st : Api.store) :
  fst (Api.handle argumentLimit readFile sheet_to_json files caller (Api.Put id body)
         (fst (Api.handle argumentLimit
             readFile sheet_to_json files caller (Api.Put id body) st)))
  = fst (Api.handle argumentLimit readFile sheet_to_json files caller (Api.Put id body) st)
  /\ fst (Api.handle argumentLimit
      readFile sheet_to_json files caller (Api.Put id Policy.noUpdate) st)
     = st.
Proof.
  split.
  - cbn [Api.handle].
    destruct (lookup id st) as [a|] eqn:L; cbn [fst]; [|rewrite L; reflexivity].
    destruct (negb (Api.ownerId a =? userId caller) && negb (Api.isAdmin caller)) eqn:D;
      cbn [fst].
    + rewrite L, D. reflexivity.
    + rewrite (lookup_replace_same id (Api.applyUpdate a body) a st L).
      assert (O : Api.ownerId (Api.applyUpdate a body) = Api.ownerId a) by reflexivity.
      rewrite O, D. cbn [fst].
      rewrite applyUpdate_twice. apply replace_replace.
  - cbn [Api.handle].
    destruct (lookup id st) as [a|] eqn:L; cbn [fst]; [|reflexivity].
    destruct (_ && _); cbn [fst]; [reflexivity|].
    rewrite applyUpdate_nothing. now apply replace_same.
Qed.

(** A deletion that succeeds removes the document and no other: its
    identifier is no longer found, every other identifier is found as
    before, and a later read of it is answered 404. *)
Theorem delete_removes_one (argumentLimit : N)
    (readFile : string -> result XLSX.workbook)
    (sheet_to_json : option XLSX.worksheet -> list object)
    (files : list (string * Files.file)) (caller : user) (id : string)
    (st st' : Api.store) (code : nat) (p : Api.payload) :
  Api.handle argumentLimit readFile sheet_to_json files caller (Api.Delete id) st
  = (st', Success code p) ->
  lookup id st' = None
  /\ (forall other, other <> id -> lookup other st' = lookup other st)
  /\ (forall reader,
        Api.handle argumentLimit readFile sheet_to_json files reader (Api.Get id) st'
        = (st', Failure 404 "Analytics not found")).
Proof.
  simpl. destruct (lookup id st) as [a|]; [|discriminate].
  destruct (_ && _); [discriminate|].
  intros E. inversion E; subst st'. split; [apply lookup_remove_same|]. split.
  - intros other N. apply lookup_remove_other. congruence.
  - intros reader. rewrite lookup_remove_same. reflexivity.
Qed.

Lemma delete_removes_one_witness :
  lookup "a1"
    (fst (Api.handle Samples.argumentLimit Samples.disk Samples.rowsOf Samples.files Samples.alice
            (Api.Delete "a1") Samples.charts)) = None.
Proof.
  destruct (Api.handle Samples.argumentLimit
      Samples.disk Samples.rowsOf Samples.files Samples.alice
              (Api.Delete "a1") Samples.charts) as [st' [code p|code m]] eqn:E.
  - exact (proj1 (delete_removes_one _ _ _ _ _ _ _ _ _ _ E)).
  - vm_compute in E. discriminate.
Defined.

(** Sharing gives read access only.  A caller who is neither the owner nor
    an administrator is refused every update and deletion, whether the
    document is public or not, and nothing is stored; a read is answered
    when the document is public and refused, without counting a view, when
    it is not. *)
Theorem strangers_read_only (argumentLimit : N)
    (readFile : string -> result XLSX.workbook)
    (sheet_to_json : option XLSX.worksheet -> list object)
    (files : list (string * Files.file)) (caller : user) (id : string)
    (st : Api.store) (a : Api.document) :
  lookup id st = Some a ->
  Policy.mayChange a caller = false ->
  (forall body,
      Api.handle argumentLimit readFile sheet_to_json files caller (Api.Put id body) st
      = (st, Failure 403 "Access denied"))
  /\ Api.handle argumentLimit readFile sheet_to_json files caller (Api.Delete id) st
     = (st, Failure 403 "Access denied")
  /\ (Api.sharePublic (Api.share a) = true ->
      Api.handle argumentLimit readFile sheet_to_json files caller (Api.Get id) st
      = (Api.replace id (Api.viewed a) st, Success 200 (Api.Document (Api.viewed a))))
  /\ (Api.sharePublic (Api.share a) = false ->
      Api.handle argumentLimit readFile sheet_to_json files caller (Api.Get id) st
      = (st, Failure 403 "Access denied")).
Proof.
  intros L C. unfold Policy.mayChange in C. apply orb_false_iff in C. destruct C as [O A].
  simpl. rewrite L, O, A. simpl.
  split; [reflexivity|]. split; [reflexivity|].
  split; intros ->; reflexivity.
Qed.

Lemma strangers_read_only_witness :
  Api.handle Samples.argumentLimit
      Samples.disk Samples.rowsOf Samples.files Samples.bob (Api.Delete "a1")
    Samples.charts
  = (Samples.charts, Failure 403 "Access denied").
Proof.
  destruct (lookup "a1" Samples.charts) as [a|] eqn:L; [|vm_compute in L; discriminate].
  assert (C : Policy.mayChange a Samples.bob = false).
  { vm_compute in L. inversion L. reflexivity. }
  exact (proj1 (proj2 (strangers_read_only Samples.argumentLimit
      Samples.disk Samples.rowsOf Samples.files
                         Samples.bob "a1" Samples.charts a L C))).
Defined.

Lemma set_length (o : object) (k : string) (v : value) :
  (List.length (set o k v) <= S (List.length o))%nat.
Proof.
  unfold set. destruct (k =? "__proto__"); [lia|].
  induction o as [|[k' v'] o IH]; simpl; [lia|].
  destruct (k' =? k); simpl; lia.
Qed.

Lemma fold_aggregate_length (xAxis yAxis : axis) (data : list object) (o : object) :
  (List.length (fold_left (aggregateStep xAxis yAxis) data o)
   <= List.length o + List.length data)%nat.
Proof.
  revert o. induction data as [|row data IH]; intros o; simpl; [lia|].
  eapply Nat.le_trans; [apply IH|].
  unfold aggregateStep.
  pose proof (set_length o (ToString (get row (column xAxis)))
                (orZeroPlus o (ToString (get row (column xAxis)))
                   (coerce row (column yAxis)))) as L.
  lia.
Qed.

Lemma ownEntries_length {A} (o : list (string * A)) :
  List.length (ownEntries o) = List.length o.
Proof. apply Permutation_length, ownEntries_perm. Qed.

(** The transformer always returns one series, with as many values as
    there are labels: one per record for the chart types other than pie and
    doughnut, with or without a Z axis, and at most one per record for pie
    and doughnut. *)
Theorem labels_match_series (data : list object) (chartType : string)
    (xAxis yAxis : axis) (zAxis : option axis) (colors : option (list string)) :
  exists series,
    datasets (processChartData data chartType xAxis yAxis zAxis colors) = [series]
    /\ List.length (labels (processChartData data chartType xAxis yAxis zAxis colors))
       = List.length (ds_data series)
    /\ (if proportional chartType
        then (List.length (ds_data series) <= List.length data)%nat
        else List.length (ds_data series) = List.length data).
Proof.
  unfold processChartData. destruct (proportional chartType).
  - eexists. split; [reflexivity|]. cbn [labels ds_data withBackground withData].
    unfold Object_keys, Object_values. rewrite !length_map. split; [reflexivity|].
    rewrite ownEntries_length.
    apply (fold_aggregate_length xAxis yAxis data []).
  - eexists. split; [reflexivity|]. cbn [labels].
    destruct (hasZ zAxis); cbn [ds_data withData].
    + unfold mapi. rewrite mapiFrom_length, length_map. split; reflexivity.
    + rewrite !length_map. split; reflexivity.
Qed.

(** Without records the insights are degenerate: the summary reports a
    range from Infinity to -Infinity with an average of NaN, and there is
    neither a trend nor an outlier. *)
Theorem insights_of_no_records (argumentLimit : N) (xAxis yAxis : axis)
    (zAxis : option axis) :
  generateInsights argumentLimit [] xAxis yAxis zAxis
  = Ok {| summary := "Dataset contains 0 records. " ++ column yAxis
                     ++ " ranges from Infinity to -Infinity with an average of NaN.";
          trends := [];
          correlations := [];
          outliers := [];
          aiGenerated := false |}.
Proof. destruct argumentLimit; reflexivity. Qed.

(** ** The points of a 3D chart *)

Lemma ofNat_settled (n : nat) : Spec.settled (Num.ofNat n).
Proof.
  unfold Num.ofNat, Num.ofZ, binary_normalize.
  destruct (Z.of_nat n) as [|p|p] eqn:E; [reflexivity| |lia].
  destruct (binary_round_positive Num.prec Num.emax prec_positive false p 0)
    as [[m' [e' [-> G]]] | ->]; [vm_compute; discriminate | exact G | exact I].
Qed.

Lemma settled_not_nan (x : number) : Spec.settled x -> Num.isNaN x = false.
Proof. destruct x; simpl; tauto. Qed.

Lemma point_at (data : list object) (chartType : string) (xAxis yAxis : axis)
    (zAxis : option axis) (colors : option (list string)) :
  proportional chartType = false ->
  hasZ zAxis = true ->
  Spec.seriesData (processChartData data chartType xAxis yAxis zAxis colors)
  = mapi (fun row index =>
            Point (parseFloatOr (get row (column xAxis)) (Num.ofNat index))
                  (coerce row (column yAxis)) (coerce row (zColumn zAxis))) data.
Proof.
  intros P Z. unfold processChartData, Spec.seriesData. rewrite P, Z.
  cbn [datasets ds_data withData]. unfold mapi.
  assert (G : forall pre rest,
             data = (pre ++ rest)%list ->
             mapiFrom (fun row index =>
                         Point (parseFloatOr (get row (column xAxis)) (Num.ofNat index))
                           (nth index (map (fun row => coerce row (column yAxis)) data) Num.NaN)
                           (nth index (map (fun row => coerce row (zColumn zAxis)) data) Num.NaN))
               rest (List.length pre)
             = mapiFrom (fun row index =>
                           Point (parseFloatOr (get row (column xAxis)) (Num.ofNat index))
                             (coerce row (column yAxis)) (coerce row (zColumn zAxis)))
                 rest (List.length pre)).
  { intros pre rest. revert pre. induction rest as [|row rest IH]; intros pre E.
    - reflexivity.
    - cbn [mapiFrom].
      assert (N : nth_error data (List.length pre) = Some row).
      { rewrite E, nth_error_app2, Nat.sub_diag by lia. reflexivity. }
      rewrite !(nth_map_coerce data _ _ row N). f_equal.
      specialize (IH (pre ++ [row])%list). rewrite length_app, Nat.add_1_r in IH.
      apply IH. rewrite E, <- app_assoc. reflexivity. }
  exact (G [] data eq_refl).
Qed.

(** A numeric X-value of zero is not kept as the abscissa of a 3D point:
    like an X-value that is not a number, it is replaced by the position of
    the record. *)
Theorem zero_abscissa_becomes_index (data : list object) (chartType : string)
    (xAxis yAxis : axis) (zAxis : option axis) (colors : option (list string))
    (index : nat) (row : object) :
  proportional chartType = false ->
  hasZ zAxis = true ->
  nth_error data index = Some row ->
  Num.isZero (parseFloat (get row (column xAxis))) = true ->
  nth_error (Spec.seriesData (processChartData data chartType xAxis yAxis zAxis colors))
    index
  = Some (Point (Num.ofNat index) (coerce row (column yAxis)) (coerce row (zColumn zAxis))).
Proof.
  intros P Z N X. rewrite (point_at _ _ _ _ _ _ P Z). unfold mapi.
  rewrite mapiFrom_nth_error, N. cbn [option_map Nat.add].
  unfold parseFloatOr, Num.truthy. rewrite X, orb_true_r. reflexivity.
Qed.

Lemma zero_abscissa_becomes_index_witness :
  nth_error
    (Spec.seriesData
       (processChartData Cases.grid "3d-scatter" (Samples.plain "x") (Samples.plain "y")
          (Some (Samples.plain "z")) None)) 1
  = Some (Point (Num.ofNat 1)
            (coerce [("x", VNumber (Num.ofZ 0)); ("y", VNumber (Num.ofZ 3));
                     ("z", VString "n/a")] "y")
            (coerce [("x", VNumber (Num.ofZ 0)); ("y", VNumber (Num.ofZ 3));
                     ("z", VString "n/a")] "z")).
Proof.
  apply (zero_abscissa_becomes_index Cases.grid "3d-scatter" (Samples.plain "x")
           (Samples.plain "y") (Some (Samples.plain "z")) None 1
           [("x", VNumber (Num.ofZ 0)); ("y", VNumber (Num.ofZ 3)); ("z", VString "n/a")]);
    reflexivity.
Defined.

(** The values of a 3D series are points, none of whose coordinates is
    NaN, whatever the cells of the three columns hold. *)
Theorem points_never_nan (data : list object) (chartType : string)
    (xAxis yAxis : axis) (zAxis : option axis) (colors : option (list string))
    (d : datum) :
  proportional chartType = false ->
  hasZ zAxis = true ->
  In d (Spec.seriesData (processChartData data chartType xAxis yAxis zAxis colors)) ->
  exists x y z,
    d = Point x y z
    /\ Num.isNaN x = false /\ Num.isNaN y = false /\ Num.isNaN z = false.
Proof.
  intros P Z I. rewrite (point_at _ _ _ _ _ _ P Z) in I.
  apply In_nth_error in I. destruct I as [index I].
  unfold mapi in I. rewrite mapiFrom_nth_error in I.
  destruct (nth_error data index) as [row|]; [|discriminate].
  inversion I. eexists. eexists. eexists. split; [reflexivity|].
  split; [|split; apply coerce_not_nan].
  unfold parseFloatOr, Num.truthy.
  destruct (Num.isNaN (parseFloat (get row (column xAxis)))) eqn:N; cbn [orb negb].
  - apply settled_not_nan, ofNat_settled.
  - destruct (Num.isZero _); cbn [negb]; [apply settled_not_nan, ofNat_settled | exact N].
Qed.

Lemma points_never_nan_witness :
  exists x y z,
    Point (Num.ofNat 1) (Num.ofZ 3) Num.zero = Point x y z
    /\ Num.isNaN x = false /\ Num.isNaN y = false /\ Num.isNaN z = false.
Proof.
  apply (points_never_nan Cases.grid "3d-scatter" (Samples.plain "x") (Samples.plain "y")
           (Some (Samples.plain "z")) None); [reflexivity | reflexivity |].
  vm_compute. right. left. reflexivity.
Defined.

(** ** The upload fields *)

Lemma splitComma_length (str : string) :
  List.length (Intake.splitComma str) = S (Text.commas str).
Proof.
  induction str as [|ch rest IH]; simpl; [reflexivity|].
  destruct (ch =? ",")%char; simpl; [now rewrite IH|].
  destruct (Intake.splitComma rest); simpl in *; [discriminate|exact IH].
Qed.

Lemma splitComma_pieces (str : string) :
  Forall (fun piece => Text.commas piece = 0%nat) (Intake.splitComma str).
Proof.
  induction str as [|ch rest IH]; simpl; [repeat constructor|].
  destruct (ch =? ",")%char eqn:E; [constructor; [reflexivity|exact IH]|].
  destruct (Intake.splitComma rest) as [|piece pieces].
  - repeat constructor. simpl. now rewrite E.
  - inversion IH; subst. constructor; [|assumption]. simpl. now rewrite E.
Qed.

Lemma commas_substring (n m : nat) (str : string) :
  (Text.commas (substring n m str) <= Text.commas str)%nat.
Proof.
  revert n m. induction str as [|ch rest IH]; intros n m.
  - destruct n, m; simpl; lia.
  - destruct n as [|n].
    + destruct m as [|m]; simpl; [lia|]. specialize (IH 0%nat m). lia.
    + simpl. specialize (IH n m). lia.
Qed.

Lemma firstSome_commas (f : string -> option string) (str : string) (l : list string) :
  (forall w out, f w = Some out -> (Text.commas out <= Text.commas str)%nat) ->
  forall out, firstSome f l = Some out -> (Text.commas out <= Text.commas str)%nat.
Proof.
  intros H. induction l as [|w l IH]; simpl; intros out E; [discriminate|].
  destruct (f w) as [o|] eqn:F; [|now apply IH].
  inversion E; subst. now apply (H w).
Qed.

Lemma trimStart_commas (fuel : nat) (str : string) :
  (Text.commas (trimStart fuel str) <= Text.commas str)%nat.
Proof.
  revert str. induction fuel as [|fuel IH]; intros str; cbn [trimStart]; [lia|].
  destruct (firstSome (fun w => dropPrefix w str) whiteSpace) as [out|] eqn:E; [|lia].
  eapply Nat.le_trans; [apply IH|].
  eapply firstSome_commas; [|exact E].
  intros w o. unfold dropPrefix. destruct (prefix w str); [|discriminate].
  intros F. inversion F. apply commas_substring.
Qed.

Lemma trimEnd_commas (fuel : nat) (str : string) :
  (Text.commas (Intake.trimEnd fuel str) <= Text.commas str)%nat.
Proof.
  revert str. induction fuel as [|fuel IH]; intros str; cbn [Intake.trimEnd]; [lia|].
  destruct (firstSome (fun w => Intake.dropSuffix w str) whiteSpace) as [out|] eqn:E; [|lia].
  eapply Nat.le_trans; [apply IH|].
  eapply firstSome_commas; [|exact E].
  intros w o. unfold Intake.dropSuffix. destruct (_ && _); [|discriminate].
  intros F. inversion F. apply commas_substring.
Qed.

Lemma trim_commas (str : string) : (Text.commas (Intake.trim str) <= Text.commas str)%nat.
Proof.
  unfold Intake.trim. eapply Nat.le_trans; [apply trimEnd_commas|apply trimStart_commas].
Qed.

(** The tags of an upload: none when the field is absent or empty, and
    otherwise one more tag than the field has commas, empty tags included,
    none of them holding a comma. *)
Theorem tags_of_field (tags : option string) :
  List.length (Intake.parseTags tags)
  = match tags with
    | Some str => if str =? "" then 0%nat else S (Text.commas str)
    | None => 0%nat
    end
  /\ Forall (fun tag => Text.commas tag = 0%nat) (Intake.parseTags tags).
Proof.
  destruct tags as [str|]; simpl; [|split; constructor].
  destruct (str =? ""); [split; constructor|].
  rewrite length_map, splitComma_length. split; [reflexivity|].
  apply Forall_map. eapply Forall_impl; [|apply splitComma_pieces].
  intros piece H. simpl in H. pose proof (trim_commas piece). lia.
Qed.

(** ** The headers of a sheet *)

(** In the summary of a sheet as the record keeps it, the header of each
    column is the string form of the number, the truth value or the string
    in the cell of that column in the first row of the sheet's range and,
    where the sheet has no such cell, the word Column with the column's
    number in the sheet, counted from 1, whatever column the range starts
    at. *)
Theorem header_of_column (sheetName : string) (ws : XLSX.worksheet) (i : nat) :
  (i < List.length (Files.columns (Files.castSummary (Files.summarize sheetName ws))))%nat ->
  match lookup (XLSX.encode_cell
                  {| XLSX.r := XLSX.r (XLSX.s (Files.sheetRange ws));
                     XLSX.c := XLSX.c (XLSX.s (Files.sheetRange ws)) + Z.of_nat i |})
          (XLSX.cells ws) with
  | Some (VNumber n) =>
      nth_error (Files.columns (Files.castSummary (Files.summarize sheetName ws))) i
      = Some (VString (Num.toString n))
  | Some (VBool b) =>
      nth_error (Files.columns (Files.castSummary (Files.summarize sheetName ws))) i
      = Some (VString (if b then "true" else "false"))
  | Some (VString str) =>
      nth_error (Files.columns (Files.castSummary (Files.summarize sheetName ws))) i
      = Some (VString str)
  | Some _ => True
  | None =>
      nth_error (Files.columns (Files.castSummary (Files.summarize sheetName ws))) i
      = Some (VString ("Column "
                       ++ Num.toString
                            (Num.ofZ (XLSX.c (XLSX.s (Files.sheetRange ws))
                                      + Z.of_nat i + 1))))
  end.
Proof.
  unfold Files.summarize, Files.castSummary. cbn [Files.columns].
  rewrite length_map, headersFrom_length. intros L.
  rewrite nth_error_map, (headersFrom_nth _ _ _ _ _ L). cbn [option_map].
  destruct (lookup _ (XLSX.cells ws)) as [[| |b|n|str|text]|]; try reflexivity; exact I.
Qed.

(** A sheet whose range starts at C2, with the year 2024 as a number in C2
    and nothing in D2: the record keeps the headers "2024" and
    "Column 4". *)
Lemma header_of_column_witness :
  nth_error (Files.columns (Files.castSummary (Files.summarize "Data" Cases.offsetSheet))) 0
  = Some (VString "2024")
  /\ nth_error (Files.columns (Files.castSummary (Files.summarize "Data" Cases.offsetSheet)))
       1
     = Some (VString "Column 4").
Proof.
  split.
  - exact (header_of_column "Data" Cases.offsetSheet 0 ltac:(vm_compute; lia)).
  - exact (header_of_column "Data" Cases.offsetSheet 1 ltac:(vm_compute; lia)).
Defined.

(** ** The stored files, the upload directory and the counters *)

Lemma lookup_without_same {A} (id : string) (l : list (string * A)) :
  lookup id (filter (fun kv => negb (fst kv =? id)) l) = None.
Proof.
  induction l as [|[id' d] l IH]; simpl; [reflexivity|].
  destruct (String.eqb_spec id' id) as [E|N]; simpl; [exact IH|].
  destruct (String.eqb_spec id' id); [contradiction | exact IH].
Qed.

Lemma lookup_without_other {A} (id other : string) (l : list (string * A)) :
  other <> id ->
  lookup other (filter (fun kv => negb (fst kv =? id)) l) = lookup other l.
Proof.
  intros N. induction l as [|[id' d] l IH]; simpl; [reflexivity|].
  destruct (String.eqb_spec id' id) as [E|N']; simpl.
  - destruct (String.eqb_spec id' other); [congruence | exact IH].
  - destruct (String.eqb_spec id' other); [reflexivity | exact IH].
Qed.

Lemma without_absent {A} (id : string) (l : list (string * A)) :
  lookup id l = None -> filter (fun kv => negb (fst kv =? id)) l = l.
Proof.
  induction l as [|[id' d] l IH]; simpl; [reflexivity|].
  destruct (id' =? id); [discriminate|]. simpl. intros H. now rewrite IH.
Qed.

Lemma without_new {A} (id : string) (l : list (string * A)) (a : A) :
  lookup id l = None -> filter (fun kv => negb (fst kv =? id)) (l ++ [(id, a)]) = l.
Proof.
  intros H. rewrite filter_app, (without_absent id l H). simpl.
  rewrite String.eqb_refl. simpl. apply app_nil_r.
Qed.

Lemma lookup_app_other {A} (k other : string) (o : list (string * A)) (a : A) :
  other <> k -> lookup other (o ++ [(k, a)]) = lookup other o.
Proof.
  intros N. induction o as [|[k' v] o IH]; simpl.
  - destruct (String.eqb_spec k other); [congruence | reflexivity].
  - destruct (k' =? other); [reflexivity | exact IH].
Qed.

Lemma unlink_absent (path : string) (paths : list string) :
  ~ In path paths -> Storage.unlink path paths = paths.
Proof.
  unfold Storage.unlink. induction paths as [|p paths IH]; simpl; [reflexivity|].
  intros N. destruct (String.eqb_spec p path) as [E|_]; [tauto|].
  simpl. rewrite IH; [reflexivity | tauto].
Qed.

Lemma unlink_written (path : string) (paths : list string) :
  ~ In path paths -> Storage.unlink path (path :: paths) = paths.
Proof.
  intros N. unfold Storage.unlink. simpl. rewrite String.eqb_refl. simpl.
  now apply unlink_absent.
Qed.

Lemma unlink_gone (path : string) (paths : list string) :
  ~ In path (Storage.unlink path paths).
Proof.
  unfold Storage.unlink. rewrite filter_In. intros [_ H].
  now rewrite String.eqb_refl in H.
Qed.

Lemma lookup_inc_same (id : string) (dFiles dBytes : Z)
    (us : list (string * Storage.counters)) (cs : Storage.counters) :
  lookup id us = Some cs ->
  lookup id (Storage.inc id dFiles dBytes us)
  = Some {| Storage.filesUploaded := Storage.filesUploaded cs + dFiles;
            Storage.storageUsed := Storage.storageUsed cs + dBytes |}.
Proof.
  induction us as [|[id' cs'] us IH]; simpl; [discriminate|].
  destruct (id' =? id) eqn:E; simpl; rewrite E.
  - intros H. inversion H. reflexivity.
  - exact IH.
Qed.

Lemma lookup_inc_other (id other : string) (dFiles dBytes : Z)
    (us : list (string * Storage.counters)) :
  other <> id ->
  lookup other (Storage.inc id dFiles dBytes us) = lookup other us.
Proof.
  intros N. induction us as [|[id' cs'] us IH]; simpl; [reflexivity|].
  destruct (String.eqb_spec id' id) as [E|N']; simpl.
  - destruct (String.eqb_spec id' other); [congruence | reflexivity].
  - destruct (id' =? other); [reflexivity | exact IH].
Qed.

Lemma inc_back (id : string) (dFiles dBytes : Z) (us : list (string * Storage.counters)) :
  Storage.inc id (- dFiles) (- dBytes) (Storage.inc id dFiles dBytes us) = us.
Proof.
  induction us as [|[id' [f b]] us IH]; simpl; [reflexivity|].
  destruct (id' =? id) eqn:E; simpl; rewrite E.
  - do 2 f_equal. f_equal; lia.
  - now rewrite IH.
Qed.

Lemma processUpload_fields (readFile : string -> result XLSX.workbook)
    (up : Files.upload) (owner : user) :
  Files.filePath (Files.processUpload readFile up owner) = Files.up_path up
  /\ Files.fileSize (Files.processUpload readFile up owner) = Files.up_size up
  /\ Files.mimeType (Files.processUpload readFile up owner) = Files.up_mimetype up
  /\ Files.uploadedBy (Files.processUpload readFile up owner) = userId owner
  /\ Files.isPublic (Files.processUpload readFile up owner) = Files.up_isPublic up.
Proof.
  unfold Files.processUpload.
  destruct (match readFile (Files.up_path up) with
            | Ok workbook => Files.summarizeAll workbook (XLSX.SheetNames workbook)
            | Throw m => Throw m
            end); repeat split; reflexivity.
Qed.

Lemma uploadStep_accepted (readFile : string -> result XLSX.workbook) (newId : string)
    (sub : Storage.submission) (caller : user) (st : Storage.state) :
  Intake.fileFilter (Files.up_mimetype (Storage.sub_file sub)) = Ok true ->
  (codeUnits (Intake.descriptionOf (Storage.sub_description sub)) <= 500)%nat ->
  lookup newId (Storage.files st) = None ->
  Storage.uploadStep readFile newId (Some sub) caller st
  = ({| Storage.files :=
          (Storage.files st
           ++ [(newId, Files.processUpload readFile (Storage.sub_file sub) caller)])%list;
        Storage.disk := Files.up_path (Storage.sub_file sub) :: Storage.disk st;
        Storage.users :=
          Storage.inc (userId caller) 1 (Files.up_size (Storage.sub_file sub))
            (Storage.users st) |},
     Success 201 (Files.processUpload readFile (Storage.sub_file sub) caller)).
Proof.
  intros F D N. unfold Storage.uploadStep. rewrite N.
  unfold Intake.fileFilter, Intake.allowedTypes in F. unfold Intake.mimeTypeEnum.
  destruct (existsb _ _); [|discriminate].
  unfold Intake.descriptionMaxLength.
  destruct (Nat.ltb_spec 500 (codeUnits (Intake.descriptionOf (Storage.sub_description sub))))
    as [L|_]; [lia|].
  reflexivity.
Qed.

(** An upload the file filter lets through, with a description of at most
    500 UTF-16 code units, is always stored, whether or not its workbook
    can be read: the reply is 201 with the record, the record is found under its
    identifier with the uploader as its owner and is either completed or in
    error, the other records are as before, the upload is in the upload
    directory, and the uploader's counters have grown by one file and by
    the size of the upload. *)
Theorem accepted_upload_is_stored (readFile : string -> result XLSX.workbook)
    (newId : string) (sub : Storage.submission) (caller : user) (st : Storage.state) :
  Intake.fileFilter (Files.up_mimetype (Storage.sub_file sub)) = Ok true ->
  (codeUnits (Intake.descriptionOf (Storage.sub_description sub)) <= 500)%nat ->
  lookup newId (Storage.files st) = None ->
  exists record st',
    Storage.uploadStep readFile newId (Some sub) caller st = (st', Success 201 record)
    /\ lookup newId (Storage.files st') = Some record
    /\ Files.uploadedBy record = userId caller
    /\ (Files.fileStatus record = Files.completed \/ Files.fileStatus record = Files.error)
    /\ (forall other, other <> newId ->
          lookup other (Storage.files st') = lookup other (Storage.files st))
    /\ In (Files.up_path (Storage.sub_file sub)) (Storage.disk st')
    /\ (forall cs, lookup (userId caller) (Storage.users st) = Some cs ->
          lookup (userId caller) (Storage.users st')
          = Some {| Storage.filesUploaded := Storage.filesUploaded cs + 1;
                    Storage.storageUsed :=
                      Storage.storageUsed cs + Files.up_size (Storage.sub_file sub) |}).
Proof.
  intros F D N. eexists. eexists.
  split; [apply (uploadStep_accepted readFile newId sub caller st F D N)|].
  cbn [Storage.files Storage.disk Storage.users].
  split; [now apply lookup_app_new|].
  split; [apply processUpload_fields|].
  split.
  { unfold Files.processUpload.
    destruct (match readFile (Files.up_path (Storage.sub_file sub)) with
              | Ok workbook => Files.summarizeAll workbook (XLSX.SheetNames workbook)
              | Throw m => Throw m
              end); [left|right]; reflexivity. }
  split; [intros other O; now apply lookup_app_other|].
  split; [now left|].
  intros cs U. now apply lookup_inc_same.
Qed.

Lemma accepted_upload_is_stored_witness :
  exists record st',
    Storage.uploadStep Samples.disk "f1" (Some Cases.accentedSubmission) Samples.alice
      Cases.fresh = (st', Success 201 record)
    /\ lookup "f1" (Storage.files st') = Some record
    /\ Files.uploadedBy record = "u1".
Proof.
  destruct (accepted_upload_is_stored Samples.disk "f1" Cases.accentedSubmission
              Samples.alice Cases.fresh)
    as [record [st' [E [L [O _]]]]];
    [reflexivity | vm_compute; lia | reflexivity |].
  exists record, st'. repeat split; assumption.
Defined.

(** An upload whose description is longer than the 500 UTF-16 code units
    that the schema allows is answered 500 and leaves no trace: no record,
    the counters as they were, and the uploaded file removed from the
    upload directory again. *)
Theorem rejected_upload_leaves_no_trace (readFile : string -> result XLSX.workbook)
    (newId : string) (sub : Storage.submission) (caller : user) (st : Storage.state) :
  (500 < codeUnits (Intake.descriptionOf (Storage.sub_description sub)))%nat ->
  ~ In (Files.up_path (Storage.sub_file sub)) (Storage.disk st) ->
  Storage.uploadStep readFile newId (Some sub) caller st
  = (st, Failure 500 "Error uploading file").
Proof.
  intros D N. unfold Storage.uploadStep, Intake.descriptionMaxLength.
  destruct (Nat.ltb_spec 500 (codeUnits (Intake.descriptionOf (Storage.sub_description sub))))
    as [_|L]; [|lia].
  rewrite orb_true_r. cbn [orb].
  rewrite (unlink_written _ _ N). destruct st; reflexivity.
Qed.

Lemma rejected_upload_leaves_no_trace_witness :
  Storage.uploadStep Samples.disk "f1" (Some Cases.wordySubmission) Samples.alice
    Cases.fresh
  = (Cases.fresh, Failure 500 "Error uploading file").
Proof.
  apply rejected_upload_leaves_no_trace; [vm_compute; lia | simpl; tauto].
Defined.

(** Deleting a file right after its upload restores the state before the
    upload: the records, the upload directory and every user's counters. *)
Theorem upload_then_delete (readFile : string -> result XLSX.workbook)
    (newId : string) (sub : Storage.submission) (caller : user) (st : Storage.state) :
  Intake.fileFilter (Files.up_mimetype (Storage.sub_file sub)) = Ok true ->
  (codeUnits (Intake.descriptionOf (Storage.sub_description sub)) <= 500)%nat ->
  lookup newId (Storage.files st) = None ->
  ~ In (Files.up_path (Storage.sub_file sub)) (Storage.disk st) ->
  Storage.deleteStep newId caller
    (fst (Storage.uploadStep readFile newId (Some sub) caller st))
  = (st, Success 200 "File deleted successfully").
Proof.
  intros F D N P.
  rewrite (uploadStep_accepted readFile newId sub caller st F D N). cbn [fst].
  unfold Storage.deleteStep. cbn [Storage.files Storage.disk Storage.users].
  rewrite (lookup_app_new newId (Storage.files st) _ N).
  destruct (processUpload_fields readFile (Storage.sub_file sub) caller)
    as [E1 [E2 [_ [E4 _]]]].
  rewrite E1, E2, E4, String.eqb_refl. cbn [negb andb].
  unfold Storage.removeFile. rewrite (without_new newId _ _ N).
  rewrite (unlink_written _ _ P).
  change (-1)%Z with (- (1))%Z. rewrite inc_back.
  destruct st; reflexivity.
Qed.

Lemma upload_then_delete_witness :
  Storage.deleteStep "f1" Samples.alice
    (fst (Storage.uploadStep Samples.disk "f1" (Some Cases.salesSubmission)
            Samples.alice Cases.fresh))
  = (Cases.fresh, Success 200 "File deleted successfully").
Proof.
  apply upload_then_delete; [reflexivity | vm_compute; lia | reflexivity | simpl; tauto].
Defined.

(** A deletion that succeeds removes that record and no other, removes the
    file from the upload directory, and takes one file and the file's size
    off the counters of the file's owner, who need not be the caller; the
    counters of the other users are as before. *)
Theorem deleted_file_is_gone (id : string) (caller : user) (st st' : Storage.state)
    (code : nat) (message : string) :
  Storage.deleteStep id caller st = (st', Success code message) ->
  exists file,
    lookup id (Storage.files st) = Some file
    /\ (Files.uploadedBy file = userId caller \/ role caller = "admin")
    /\ lookup id (Storage.files st') = None
    /\ (forall other, other <> id ->
          lookup other (Storage.files st') = lookup other (Storage.files st))
    /\ ~ In (Files.filePath file) (Storage.disk st')
    /\ (forall cs, lookup (Files.uploadedBy file) (Storage.users st) = Some cs ->
          lookup (Files.uploadedBy file) (Storage.users st')
          = Some {| Storage.filesUploaded := Storage.filesUploaded cs - 1;
                    Storage.storageUsed := Storage.storageUsed cs - Files.fileSize file |})
    /\ (forall other, other <> Files.uploadedBy file ->
          lookup other (Storage.users st') = lookup other (Storage.users st)).
Proof.
  unfold Storage.deleteStep.
  destruct (lookup id (Storage.files st)) as [file|]; [|discriminate].
  destruct (String.eqb_spec (Files.uploadedBy file) (userId caller)) as [O|O];
    destruct (String.eqb_spec (role caller) "admin") as [R|R]; cbn [negb andb];
    try discriminate; intros E; inversion E; subst st'; exists file;
    cbn [Storage.files Storage.disk Storage.users];
    (split; [reflexivity|]);
    (split; [tauto|]);
    (split; [apply lookup_without_same|]);
    (split; [intros other N; now apply lookup_without_other|]);
    (split; [apply unlink_gone|]);
    (split; [intros cs U; now apply lookup_inc_same
            |intros other N; now apply lookup_inc_other]).
Qed.

Lemma deleted_file_is_gone_witness :
  lookup "f1" (Storage.files (fst (Storage.deleteStep "f1" Samples.alice Cases.stored)))
  = None.
Proof.
  destruct (Storage.deleteStep "f1" Samples.alice Cases.stored)
    as [st' [code message|code message]] eqn:E; [|vm_compute in E; discriminate].
  destruct (deleted_file_is_gone _ _ _ _ _ _ E) as [file [_ [_ [G _]]]].
  exact G.
Defined.

(** Only the owner and administrators delete a file.  Any other caller is
    answered 403 and nothing changes, also for a public file, whose details
    the same caller may read. *)
Theorem delete_needs_ownership (id : string) (caller : user) (st : Storage.state)
    (file : Files.file) :
  lookup id (Storage.files st) = Some file ->
  Files.uploadedBy file <> userId caller ->
  role caller <> "admin" ->
  Storage.deleteStep id caller st = (st, Failure 403 "Access denied")
  /\ Storage.fileDetailsRoute (Storage.files st) id caller
     = if Files.isPublic file then Success 200 file else Failure 403 "Access denied".
Proof.
  intros L O R. unfold Storage.deleteStep, Storage.fileDetailsRoute, Files.mayRead.
  rewrite L.
  destruct (String.eqb_spec (Files.uploadedBy file) (userId caller)); [contradiction|].
  destruct (String.eqb_spec (role caller) "admin"); [contradiction|].
  split; [reflexivity|]. destruct (Files.isPublic file); reflexivity.
Qed.

Lemma delete_needs_ownership_witness :
  Storage.deleteStep "f1" Samples.bob Cases.stored
  = (Cases.stored, Failure 403 "Access denied").
Proof.
  destruct (lookup "f1" (Storage.files Cases.stored)) as [file|] eqn:L;
    [|vm_compute in L; discriminate].
  refine (proj1 (delete_needs_ownership "f1" Samples.bob Cases.stored file L _ _)).
  - vm_compute in L. inversion L. discriminate.
  - discriminate.
Defined.

(** A file the caller may not read is refused by every route that reads
    files, with 403 and before the workbook is opened: the details, the
    worksheet data and the creation of a chart on it. *)
Theorem unreadable_file_refused (argumentLimit : N)
    (readFile : string -> result XLSX.workbook)
    (sheet_to_json : option XLSX.worksheet -> list object)
    (files : list (string * Files.file)) (id : string) (file : Files.file)
    (caller : user) :
  lookup id files = Some file ->
  Files.mayRead file caller = false ->
  Storage.fileDetailsRoute files id caller = Failure 403 "Access denied"
  /\ (forall worksheetName,
        Files.worksheetDataRoute readFile sheet_to_json files id worksheetName caller
        = Failure 403 "Access denied")
  /\ (forall body, Api.c_fileId body = id ->
        Api.createChart argumentLimit readFile sheet_to_json files body caller
        = Failure 403 "Access denied to file").
Proof.
  intros L M. unfold Storage.fileDetailsRoute, Files.worksheetDataRoute, Api.createChart.
  rewrite L, M. split; [reflexivity|]. split; [reflexivity|].
  intros body ->. rewrite L, M. reflexivity.
Qed.

Lemma unreadable_file_refused_witness :
  Api.createChart Samples.argumentLimit
      Samples.disk Samples.rowsOf Samples.files Samples.barRequest Samples.bob
  = Failure 403 "Access denied to file".
Proof.
  destruct (lookup "f1" Samples.files) as [file|] eqn:L; [|vm_compute in L; discriminate].
  assert (M : Files.mayRead file Samples.bob = false).
  { vm_compute in L. inversion L. reflexivity. }
  exact (proj2 (proj2 (unreadable_file_refused Samples.argumentLimit
      Samples.disk Samples.rowsOf Samples.files
                         "f1" file Samples.bob L M)) Samples.barRequest eq_refl).
Defined.

(** ** The sheets of an upload *)

Lemma summarizeAll_names (wb : XLSX.workbook) (names : list string)
    (sheets : list Files.summary) :
  Files.summarizeAll wb names = Ok sheets -> map Files.name sheets = names.
Proof.
  revert sheets. induction names as [|n names IH]; intros sheets; simpl.
  - intros E. inversion E. reflexivity.
  - destruct (lookup n (XLSX.Sheets wb)) as [ws|]; [|discriminate].
    destruct (Files.summarizeAll wb names) as [rest|]; [|discriminate].
    intros E. inversion E. simpl. f_equal. now apply IH.
Qed.

(** The summaries of a completed upload carry the names of the workbook's
    sheets, in the workbook's order, and the metadata counts them. *)
Theorem summaries_follow_sheet_names (readFile : string -> result XLSX.workbook)
    (up : Files.upload) (owner : user) :
  Files.fileStatus (Files.processUpload readFile up owner) = Files.completed ->
  exists workbook,
    readFile (Files.up_path up) = Ok workbook
    /\ map Files.name (Files.worksheets (Files.processUpload readFile up owner))
       = XLSX.SheetNames workbook
    /\ option_map Files.worksheetCount
         (Files.fileMetadata (Files.processUpload readFile up owner))
       = Some (Num.ofNat (List.length (XLSX.SheetNames workbook))).
Proof.
  unfold Files.processUpload.
  destruct (readFile (Files.up_path up)) as [workbook|m]; [|discriminate].
  destruct (Files.summarizeAll workbook (XLSX.SheetNames workbook)) as [sheets|m] eqn:E;
    [|discriminate].
  intros _. exists workbook. cbn [Files.worksheets Files.fileMetadata option_map
                                  Files.worksheetCount].
  split; [reflexivity|]. split.
  - rewrite map_map. exact (summarizeAll_names workbook _ _ E).
  - now rewrite (summarizeAll_length workbook (XLSX.SheetNames workbook) sheets E).
Qed.

Lemma summaries_follow_sheet_names_witness :
  exists workbook,
    Samples.disk (Files.up_path Samples.salesUpload) = Ok workbook
    /\ map Files.name
         (Files.worksheets (Files.processUpload Samples.disk Samples.salesUpload Samples.alice))
       = XLSX.SheetNames workbook.
Proof.
  destruct (summaries_follow_sheet_names Samples.disk Samples.salesUpload Samples.alice
              eq_refl) as [workbook [R [N _]]].
  exists workbook. split; assumption.
Defined.

(** ** The authentication middleware *)

Lemma prefix_app (p t : string) : prefix p (p ++ t) = true.
Proof.
  induction p as [|ch p IH]; simpl; [now destruct t|].
  destruct (ascii_dec ch ch); [exact IH | contradiction].
Qed.

Lemma substring_all (t : string) : substring 0 (String.length t) t = t.
Proof. induction t as [|ch t IH]; simpl; [reflexivity | now rewrite IH]. Qed.

Lemma substring_app (p t : string) :
  substring (String.length p) (String.length (p ++ t) - String.length p) (p ++ t) = t.
Proof.
  induction p as [|ch p IH]; simpl.
  - rewrite Nat.sub_0_r. apply substring_all.
  - exact IH.
Qed.

Lemma removeFirst_prefix (p t : string) : Auth.removeFirst p (p ++ t) = t.
Proof.
  assert (U : forall str, Auth.removeFirst p str
             = if prefix p str
               then substring (String.length p) (String.length str - String.length p) str
               else match str with
                    | EmptyString => EmptyString
                    | String ch rest => String ch (Auth.removeFirst p rest)
                    end) by (intros [|? ?]; reflexivity).
  rewrite U, prefix_app. apply substring_app.
Qed.

(** Where the token is taken from: a header of the form Bearer followed by
    a non-empty token gives that token, whatever the cookie and the query
    hold; without the header, or with a header that holds nothing after
    Bearer, the cookie's token is taken when it is not empty, and the
    query's otherwise. *)
Theorem token_sources (req : Auth.request) :
  (forall token, token <> "" ->
     Auth.authorization req = Some ("Bearer " ++ token) ->
     Auth.tokenOf req = Some token)
  /\ (Auth.authorization req = None \/ Auth.authorization req = Some "Bearer " ->
      (forall token, token <> "" -> Auth.cookieToken req = Some token ->
         Auth.tokenOf req = Some token)
      /\ (Auth.cookieToken req = None \/ Auth.cookieToken req = Some "" ->
          Auth.tokenOf req = Auth.queryToken req)).
Proof.
  unfold Auth.tokenOf. split.
  - intros token N H. rewrite H. cbn [option_map]. rewrite removeFirst_prefix.
    unfold Auth.orElse. destruct (String.eqb_spec token ""); [contradiction|].
    destruct (String.eqb_spec token ""); [contradiction | reflexivity].
  - intros H.
    assert (E : Auth.orElse (option_map (Auth.removeFirst "Bearer ") (Auth.authorization req))
                  (Auth.cookieToken req) = Auth.cookieToken req)
      by (destruct H as [-> | ->]; reflexivity).
    rewrite E. split.
    + intros token N C. rewrite C. unfold Auth.orElse.
      destruct (String.eqb_spec token ""); [contradiction | reflexivity].
    + intros [-> | ->]; reflexivity.
Qed.

Lemma token_sources_witness :
  Auth.tokenOf (Cases.bearer "t-alice") = Some "t-alice".
Proof.
  apply (proj1 (token_sources (Cases.bearer "t-alice")) "t-alice");
    [discriminate | reflexivity].
Defined.

(** What the middleware lets through: only a request whose token is
    verified, for an account that exists, is active and has not changed its
    password after the token was issued; the identity handed on is the
    token's, with the account's permissions.  Every refusal is a 401,
    except the 500 for an error of verification that is neither an expired
    nor a malformed token. *)
Theorem auth_hands_on (verify : string -> Auth.verifyError + Auth.decoded)
    (findById : string -> option Auth.account) (req : Auth.request) :
  match Auth.auth verify findById req with
  | Auth.Next who =>
      exists token d acct,
        Auth.tokenOf req = Some token /\ token <> ""
        /\ verify token = inr d
        /\ findById (Auth.tokenUserId d) = Some acct
        /\ Auth.isActive acct = true
        /\ (forall changed, Auth.passwordChangedAt acct = Some changed ->
              Auth.issuedBefore d changed = false)
        /\ Auth.id_user who = {| userId := Auth.tokenUserId d; role := Auth.tokenRole d |}
        /\ Auth.id_permissions who
           = match Auth.permissions acct with Some ps => ps | None => [] end
  | Auth.Denied status code =>
      status = 401%nat \/ (status = 500%nat /\ code = "AUTH_ERROR")
  end.
Proof.
  unfold Auth.auth.
  destruct (Auth.tokenOf req) as [token|] eqn:T; cbn [Auth.orElse]; [|now left].
  destruct (String.eqb_spec token "") as [E|N]; [now left|].
  destruct (verify token) as [[| |]|d] eqn:V; [now left | now left | right; now split |].
  destruct (findById (Auth.tokenUserId d)) as [acct|] eqn:F; [|now left].
  destruct (Auth.isActive acct) eqn:A; cbn [negb]; [|now left].
  destruct (Auth.passwordChangedAt acct) as [changed|] eqn:P.
  - destruct (Auth.issuedBefore d changed) eqn:I; [now left|].
    exists token, d, acct. repeat split; try assumption.
    intros c H. rewrite P in H. inversion H; subst. exact I.
  - exists token, d, acct. repeat split; try assumption. intros c H. rewrite P in H. discriminate.
Qed.

Lemma auth_hands_on_witness :
  exists who,
    Auth.auth Cases.verifyToken Cases.accounts (Cases.bearer "t-alice") = Auth.Next who
    /\ Auth.id_user who = Samples.alice.
Proof.
  pose proof (auth_hands_on Cases.verifyToken Cases.accounts (Cases.bearer "t-alice")) as H.
  destruct (Auth.auth Cases.verifyToken Cases.accounts (Cases.bearer "t-alice"))
    as [who|status code] eqn:E; [|vm_compute in E; discriminate].
  exists who. split; [reflexivity|].
  vm_compute in E. inversion E. reflexivity.
Defined.

(** Administrators and permissions.  The owner-or-admin check lets an
    administrator through whatever its options require, while the admin
    check refuses an administrator who lacks the required permission; a
    caller who is not an administrator is refused by the admin check, and
    by the owner-or-admin check unless self access is allowed, the caller's
    identifier is the resource's in the route or in the body, and the
    caller has the required permission. *)
Theorem administrators_and_permissions (who : Auth.identity) :
  (role (Auth.id_user who) = "admin" ->
     (forall options params body,
        Auth.ownerOrAdmin options params body (Some who) = Auth.Next who)
     /\ (forall p, p <> "" -> ~ In p (Auth.id_permissions who) ->
           Auth.admin (Some p) (Some who) = Auth.Denied 403 "PERMISSION_DENIED")
     /\ (forall p, p = "" \/ In p (Auth.id_permissions who) ->
           Auth.admin (Some p) (Some who) = Auth.Next who)
     /\ Auth.admin None (Some who) = Auth.Next who)
  /\ (role (Auth.id_user who) <> "admin" ->
      (forall p, Auth.admin p (Some who) = Auth.Denied 403 "ADMIN_REQUIRED")
      /\ (forall options params body,
            Auth.ownerOrAdmin options params body (Some who) = Auth.Next who ->
            Auth.allowSelfAccess options = true
            /\ (lookup (Auth.resourceUserIdField options) params
                = Some (userId (Auth.id_user who))
                \/ lookup (Auth.resourceUserIdField options) body
                   = Some (userId (Auth.id_user who)))
            /\ (forall p, Auth.requiredPermission options = Some p -> p <> "" ->
                  In p (Auth.id_permissions who)))).
Proof.
  split.
  - intros R. unfold Auth.ownerOrAdmin, Auth.admin. rewrite R. cbn.
    split; [reflexivity|]. split; [|split; [|reflexivity]].
    + intros p N I. destruct (String.eqb_spec p ""); [contradiction|].
      apply existsb_eqb_notIn in I. rewrite I. reflexivity.
    + intros p [-> | I]; [reflexivity|].
      apply existsb_eqb_In in I. rewrite I. now rewrite andb_false_r.
  - intros R. unfold Auth.ownerOrAdmin, Auth.admin.
    destruct (String.eqb_spec (role (Auth.id_user who)) "admin") as [E|_]; [contradiction|].
    cbn [negb orb]. split; [reflexivity|].
    intros options params body.
    destruct (Auth.allowSelfAccess options); cbn [andb]; [|discriminate].
    destruct (lookup (Auth.resourceUserIdField options) params) as [v|] eqn:P;
      destruct (lookup (Auth.resourceUserIdField options) body) as [w|] eqn:B;
      cbn [orb].
    all: intros H; split; [reflexivity|].
    all: repeat match type of H with
         | context [String.eqb ?a ?b] => destruct (String.eqb_spec a b)
         end; cbn [orb andb] in H.
    all: try discriminate.
    all: (split; [subst; auto|]).
    all: intros p Q N; rewrite Q in H.
    all: destruct (String.eqb_spec p ""); [contradiction|].
    all: destruct (existsb (String.eqb p) (Auth.id_permissions who)) eqn:X;
         [|discriminate].
    all: now apply existsb_eqb_In.
Qed.

Lemma administrators_and_permissions_witness :
  Auth.ownerOrAdmin
    {| Auth.resourceUserIdField := "userId"; Auth.allowSelfAccess := false;
       Auth.requiredPermission := Some "users:write" |} [] [] (Some Cases.root)
  = Auth.Next Cases.root
  /\ Auth.admin (Some "users:write") (Some Cases.root)
     = Auth.Denied 403 "PERMISSION_DENIED".
Proof.
  destruct (proj1 (administrators_and_permissions Cases.root) eq_refl) as [O [A _]].
  split; [apply O|]. apply A; [discriminate|]. simpl. tauto.
Defined.

(** ** The pages *)

(** The file list never shows a stored file in red: of the three states
    of the File schema, the error state falls to the default gray, the red
    class being kept for a state named failed that no file has. *)
Theorem status_colours (st : Files.status) :
  Pages.getStatusColor (Pages.statusText st) <> "bg-red-100 text-red-800"
  /\ Pages.getStatusColor (Pages.statusText Files.error) = "bg-gray-100 text-gray-800".
Proof. split; [destruct st; discriminate | reflexivity]. Qed.

(** Every upload the server's filter and size limit let through is
    accepted by the page too; the page also accepts, by its name alone, a
    file of at most 10MB whose type the server may refuse. *)
Theorem page_accepts_what_server_accepts (type name : string) (size : Z) :
  (size <= Intake.fileSizeLimit)%Z ->
  (Intake.fileFilter type = Ok true \/ Pages.excelName name = true) ->
  Pages.handleFile type name size = None.
Proof.
  intros S H. unfold Pages.handleFile. unfold Intake.fileSizeLimit in S.
  destruct (Z.ltb_spec (10 * 1024 * 1024) size) as [L|_]; [lia|].
  destruct H as [F|E].
  - unfold Intake.fileFilter in F.
    destruct (existsb (String.eqb type) Intake.allowedTypes); [reflexivity | discriminate].
  - rewrite E. now rewrite andb_false_r.
Qed.

Lemma page_accepts_what_server_accepts_witness :
  Pages.handleFile "text/plain" "Report.XLSX" 4096 = None
  /\ Intake.fileFilter "text/plain" = Throw "Only Excel files (.xls, .xlsx) are allowed".
Proof.
  split; [|reflexivity].
  apply page_accepts_what_server_accepts; [vm_compute; discriminate|].
  right. reflexivity.
Defined.
